(** * Session establishment and interaction client of matter.js

    A shallow embedding of

    - [PaseClient.pair] and [CaseServer.onNewExchange] / [handleSigma1]
      (src/packages/matter.js/src/session/pase/PaseClient.ts), and
    - [SubscriptionClient] and [InteractionClient]
      (the interaction client source file),

    together with the properties of these functions that the specification
    states.  Asynchronous functions are modelled in a state-and-exception
    monad: a computation takes the state of the world, returns a value or
    throws, and leaves a new state behind.  State written before a throw
    stays written, as in JavaScript. *)

From stdpp Require Import base option list gmap strings pretty.
From Stdlib Require Import ZArith Lia.

Open Scope Z_scope.

(** ** Errors and the effect monad *)

(** The values a [throw] can carry.  [JsError m] is [new Error(m)];
    [StatusResponseError] is the class of that name from
    InteractionMessenger; the last three are raised by the exchange layer
    under a messenger. *)
Inductive Error : Type :=
| JsError (message : string)
| StatusResponseError (message : string) (code : Z)
| TransportError
| ProtocolMismatch
| Timeout.

Inductive Outcome (A : Type) : Type :=
| Returned (a : A)
| Thrown (e : Error).
Arguments Returned {A} a.
Arguments Thrown {A} e.

Definition Eff (S A : Type) : Type := S -> Outcome A * S.

Module Eff.
Section Ops.
Context {S : Type}.

Definition ret {A} (a : A) : Eff S A := fun s => (Returned a, s).

Definition bind {A B} (m : Eff S A) (k : A -> Eff S B) : Eff S B :=
  fun s => match m s with
           | (Returned a, s') => k a s'
           | (Thrown e, s') => (Thrown e, s')
           end.

Definition throw {A} (e : Error) : Eff S A := fun s => (Thrown e, s).

Definition gets {A} (f : S -> A) : Eff S A := fun s => (Returned (f s), s).

Definition modify (f : S -> S) : Eff S unit := fun s => (Returned tt, f s).

(** [try { m } catch (error) { h error }] *)
Definition tryCatch {A} (m : Eff S A) (h : Error -> Eff S A) : Eff S A :=
  fun s => match m s with
           | (Returned a, s') => (Returned a, s')
           | (Thrown e, s') => h e s'
           end.

(** [try { m } finally { f }]: [f] runs on both exits; when [f] itself
    throws, its error replaces the outcome of [m]. *)
Definition tryFinally {A} (m : Eff S A) (f : Eff S unit) : Eff S A :=
  fun s => match m s with
           | (r, s') => match f s' with
                        | (Returned _, s'') => (r, s'')
                        | (Thrown e, s'') => (Thrown e, s'')
                        end
           end.

(** [xs.map(f)] for an [f] that may throw: elements are visited in
    order and the first throw ends the traversal. *)
Fixpoint mapM {A B} (f : A -> Eff S B) (xs : list A) : Eff S (list B) :=
  match xs with
  | [] => ret []
  | x :: xs' => bind (f x) (fun y => bind (mapM f xs') (fun ys => ret (y :: ys)))
  end.

(** [xs.forEach(f)] for an [f] that may throw. *)
Fixpoint forEach {A} (f : A -> Eff S unit) (xs : list A) : Eff S unit :=
  match xs with
  | [] => ret tt
  | x :: xs' => bind (f x) (fun _ => forEach f xs')
  end.

Definition lift {A} (r : Outcome A) : Eff S A := fun s => (r, s).

(** A computation that never changes the part [proj] of the state, and
    one that leaves it unchanged whenever it throws. *)
Definition keeps {A T} (proj : S -> T) (m : Eff S A) : Prop :=
  forall s, proj (m s).2 = proj s.

Definition keepsOnThrow {A T} (proj : S -> T) (m : Eff S A) : Prop :=
  forall s e s', m s = (Thrown e, s') -> proj s' = proj s.
End Ops.
End Eff.

Declare Scope eff_scope.
Delimit Scope eff_scope with eff.
Notation "'let*' x ':=' c 'in' k" := (Eff.bind c (fun x => k))
  (at level 10, x pattern, c at level 100, k at level 200) : eff_scope.
Notation "c '>>' k" := (Eff.bind c (fun _ => k))
  (at level 100, k at level 200, right associativity) : eff_scope.

(** JavaScript truthiness of an optional boolean field. *)
Definition truthy (b : option bool) : bool := default false b.

(** Template-literal rendering of an optional number. *)
Definition render (n : option N) : string :=
  match n with
  | Some k => pretty k
  | None => "undefined"
  end.

(** ** The interaction client: data model *)

Module Interaction.
Section Client.
(** [JsValue]: decoded attribute and command payloads (TypeScript [any]);
    [TlvStream]: a TLV-encoded element; [AttributeReport]: one raw entry
    of [DataReport.values] (TypeFromSchema<typeof TlvAttributeReport>).
    The TLV codec is outside the sources, so these stay abstract. *)
Context {JsValue TlvStream AttributeReport : Type}.

Definition StatusCode : Type := Z.

Record AttributePath : Type := {
  nodeId : option N;
  endpointId : option N;
  clusterId : option N;
  attributeId : option N }.

(** The object literal [{ endpointId, clusterId, attributeId }]. *)
Definition pathOf (e c a : option N) : AttributePath :=
  {| nodeId := None; endpointId := e; clusterId := c; attributeId := a |}.

(** DecodedAttributeReportValue; [value] may be [undefined]. *)
Record DecodedAttributeReportValue : Type := {
  path : AttributePath;
  value : option JsValue;
  version : N }.

Record DataReport : Type := {
  subscriptionId : option N;
  values : option (list AttributeReport);
  moreChunkedMessages : option bool;
  suppressResponse : option bool }.

Record ReadRequest : Type := {
  attributes : list AttributePath;
  interactionModelRevision : N;
  isFabricFiltered : bool }.

(** A TlvSchema object.  [isTlvNoResponse] tells whether the object is
    the [TlvNoResponse] singleton, which is all that the reference
    comparison [responseSchema !== TlvNoResponse] looks at. *)
Record TlvSchema : Type := {
  isTlvNoResponse : bool;
  encodeTlv : JsValue -> Outcome TlvStream;
  decodeTlv : TlvStream -> Outcome JsValue }.

(** An [Attribute<T>] of a cluster definition: [{ id, schema }]. *)
Record Attribute : Type := {
  attribute_id : N;
  schema : TlvSchema }.

(** One element of the argument of [setMultipleAttributes]. *)
Record AttributeWrite : Type := {
  write_endpointId : N;
  write_clusterId : N;
  write_attribute : Attribute;
  write_value : JsValue;
  write_dataVersion : option N }.

Record WriteRequestEntry : Type := {
  request_path : AttributePath;
  request_data : TlvStream;
  request_dataVersion : option N }.

Record WriteRequest : Type := {
  write_suppressResponse : bool;
  write_timedRequest : bool;
  writeRequests : list WriteRequestEntry;
  write_moreChunkedMessages : bool;
  write_interactionModelRevision : N }.

(** One element of [WriteResponse.writeResponses]:
    [{ status: { status, clusterStatus }, path }]. *)
Record WriteResponseEntry : Type := {
  status : option StatusCode;
  clusterStatus : option StatusCode;
  response_path : AttributePath }.

Record WriteResponse : Type := {
  writeResponses : list WriteResponseEntry }.

Record AttributeStatus : Type := {
  status_path : AttributePath;
  status_code : StatusCode }.

Record CommandPath : Type := {
  command_endpointId : N;
  command_clusterId : N;
  commandId : N }.

Record InvokeEntry : Type := {
  invoke_path : CommandPath;
  args : TlvStream }.

Record InvokeRequest : Type := {
  invokes : list InvokeEntry;
  invoke_timedRequest : bool;
  invoke_suppressResponse : bool;
  invoke_interactionModelRevision : N }.

(** One element of [InvokeResponse.responses]: [response] holds
    [response.response], [result] holds [result.result.code]. *)
Record InvokeResponseEntry : Type := {
  response : option TlvStream;
  result : option Z }.

Record InvokeResponse : Type := {
  responses : list InvokeResponseEntry }.

Record SubscribeRequest : Type := {
  attributeRequests : list AttributePath;
  keepSubscriptions : bool;
  minIntervalFloorSeconds : N;
  maxIntervalCeilingSeconds : N;
  subscribe_isFabricFiltered : bool }.

(** The entry of [subscribedLocalValues]: [{ value, version }]. *)
Record LocalValue : Type := {
  local_value : JsValue;
  local_version : option N }.

(** A caller-supplied callback: [None] when it returns, [Some e] when
    it throws [e]. *)
Definition Callback (A : Type) : Type := A -> option Error.

(** The two closures that the client stores in [subscriptionListeners],
    each with the optional user listener it captured. *)
Inductive Listener : Type :=
| SubscribeListener (listener : option (Callback (JsValue * N)))
| SubscribeMultipleListener (listener : option (Callback DecodedAttributeReportValue)).

Inductive Outbound : Type :=
| OutReadRequest (r : ReadRequest)
| OutStatus (code : StatusCode)
| OutWriteRequest (w : WriteRequest)
| OutInvokeRequest (i : InvokeRequest)
| OutSubscribeRequest (s : SubscribeRequest).

(** What the peer delivers next on an exchange: a message, or a failure
    of the read ([InFailure]). *)
Inductive Inbound : Type :=
| InDataReport (r : DataReport)
| InWriteResponse (r : option WriteResponse)
| InInvokeResponse (r : option InvokeResponse)
| InSubscribeResponse (report : DataReport) (subscriptionId : N)
| InFailure (e : Error).

(** Everything observable from outside, in the order it happened. *)
Inductive Event : Type :=
| EvOpen
| EvClose
| EvSent (m : Outbound)
| EvReceived (m : Inbound)
| EvLog (line : string)
| EvListener (v : JsValue) (ver : N)
| EvDataListener (d : DecodedAttributeReportValue).

(** The state of an [InteractionClient] and of the exchange layer under
    it.  [subscriptionListeners] is the one map object that the client
    shares with the [SubscriptionClient] it registers. *)
Record World : Type := {
  subscriptionListeners : gmap N Listener;
  subscribedLocalValues : gmap string LocalValue;
  inbound : list Inbound;
  sendOk : nat -> bool;
  trace : list Event }.

Definition emit (ev : Event) (w : World) : World :=
  {| subscriptionListeners := subscriptionListeners w;
     subscribedLocalValues := subscribedLocalValues w;
     inbound := inbound w;
     sendOk := sendOk w;
     trace := trace w ++ [ev] |}.

Definition setInbound (i : list Inbound) (w : World) : World :=
  {| subscriptionListeners := subscriptionListeners w;
     subscribedLocalValues := subscribedLocalValues w;
     inbound := i;
     sendOk := sendOk w;
     trace := trace w |}.

Definition setLocalValue (k : string) (v : LocalValue) (w : World) : World :=
  {| subscriptionListeners := subscriptionListeners w;
     subscribedLocalValues := <[k := v]> (subscribedLocalValues w);
     inbound := inbound w;
     sendOk := sendOk w;
     trace := trace w |}.

Definition setListener (k : N) (l : Listener) (w : World) : World :=
  {| subscriptionListeners := <[k := l]> (subscriptionListeners w);
     subscribedLocalValues := subscribedLocalValues w;
     inbound := inbound w;
     sendOk := sendOk w;
     trace := trace w |}.

(** *** Imported names

    Constants and functions that the client imports from modules outside
    the sources: the status enumerations (InteractionProtocol,
    CommandServer), the report decoder (AttributeDataDecoder) and the map
    key of a path (InteractionServer). *)
Class Imports : Type := {
  Success : StatusCode;
  Failure : StatusCode;
  InvalidSubscription : StatusCode;
  ResultCode_Success : Z;
  normalizeAndDecodeReadAttributeReport :
    list AttributeReport -> list DecodedAttributeReportValue;
  attributePathToId : AttributePath -> string }.

Context `{Imports}.
Open Scope eff_scope.

(** *** The messenger

    Modelled from the spec: InteractionMessenger is not among the sources.
    A send hands one message to the exchange and fails when the exchange
    does not accept it; a read takes the next inbound message and fails
    when there is none, when the exchange reports a failure, or when the
    message is of another kind than the expected one; a request method is
    a send followed by a read; [close] releases the exchange. *)
Definition send (m : Outbound) : Eff World unit :=
  fun w => if sendOk w (length (trace w))
           then (Returned tt, emit (EvSent m) w)
           else (Thrown TransportError, w).

Definition nextMessage : Eff World Inbound :=
  fun w => match inbound w with
           | [] => (Thrown Timeout, w)
           | InFailure e :: rest => (Thrown e, setInbound rest w)
           | m :: rest => (Returned m, emit (EvReceived m) (setInbound rest w))
           end.

Definition sendStatus (code : StatusCode) : Eff World unit :=
  send (OutStatus code).

Definition readDataReport : Eff World DataReport :=
  let* m := nextMessage in
  match m with
  | InDataReport r => Eff.ret r
  | _ => Eff.throw ProtocolMismatch
  end.

Definition sendReadRequest (request : ReadRequest) : Eff World DataReport :=
  send (OutReadRequest request) >> readDataReport.

Definition sendWriteCommand (request : WriteRequest) : Eff World (option WriteResponse) :=
  send (OutWriteRequest request) >>
  let* m := nextMessage in
  match m with
  | InWriteResponse r => Eff.ret r
  | _ => Eff.throw ProtocolMismatch
  end.

Definition sendInvokeCommand (request : InvokeRequest) : Eff World (option InvokeResponse) :=
  send (OutInvokeRequest request) >>
  let* m := nextMessage in
  match m with
  | InInvokeResponse r => Eff.ret r
  | _ => Eff.throw ProtocolMismatch
  end.

Definition sendSubscribeRequest (request : SubscribeRequest) : Eff World (DataReport * N) :=
  send (OutSubscribeRequest request) >>
  let* m := nextMessage in
  match m with
  | InSubscribeResponse report sid => Eff.ret (report, sid)
  | _ => Eff.throw ProtocolMismatch
  end.

Definition newMessenger : Eff World unit := Eff.modify (emit EvOpen).
Definition close : Eff World unit := Eff.modify (emit EvClose).

(** [logger.debug(line)] *)
Definition debug (line : string) : Eff World unit := Eff.modify (emit (EvLog line)).

(** *** Subscription listeners *)

(** [listener?.(...)]: nothing when the user gave no listener; otherwise
    the call is recorded and the callback returns or throws. *)
Definition callListener {A} (listener : option (Callback A)) (a : A) (ev : Event)
  : Eff World unit :=
  match listener with
  | None => Eff.ret tt
  | Some f =>
      Eff.modify (emit ev) >>
      match f a with
      | None => Eff.ret tt
      | Some e => Eff.throw e
      end
  end.

(** [this.subscribedLocalValues.set(attributePathToId({ endpointId,
    clusterId, attributeId }), { value, version })] *)
Definition storeLocalValue (p : AttributePath) (v : JsValue) (ver : N) : Eff World unit :=
  Eff.modify (setLocalValue
                (attributePathToId (pathOf (endpointId p) (clusterId p) (attributeId p)))
                {| local_value := v; local_version := Some ver |}).

(** The closure [subscriptionListener] built by [subscribe]
    (lines 205-224). *)
Definition subscribeListener (listener : option (Callback (JsValue * N)))
    (dataReport : DataReport) : Eff World unit :=
  match values dataReport with
  | None | Some [] => debug "Subscription result empty"
  | Some ((_ :: _) as vs) =>
      let data := normalizeAndDecodeReadAttributeReport vs in
      match data with
      | [] => Eff.throw (JsError "Subscription result reporting undefined/no value not specified")
      | [d] =>
          match value d with
          | None => Eff.throw (JsError "Subscription result reporting undefined value not specified")
          | Some v =>
              storeLocalValue (path d) v (version d) >>
              callListener listener (v, version d) (EvListener v (version d))
          end
      | _ :: _ :: _ => Eff.throw (JsError "Unexpected response with more then one attribute")
      end
  end.

(** The body of [values.forEach(data => ...)] in
    [subscribeMultipleAttributes] (lines 248-253). *)
Definition handleEntry (listener : option (Callback DecodedAttributeReportValue))
    (data : DecodedAttributeReportValue) : Eff World unit :=
  match value data with
  | None => Eff.throw (JsError "Subscription result reporting undefined value not specified")
  | Some v =>
      storeLocalValue (path data) v (version data) >>
      callListener listener data (EvDataListener data)
  end.

(** The closure [subscriptionListener] built by
    [subscribeMultipleAttributes] (lines 241-254). *)
Definition subscribeMultipleListener (listener : option (Callback DecodedAttributeReportValue))
    (dataReport : DataReport) : Eff World unit :=
  match values dataReport with
  | None | Some [] => debug "Subscription result empty"
  | Some ((_ :: _) as vs) =>
      Eff.forEach (handleEntry listener) (normalizeAndDecodeReadAttributeReport vs)
  end.

(** Calling an element of [subscriptionListeners]. *)
Definition callSubscriptionListener (l : Listener) (dataReport : DataReport) : Eff World unit :=
  match l with
  | SubscribeListener listener => subscribeListener listener dataReport
  | SubscribeMultipleListener listener => subscribeMultipleListener listener dataReport
  end.

(** *** SubscriptionClient *)

(** [SubscriptionClient.onNewExchange] (lines 71-88); the messages of
    the inbound exchange are the head of [inbound]. *)
Definition onNewExchange : Eff World unit :=
  let* dataReport := readDataReport in
  match subscriptionId dataReport with
  | None =>
      sendStatus InvalidSubscription >>
      Eff.throw (JsError "Invalid Data report without Subscription ID")
  | Some sid =>
      let* listener := Eff.gets (fun w => subscriptionListeners w !! sid) in
      match listener with
      | None =>
          sendStatus InvalidSubscription >>
          Eff.throw (JsError ("Unknown subscription ID " +:+ pretty sid))
      | Some l =>
          sendStatus Success >>
          callSubscriptionListener l dataReport
      end
  end.

(** *** InteractionClient *)

(** [withMessenger] (lines 291-298): a messenger is constructed,
    [invoke] runs on it, and [finally] closes the messenger on both
    exits. *)
Definition withMessenger {T} (invoke : Eff World T) : Eff World T :=
  newMessenger >>
  Eff.tryFinally invoke close.

(** The [while (true)] loop of [processReadRequest] (lines 137-146),
    entered with the response in hand and the values collected so far;
    [result.push(...response.values)] appends.  Every turn after
    the first takes one message from [inbound], so the loop makes at
    most [length inbound] further turns: [fuel] counts them, and more
    turns than that change nothing ([InteractionFacts.readChunks_fuel]):
    a loop that asks for a further chunk when nothing is pending fails
    with the Timeout of the read. *)
Fixpoint readChunks (fuel : nat) (response : DataReport) (result : list AttributeReport)
  : Eff World (list AttributeReport) :=
  let result :=
    match values response with
    | Some vs => result ++ vs
    | None => result
    end in
  (if truthy (suppressResponse response) then Eff.ret tt else sendStatus Success) >>
  if truthy (moreChunkedMessages response)
  then match fuel with
       | O => Eff.throw Timeout
       | S fuel' =>
           let* response := readDataReport in
           readChunks fuel' response result
       end
  else Eff.ret result.

(** [processReadRequest] (lines 133-150) *)
Definition processReadRequest (request : ReadRequest)
  : Eff World (list DecodedAttributeReportValue) :=
  let* response := sendReadRequest request in
  let* pending := Eff.gets (fun w => length (inbound w)) in
  let* result := readChunks pending response [] in
  Eff.ret (normalizeAndDecodeReadAttributeReport result).

(** [getMultipleAttributes] (lines 105-113) *)
Definition getMultipleAttributes (attributes : list AttributePath)
  : Eff World (list DecodedAttributeReportValue) :=
  withMessenger
    (processReadRequest {| attributes := attributes;
                           interactionModelRevision := 1;
                           isFabricFiltered := true |}).

(** [getAllAttributes] (lines 101-103); the empty object is the path
    without any field. *)
Definition getAllAttributes : Eff World (list DecodedAttributeReportValue) :=
  getMultipleAttributes [pathOf None None None].

(** [get] (lines 115-131); the result [None] is [undefined]. *)
Definition get (endpointId clusterId : N) (attribute : Attribute)
  : Eff World (option JsValue) :=
  let attributeId := attribute_id attribute in
  let* localValue :=
    Eff.gets (fun w => subscribedLocalValues w !!
                attributePathToId (pathOf (Some endpointId) (Some clusterId) (Some attributeId))) in
  match localValue with
  | Some localValue => Eff.ret (Some (local_value localValue))
  | None =>
      let* response :=
        getMultipleAttributes [pathOf (Some endpointId) (Some clusterId) (Some attributeId)] in
      match response with
      | [] => Eff.ret None
      | [first] => Eff.ret (value first)
      | _ :: _ :: _ => Eff.throw (JsError "Unexpected response with more then one attribute")
      end
  end.

(** The callback given to [writeResponses.flatMap] (lines 181-183): it
    returns one object, not an array, and [flatMap] keeps such a result
    as one element. *)
Definition toAttributeStatus (entry : WriteResponseEntry) : list AttributeStatus :=
  [ {| status_path := {| nodeId := nodeId (response_path entry);
                         endpointId := endpointId (response_path entry);
                         clusterId := clusterId (response_path entry);
                         attributeId := attributeId (response_path entry) |};
       status_code := match status entry with
                      | Some s => s
                      | None => match clusterStatus entry with
                                | Some s => s
                                | None => Failure
                                end
                      end |} ].

(** The callback given to [attributes.map] (lines 166-170). *)
Definition toWriteRequest (a : AttributeWrite) : Eff World WriteRequestEntry :=
  let* data := Eff.lift (encodeTlv (schema (write_attribute a)) (write_value a)) in
  Eff.ret {| request_path := pathOf (Some (write_endpointId a)) (Some (write_clusterId a))
                                    (Some (attribute_id (write_attribute a)));
             request_data := data;
             request_dataVersion := write_dataVersion a |}.

(** [setMultipleAttributes] (lines 164-185) *)
Definition setMultipleAttributes (attributes : list AttributeWrite)
  : Eff World (list AttributeStatus) :=
  withMessenger
    (let* writeRequests := Eff.mapM toWriteRequest attributes in
     let* response :=
       sendWriteCommand {| write_suppressResponse := false;
                           write_timedRequest := false;
                           writeRequests := writeRequests;
                           write_moreChunkedMessages := false;
                           write_interactionModelRevision := 1 |} in
     match response with
     | None => Eff.throw (JsError "No response received")
     | Some response =>
         Eff.ret (filter (fun s => status_code s <> Success)
                         (flat_map toAttributeStatus (writeResponses response)))
     end).

(** The text [${endpointId}/${clusterId}/${attributeId}]. *)
Definition renderPath (p : AttributePath) : string :=
  render (endpointId p) +:+ "/" +:+ render (clusterId p) +:+ "/" +:+ render (attributeId p).

(** [set] (lines 152-162); the status of a returned entry is never
    [undefined]. *)
Definition set (endpointId clusterId : N) (attribute : Attribute) (value : JsValue)
    (dataVersion : option N) : Eff World unit :=
  let* response :=
    setMultipleAttributes [ {| write_endpointId := endpointId;
                               write_clusterId := clusterId;
                               write_attribute := attribute;
                               write_value := value;
                               write_dataVersion := dataVersion |} ] in
  match response with
  | [] => Eff.ret tt
  | first :: _ =>
      if decide (status_code first <> Success)
      then Eff.throw (StatusResponseError
                        ("Error setting attribute " +:+ renderPath (status_path first))
                        (status_code first))
      else Eff.ret tt
  end.

(** [subscribe] (lines 187-229) *)
Definition subscribe (endpointId clusterId : N) (attribute : Attribute)
    (minIntervalFloorSeconds maxIntervalCeilingSeconds : N)
    (listener : option (Callback (JsValue * N))) : Eff World unit :=
  withMessenger
    (let attributeId := attribute_id attribute in
     let* (report, subscriptionId) :=
       sendSubscribeRequest
         {| attributeRequests := [pathOf (Some endpointId) (Some clusterId) (Some attributeId)];
            keepSubscriptions := true;
            minIntervalFloorSeconds := minIntervalFloorSeconds;
            maxIntervalCeilingSeconds := maxIntervalCeilingSeconds;
            subscribe_isFabricFiltered := true |} in
     Eff.modify (setListener subscriptionId (SubscribeListener listener)) >>
     subscribeListener listener report).

(** [subscribeMultipleAttributes] (lines 231-259) *)
Definition subscribeMultipleAttributes (attributeRequests : list AttributePath)
    (minIntervalFloorSeconds maxIntervalCeilingSeconds : N)
    (listener : option (Callback DecodedAttributeReportValue)) : Eff World unit :=
  withMessenger
    (let* (report, subscriptionId) :=
       sendSubscribeRequest
         {| attributeRequests := attributeRequests;
            keepSubscriptions := true;
            minIntervalFloorSeconds := minIntervalFloorSeconds;
            maxIntervalCeilingSeconds := maxIntervalCeilingSeconds;
            subscribe_isFabricFiltered := true |} in
     Eff.modify (setListener subscriptionId (SubscribeMultipleListener listener)) >>
     subscribeMultipleListener listener report).

(** [invoke] (lines 261-289); the result [None] is [undefined], the
    unit result of a command without response. *)
Definition invoke (endpointId clusterId : N) (request : JsValue) (id : N)
    (requestSchema : TlvSchema) (_responseId : N) (responseSchema : TlvSchema)
    (optional : bool) : Eff World (option JsValue) :=
  withMessenger
    (let* args := Eff.lift (encodeTlv requestSchema request) in
     let* invokeResponse :=
       sendInvokeCommand
         {| invokes := [ {| invoke_path := {| command_endpointId := endpointId;
                                              command_clusterId := clusterId;
                                              commandId := id |};
                            args := args |} ];
            invoke_timedRequest := false;
            invoke_suppressResponse := false;
            invoke_interactionModelRevision := 1 |} in
     match invokeResponse with
     | None => Eff.throw (JsError "No response received")
     | Some invokeResponse =>
         match responses invokeResponse with
         | [] => Eff.throw (JsError "No response received")
         | first :: _ =>
             match result first with
             | Some resultCode =>
                 if decide (resultCode <> ResultCode_Success)
                 then Eff.throw (JsError ("Received non-success result: " +:+ pretty resultCode))
                 else if negb (isTlvNoResponse responseSchema)
                 then Eff.throw (JsError "A response was expected for this command")
                 else Eff.ret None
             | None =>
                 match response first with
                 | Some response =>
                     let* decoded := Eff.lift (decodeTlv responseSchema response) in
                     Eff.ret (Some decoded)
                 | None =>
                     if optional
                     then Eff.ret None
                     else Eff.throw (JsError "Received invoke response with no result nor response")
                 end
             end
         end
     end).

(** *** Vocabulary of the specification

    The specification speaks of "the per-chunk values lists", of the
    status sent "after each chunk", of the "derived status" of a write
    response entry and of "the cache updates" of a report.  These are
    its words as definitions, for the statements below to compare the
    code with. *)

(** The exchange accepts every message that is sent. *)
Definition accepting (w : World) : Prop := forall n, sendOk w n = true.

(** The values list of one chunk; a chunk without [values] has none. *)
Definition valuesOf (c : DataReport) : list AttributeReport := default [] (values c).

(** What is seen of one chunk: its receipt, then a Success status unless
    the chunk suppresses the response. *)
Definition replyTo (c : DataReport) : list Event :=
  if truthy (suppressResponse c) then [] else [EvSent (OutStatus Success)].

Definition chunkEvents (c : DataReport) : list Event :=
  EvReceived (InDataReport c) :: replyTo c.

(** A chunk followed by [later]: [moreChunkedMessages] is set on every
    report but the last. *)
Fixpoint chunked (c : DataReport) (later : list DataReport) : Prop :=
  match later with
  | [] => truthy (moreChunkedMessages c) = false
  | c' :: later' => truthy (moreChunkedMessages c) = true /\ chunked c' later'
  end.

(** [status ?? clusterStatus ?? Failure] *)
Definition derivedStatus (entry : WriteResponseEntry) : StatusCode :=
  default (default Failure (clusterStatus entry)) (status entry).

Definition reported (entry : WriteResponseEntry) : AttributeStatus :=
  {| status_path := response_path entry; status_code := derivedStatus entry |}.

(** The cache after the entries of a report have been stored, first to
    last. *)
Definition cacheKey (d : DecodedAttributeReportValue) : string :=
  attributePathToId (pathOf (endpointId (path d)) (clusterId (path d)) (attributeId (path d))).

Definition cacheAfter (entries : list DecodedAttributeReportValue)
    (cache : gmap string LocalValue) : gmap string LocalValue :=
  foldl (fun m d => match value d with
                    | Some v => <[cacheKey d := {| local_value := v;
                                                   local_version := Some (version d) |}]> m
                    | None => m
                    end) cache entries.

(** The user-listener calls that a report's entries give rise to. *)
Definition listenerCalls (listener : option (Callback DecodedAttributeReportValue))
    (entries : list DecodedAttributeReportValue) : list Event :=
  match listener with
  | Some _ => map EvDataListener entries
  | None => []
  end.
(** Messengers constructed and messengers closed so far. *)
Definition isOpen (ev : Event) : bool :=
  match ev with
  | EvOpen => true
  | _ => false
  end.

Definition isClose (ev : Event) : bool :=
  match ev with
  | EvClose => true
  | _ => false
  end.

Definition opens (w : World) : nat := length (List.filter isOpen (trace w)).
Definition closes (w : World) : nat := length (List.filter isClose (trace w)).

(** Messengers that have been constructed and not closed. *)
Definition unclosed (w : World) : Z := Z.of_nat (opens w) - Z.of_nat (closes w).

(** The error that [SubscriptionClient.onNewExchange] throws for a report
    that it cannot dispatch. *)
Definition undispatched (sid : option N) : Error :=
  match sid with
  | None => JsError "Invalid Data report without Subscription ID"
  | Some sid => JsError ("Unknown subscription ID " +:+ pretty sid)
  end.

(** What [get] makes of the decoded answer of its read. *)
Definition firstValue (response : list DecodedAttributeReportValue) : Outcome (option JsValue) :=
  match response with
  | [] => Returned None
  | [first] => Returned (value first)
  | _ :: _ :: _ => Thrown (JsError "Unexpected response with more then one attribute")
  end.

(** The invoke request of [invoke]. *)
Definition invokeRequestFor (endpointId clusterId id : N) (args : TlvStream) : InvokeRequest :=
  {| invokes := [ {| invoke_path := {| command_endpointId := endpointId;
                                       command_clusterId := clusterId;
                                       commandId := id |};
                     args := args |} ];
     invoke_timedRequest := false;
     invoke_suppressResponse := false;
     invoke_interactionModelRevision := 1 |}.

(** The subscribe request of [subscribe] and
    [subscribeMultipleAttributes]. *)
Definition subscribeRequestFor (paths : list AttributePath) (minFloor maxCeiling : N)
  : SubscribeRequest :=
  {| attributeRequests := paths;
     keepSubscriptions := true;
     minIntervalFloorSeconds := minFloor;
     maxIntervalCeilingSeconds := maxCeiling;
     subscribe_isFabricFiltered := true |}.

(** The cache entry that a report entry with value [v] is stored as. *)
Definition localValueOf (d : DecodedAttributeReportValue) (v : JsValue) : LocalValue :=
  {| local_value := v; local_version := Some (version d) |}.

(** The error, if any, with which the listener of [subscribe] rejects the
    decoded entries of a report. *)
Definition rejection (data : list DecodedAttributeReportValue) : option Error :=
  match data with
  | [] => Some (JsError "Subscription result reporting undefined/no value not specified")
  | [d] =>
      match value d with
      | None => Some (JsError "Subscription result reporting undefined value not specified")
      | Some _ => None
      end
  | _ :: _ :: _ => Some (JsError "Unexpected response with more then one attribute")
  end.

(** The user-listener call that a single-attribute report gives rise
    to. *)
Definition listenerCall (listener : option (Callback (JsValue * N)))
    (d : DecodedAttributeReportValue) (v : JsValue) : list Event :=
  match listener with
  | Some _ => [EvListener v (version d)]
  | None => []
  end.

(** The read request of [getMultipleAttributes]. *)
Definition readRequestFor (paths : list AttributePath) : ReadRequest :=
  {| attributes := paths; interactionModelRevision := 1; isFabricFiltered := true |}.
End Client.

(** *** The cluster facade *)

Section Facade.
Context {JsValue TlvStream : Type}.

(** [capitalize] is imported from util/String, outside the sources. *)
Variable capitalize : string -> string.

(** A command of a cluster definition. *)
Record Command : Type := {
  requestId : N;
  requestSchema : @TlvSchema JsValue TlvStream;
  responseId : N;
  responseSchema : @TlvSchema JsValue TlvStream;
  optional : bool }.

(** The fields of a cluster definition that [ClusterClient] reads; the
    attributes and commands are listed in the order in which [for ... in]
    visits their names. *)
Record Cluster : Type := {
  cluster_id : N;
  cluster_attributes : list (string * @Attribute JsValue TlvStream);
  cluster_commands : list (string * Command) }.

(** The closures that [ClusterClient] stores in its result.  Each one
    captures the client, the endpoint and the cluster; [GetMethod a] is
    [() => interactionClient.get(endpointId, clusterId, a)], and likewise
    for [set], [subscribe] and [invoke]. *)
Inductive Method : Type :=
| GetMethod (attribute : @Attribute JsValue TlvStream)
| SetMethod (attribute : @Attribute JsValue TlvStream)
| SubscribeMethod (attribute : @Attribute JsValue TlvStream)
| CommandMethod (command : Command).

(** The body of the first loop (lines 44-50): three assignments to
    [result]. *)
Definition addAccessors (result : gmap string Method)
    (entry : string * @Attribute JsValue TlvStream) : gmap string Method :=
  let capitalizedAttributeName := capitalize entry.1 in
  <["subscribe" +:+ capitalizedAttributeName := SubscribeMethod entry.2]>
    (<["set" +:+ capitalizedAttributeName := SetMethod entry.2]>
       (<["get" +:+ capitalizedAttributeName := GetMethod entry.2]> result)).

(** The body of the second loop (lines 53-56). *)
Definition addCommand (result : gmap string Method) (entry : string * Command)
  : gmap string Method :=
  <[entry.1 := CommandMethod entry.2]> result.

(** [ClusterClient] (lines 39-59): the object [result], as a map from
    property names to closures. *)
Definition ClusterClient (clusterDef : Cluster) : gmap string Method :=
  foldl addCommand (foldl addAccessors ∅ (cluster_attributes clusterDef))
        (cluster_commands clusterDef).
End Facade.
End Interaction.

(** ** Session establishment: data model *)

Module SecureChannel.
Definition ByteArray : Type := list Byte.byte.

#[export] Instance byte_eq_dec : EqDecision Byte.byte := Byte.byte_eq_dec.

Definition NodeId : Type := N.

Record PbkdfParameters : Type := {
  iterations : N;
  salt : ByteArray }.

(** The data of a fabric that [handleSigma1] reads; its methods [sign]
    and [verifyCredentials] are among the imports below. *)
Record Fabric : Type := {
  fabricIndex : N;
  operationalCert : ByteArray;
  intermediateCACert : option ByteArray;
  operationalIdentityProtectionKey : ByteArray }.

(** The arguments of [createSecureSession], in order. *)
Record SecureSession : Type := {
  session_id : N;
  session_fabric : option Fabric;
  session_peerNodeId : NodeId;
  session_peerSessionId : N;
  session_sharedSecret : ByteArray;
  session_salt : ByteArray;
  isInitiator : bool;
  isResumption : bool;
  session_idleRetransTimeoutMs : option N;
  session_activeRetransTimeoutMs : option N }.

Record ResumptionRecord : Type := {
  sharedSecret : ByteArray;
  fabric : Fabric;
  peerNodeId : NodeId;
  resumptionId : ByteArray }.

(** [resumptionRecord.resumptionId = id] *)
Definition withResumptionId (id : ByteArray) (r : ResumptionRecord) : ResumptionRecord :=
  {| sharedSecret := sharedSecret r;
     fabric := fabric r;
     peerNodeId := peerNodeId r;
     resumptionId := id |}.

Record MrpParams : Type := {
  idleRetransTimeoutMs : option N;
  activeRetransTimeoutMs : option N }.

Record PbkdfParamRequest : Type := {
  request_random : ByteArray;
  request_sessionId : N;
  passcodeId : N;
  hasPbkdfParameters : bool }.

Record PbkdfParamResponse : Type := {
  pbkdfParameters : option PbkdfParameters;
  response_sessionId : N }.

Record Sigma1 : Type := {
  sigma1_sessionId : N;
  sigma1_resumptionId : option ByteArray;
  sigma1_resumeMic : option ByteArray;
  destinationId : ByteArray;
  sigma1_random : ByteArray;
  sigma1_ecdhPublicKey : ByteArray;
  sigma1_mrpParams : option MrpParams }.

Record Sigma2Resume : Type := {
  resume_resumptionId : ByteArray;
  resume_resumeMic : ByteArray;
  resume_sessionId : N }.

Record Sigma2 : Type := {
  sigma2_random : ByteArray;
  sigma2_sessionId : N;
  sigma2_ecdhPublicKey : ByteArray;
  sigma2_encrypted : ByteArray;
  sigma2_mrpParams : option MrpParams }.

(** The fields of the TLV structures that [handleSigma1] encodes and
    decodes. *)
Record SignedData : Type := {
  signed_nodeOpCert : ByteArray;
  signed_intermediateCACert : option ByteArray;
  signed_ecdhPublicKey : ByteArray;
  signed_peerEcdhPublicKey : ByteArray }.

Record EncryptedDataSigma2 : Type := {
  tbe2_nodeOpCert : ByteArray;
  tbe2_intermediateCACert : option ByteArray;
  tbe2_signature : ByteArray;
  tbe2_resumptionId : ByteArray }.

Record EncryptedDataSigma3 : Type := {
  tbe3_nodeOpCert : ByteArray;
  tbe3_intermediateCACert : option ByteArray;
  tbe3_signature : ByteArray }.

Record OperationalCertificate : Type := {
  ellipticCurvePublicKey : ByteArray;
  subject_nodeId : NodeId }.

Inductive Outbound : Type :=
| OutPbkdfParamRequest (m : PbkdfParamRequest)
| OutPasePake1 (x : ByteArray)
| OutPasePake3 (verifier : ByteArray)
| OutSigma2Resume (m : Sigma2Resume)
| OutSigma2 (m : Sigma2)
| OutSuccess
| OutError.

(** What the peer delivers next on the exchange.  A message comes with
    its serialised bytes where the handshake hashes them. *)
Inductive Inbound : Type :=
| InPbkdfParamResponse (responsePayload : ByteArray) (m : PbkdfParamResponse)
| InPasePake2 (y verifier : ByteArray)
| InSigma1 (sigma1Bytes : ByteArray) (m : Sigma1)
| InSigma3 (sigma3Bytes : ByteArray) (encrypted : ByteArray)
| InStatusReport (generalStatus : Z)
| InFailure (e : Error).

Inductive Event : Type :=
| EvSent (m : Outbound)
| EvReceived (m : Inbound)
| EvClose
| EvInfo (line : string)
| EvError (line : string) (error : Error)
| EvSaved (r : ResumptionRecord).

(** The node that runs the handshake (a [MatterController] for PASE, a
    [MatterDevice] for CASE), its exchange, and the random generator.

    [heap] holds the resumption record objects, an address being an
    index; [resumptionRecords] is the node's collection of records, as
    addresses, so that a field written through a found record is written
    in the object that the collection holds. *)
Record World : Type := {
  sessions : list SecureSession;
  nextSessionId : N;
  heap : list ResumptionRecord;
  resumptionRecords : list nat;
  fabrics : list Fabric;
  inbound : list Inbound;
  sendOk : nat -> bool;
  trace : list Event;
  channelName : string;
  randomSource : nat -> Byte.byte;
  drawn : nat }.

Definition setSessions (f : list SecureSession -> list SecureSession) (w : World) : World :=
  {| sessions := f (sessions w); nextSessionId := nextSessionId w; heap := heap w;
     resumptionRecords := resumptionRecords w; fabrics := fabrics w;
     inbound := inbound w; sendOk := sendOk w; trace := trace w;
     channelName := channelName w; randomSource := randomSource w; drawn := drawn w |}.

Definition setNextSessionId (n : N) (w : World) : World :=
  {| sessions := sessions w; nextSessionId := n; heap := heap w;
     resumptionRecords := resumptionRecords w; fabrics := fabrics w;
     inbound := inbound w; sendOk := sendOk w; trace := trace w;
     channelName := channelName w; randomSource := randomSource w; drawn := drawn w |}.

Definition setHeap (f : list ResumptionRecord -> list ResumptionRecord) (w : World) : World :=
  {| sessions := sessions w; nextSessionId := nextSessionId w; heap := f (heap w);
     resumptionRecords := resumptionRecords w; fabrics := fabrics w;
     inbound := inbound w; sendOk := sendOk w; trace := trace w;
     channelName := channelName w; randomSource := randomSource w; drawn := drawn w |}.

Definition setResumptionRecords (f : list nat -> list nat) (w : World) : World :=
  {| sessions := sessions w; nextSessionId := nextSessionId w; heap := heap w;
     resumptionRecords := f (resumptionRecords w); fabrics := fabrics w;
     inbound := inbound w; sendOk := sendOk w; trace := trace w;
     channelName := channelName w; randomSource := randomSource w; drawn := drawn w |}.

Definition setInbound (i : list Inbound) (w : World) : World :=
  {| sessions := sessions w; nextSessionId := nextSessionId w; heap := heap w;
     resumptionRecords := resumptionRecords w; fabrics := fabrics w;
     inbound := i; sendOk := sendOk w; trace := trace w;
     channelName := channelName w; randomSource := randomSource w; drawn := drawn w |}.

Definition emit (ev : Event) (w : World) : World :=
  {| sessions := sessions w; nextSessionId := nextSessionId w; heap := heap w;
     resumptionRecords := resumptionRecords w; fabrics := fabrics w;
     inbound := inbound w; sendOk := sendOk w; trace := trace w ++ [ev];
     channelName := channelName w; randomSource := randomSource w; drawn := drawn w |}.

Definition setDrawn (n : nat) (w : World) : World :=
  {| sessions := sessions w; nextSessionId := nextSessionId w; heap := heap w;
     resumptionRecords := resumptionRecords w; fabrics := fabrics w;
     inbound := inbound w; sendOk := sendOk w; trace := trace w;
     channelName := channelName w; randomSource := randomSource w; drawn := n |}.

Section Handshake.
(** *** Imported names

    Constants and functions that the handshakes import from modules
    outside the sources: the message constants (PaseMessenger,
    CaseMessages, SessionManager), [Crypto], [Spake2p], the TLV codecs
    and the methods of a fabric.  A function that draws randomness takes
    the drawn bytes as an argument; a function that can reject its input
    returns an [Outcome]. *)
Class Imports : Type := {
  DEFAULT_PASSCODE_ID : N;
  SPAKE_CONTEXT : ByteArray;
  UNDEFINED_NODE_ID : NodeId;
  GeneralStatusSuccess : Z;
  KDFSR1_KEY_INFO : ByteArray;
  KDFSR2_INFO : ByteArray;
  KDFSR2_KEY_INFO : ByteArray;
  KDFSR3_INFO : ByteArray;
  RESUME1_MIC_NONCE : ByteArray;
  RESUME2_MIC_NONCE : ByteArray;
  TBE_DATA2_NONCE : ByteArray;
  TBE_DATA3_NONCE : ByteArray;
  hash : list ByteArray -> ByteArray;
  hkdf : ByteArray -> ByteArray -> ByteArray -> ByteArray;
  encrypt : ByteArray -> ByteArray -> ByteArray -> ByteArray;
  decrypt : ByteArray -> ByteArray -> ByteArray -> Outcome ByteArray;
  ecdhGeneratePublicKeyAndSecret : ByteArray -> ByteArray -> ByteArray * ByteArray;
  verifySpki : ByteArray -> ByteArray -> ByteArray -> Outcome unit;
  Spake2p : Type;
  computeW0W1 : PbkdfParameters -> N -> Outcome (ByteArray * ByteArray);
  create : ByteArray -> ByteArray -> ByteArray -> Spake2p;
  computeX : Spake2p -> ByteArray;
  computeSecretAndVerifiersFromY :
    Spake2p -> ByteArray -> ByteArray -> ByteArray -> Outcome (ByteArray * ByteArray * ByteArray);
  encodePbkdfParamRequest : PbkdfParamRequest -> ByteArray;
  encodeSigma2 : Sigma2 -> ByteArray;
  TlvSignedData_encode : SignedData -> ByteArray;
  TlvEncryptedDataSigma2_encode : EncryptedDataSigma2 -> ByteArray;
  TlvEncryptedDataSigma3_decode : ByteArray -> Outcome EncryptedDataSigma3;
  TlvOperationalCertificate_decode : ByteArray -> Outcome OperationalCertificate;
  sign : Fabric -> ByteArray -> ByteArray;
  verifyCredentials : Fabric -> ByteArray -> option ByteArray -> Outcome unit;
  matchDestinationId : list Fabric -> ByteArray -> ByteArray -> Outcome Fabric }.

Context `{Imports}.
Open Scope eff_scope.

(** *** Crypto randomness *)

(** [crypto.getRandomData(length)]: the next [length] bytes of the
    generator. *)
Definition getRandomData (length : nat) : Eff World ByteArray :=
  fun w => (Returned (map (randomSource w) (seq (drawn w) length)),
            setDrawn (drawn w + length)%nat w).

(** [crypto.getRandom()] *)
Definition getRandom : Eff World ByteArray := getRandomData 32.

(** *** The messengers

    Modelled from the spec: PaseMessenger and CaseMessenger are not among
    the sources.  A send hands one message to the exchange and fails when
    the exchange does not accept it; a read takes the next inbound
    message and fails when there is none, when the exchange reports a
    failure, or when the message is of another kind than the expected
    one; [waitForSuccess] reads a status report and fails unless it
    reports success; [close] releases the exchange. *)
Definition send (m : Outbound) : Eff World unit :=
  fun w => if sendOk w (length (trace w))
           then (Returned tt, emit (EvSent m) w)
           else (Thrown TransportError, w).

Definition nextMessage : Eff World Inbound :=
  fun w => match inbound w with
           | [] => (Thrown Timeout, w)
           | InFailure e :: rest => (Thrown e, setInbound rest w)
           | m :: rest => (Returned m, emit (EvReceived m) (setInbound rest w))
           end.

Definition waitForSuccess : Eff World unit :=
  let* m := nextMessage in
  match m with
  | InStatusReport code =>
      if decide (code = GeneralStatusSuccess)
      then Eff.ret tt
      else Eff.throw (StatusResponseError "Received error status" code)
  | _ => Eff.throw ProtocolMismatch
  end.

Definition close : Eff World unit := Eff.modify (emit EvClose).

Definition sendPbkdfParamRequest (m : PbkdfParamRequest) : Eff World ByteArray :=
  send (OutPbkdfParamRequest m) >> Eff.ret (encodePbkdfParamRequest m).

Definition readPbkdfParamResponse : Eff World (ByteArray * PbkdfParamResponse) :=
  let* m := nextMessage in
  match m with
  | InPbkdfParamResponse responsePayload response => Eff.ret (responsePayload, response)
  | _ => Eff.throw ProtocolMismatch
  end.

Definition sendPasePake1 (x : ByteArray) : Eff World unit := send (OutPasePake1 x).

Definition readPasePake2 : Eff World (ByteArray * ByteArray) :=
  let* m := nextMessage in
  match m with
  | InPasePake2 y verifier => Eff.ret (y, verifier)
  | _ => Eff.throw ProtocolMismatch
  end.

Definition sendPasePake3 (verifier : ByteArray) : Eff World unit :=
  send (OutPasePake3 verifier).

Definition readSigma1 : Eff World (ByteArray * Sigma1) :=
  let* m := nextMessage in
  match m with
  | InSigma1 sigma1Bytes sigma1 => Eff.ret (sigma1Bytes, sigma1)
  | _ => Eff.throw ProtocolMismatch
  end.

Definition sendSigma2Resume (m : Sigma2Resume) : Eff World unit := send (OutSigma2Resume m).

Definition sendSigma2 (m : Sigma2) : Eff World ByteArray :=
  send (OutSigma2 m) >> Eff.ret (encodeSigma2 m).

Definition readSigma3 : Eff World (ByteArray * ByteArray) :=
  let* m := nextMessage in
  match m with
  | InSigma3 sigma3Bytes encrypted => Eff.ret (sigma3Bytes, encrypted)
  | _ => Eff.throw ProtocolMismatch
  end.

Definition sendSuccess : Eff World unit := send OutSuccess.
Definition sendError : Eff World unit := send OutError.

Definition info (line : string) : Eff World unit := Eff.modify (emit (EvInfo line)).

(** *** The node

    Modelled from the spec: MatterController, MatterDevice and
    SecureSession are not among the sources.  A session id is taken from
    a counter of unused ids; [createSecureSession] registers a session
    with the node and [destroy] removes it; resumption records are kept
    by the node and looked up by resumption id; [saveResumptionRecord]
    puts a record in the node's collection and persists it. *)
Definition getNextAvailableSessionId : Eff World N :=
  fun w => (Returned (nextSessionId w), setNextSessionId (nextSessionId w + 1)%N w).

Definition createSecureSession (s : SecureSession) : Eff World SecureSession :=
  Eff.modify (setSessions (fun l => l ++ [s])) >> Eff.ret s.

Definition destroy (s : SecureSession) : Eff World unit :=
  Eff.modify (setSessions (filter (fun s' => session_id s' <> session_id s))).

Fixpoint findRecord (h : list ResumptionRecord) (id : ByteArray) (refs : list nat)
  : option (nat * ResumptionRecord) :=
  match refs with
  | [] => None
  | a :: refs' =>
      match h !! a with
      | Some r => if decide (resumptionId r = id) then Some (a, r) else findRecord h id refs'
      | None => findRecord h id refs'
      end
  end.

(** The result is the address of the record object and its fields as
    they are when it is found. *)
Definition findResumptionRecordById (id : ByteArray) : Eff World (option (nat * ResumptionRecord)) :=
  Eff.gets (fun w => findRecord (heap w) id (resumptionRecords w)).

Definition saveResumptionRecord (ref : nat) : Eff World unit :=
  fun w =>
    let w' := setResumptionRecords
                (fun refs => if decide (ref ∈ refs) then refs else refs ++ [ref]) w in
    match heap w !! ref with
    | Some r => (Returned tt, emit (EvSaved r) w')
    | None => (Returned tt, w')
    end.

(** The object literal [{ peerNodeId, fabric, sharedSecret, resumptionId }]:
    a new object, whose address is returned. *)
Definition newResumptionRecord (r : ResumptionRecord) : Eff World nat :=
  fun w => (Returned (length (heap w)), setHeap (fun h => h ++ [r]) w).

Definition findFabricFromDestinationId (destinationId peerRandom : ByteArray) : Eff World Fabric :=
  fun w => (matchDestinationId (fabrics w) destinationId peerRandom, w).

(** *** PaseClient *)

(** [PaseClient.pair] (lines 20-50).  The random scalar of SPAKE2+ is
    drawn where the state object is made. *)
Definition pair (setupPin : N) : Eff World SecureSession :=
  let* random := getRandom in
  let* sessionId := getNextAvailableSessionId in

  (* Send pbkdRequest and Read pbkdResponse *)
  let* requestPayload :=
    sendPbkdfParamRequest {| request_random := random;
                             request_sessionId := sessionId;
                             passcodeId := DEFAULT_PASSCODE_ID;
                             hasPbkdfParameters := false |} in
  let* (responsePayload, response) := readPbkdfParamResponse in
  let peerSessionId := response_sessionId response in
  match pbkdfParameters response with
  | None => Eff.throw (JsError "Missing requested PbkdfParameters in the response")
  | Some pbkdfParameters =>

      (* Compute pake1 and read pake2 *)
      let* (w0, w1) := Eff.lift (computeW0W1 pbkdfParameters setupPin) in
      let* seed := getRandomData 32 in
      let spake2p := create (hash [SPAKE_CONTEXT; requestPayload; responsePayload]) w0 seed in
      let X := computeX spake2p in
      sendPasePake1 X >>

      (* Process pack2 and send pake3 *)
      let* (Y, verifier) := readPasePake2 in
      let* (Ke, hAY, hBX) := Eff.lift (computeSecretAndVerifiersFromY spake2p w1 X Y) in
      if decide (verifier = hBX)
      then
        sendPasePake3 hAY >>

        (* All good! Creating the secure session *)
        waitForSuccess >>
        let* secureSession :=
          createSecureSession {| session_id := sessionId;
                                 session_fabric := None;
                                 session_peerNodeId := UNDEFINED_NODE_ID;
                                 session_peerSessionId := peerSessionId;
                                 session_sharedSecret := Ke;
                                 session_salt := [];
                                 isInitiator := true;
                                 isResumption := false;
                                 session_idleRetransTimeoutMs := None;
                                 session_activeRetransTimeoutMs := None |} in
        close >>
        let* name := Eff.gets channelName in
        info ("Pase client: Paired successfully with " +:+ name) >>
        Eff.ret secureSession
      else Eff.throw (JsError "Received incorrect key confirmation from the receiver")
  end.

(** *** CaseServer *)

(** The resume branch of [handleSigma1] (lines 103-130); [ref] and
    [resumptionRecord] are the result of [findResumptionRecordById]. *)
Definition resume (sessionId : N) (resumptionId : ByteArray) (sigma1 : Sigma1)
    (peerResumptionId peerResumeMic : ByteArray)
    (ref : nat) (resumptionRecord : ResumptionRecord) : Eff World unit :=
  let peerRandom := sigma1_random sigma1 in
  let mrpParams := sigma1_mrpParams sigma1 in
  let sharedSecret := sharedSecret resumptionRecord in
  let peerResumeKey := hkdf sharedSecret (peerRandom ++ peerResumptionId) KDFSR1_KEY_INFO in
  let* _ := Eff.lift (decrypt peerResumeKey peerResumeMic RESUME1_MIC_NONCE) in

  (* All good! Create secure session *)
  let secureSessionSalt := peerRandom ++ peerResumptionId in
  let* secureSession :=
    createSecureSession {| session_id := sessionId;
                           session_fabric := Some (fabric resumptionRecord);
                           session_peerNodeId := peerNodeId resumptionRecord;
                           session_peerSessionId := sigma1_sessionId sigma1;
                           session_sharedSecret := sharedSecret;
                           session_salt := secureSessionSalt;
                           isInitiator := false;
                           isResumption := true;
                           session_idleRetransTimeoutMs := mrpParams ≫= idleRetransTimeoutMs;
                           session_activeRetransTimeoutMs := mrpParams ≫= activeRetransTimeoutMs |} in

  (* Generate sigma 2 resume *)
  let resumeSalt := peerRandom ++ resumptionId in
  let resumeKey := hkdf sharedSecret resumeSalt KDFSR2_KEY_INFO in
  let resumeMic := encrypt resumeKey [] RESUME2_MIC_NONCE in
  Eff.tryCatch
    (sendSigma2Resume {| resume_resumptionId := resumptionId;
                         resume_resumeMic := resumeMic;
                         resume_sessionId := sessionId |})
    (fun error =>
       (* If we fail to send the resume, we destroy the session *)
       destroy secureSession >> Eff.throw error) >>

  let* name := Eff.gets channelName in
  info ("Case server: session " +:+ pretty (session_id secureSession)
          +:+ " resumed with " +:+ name) >>
  Eff.modify (setHeap (alter (withResumptionId resumptionId) ref)) >> (* Update the ID *)

  (* Wait for success on the peer side *)
  waitForSuccess >>

  close >>
  saveResumptionRecord ref.

(** The [else] branch of [handleSigma1] (lines 132-164). *)
Definition establish (sessionId : N) (random resumptionId sigma1Bytes : ByteArray)
    (sigma1 : Sigma1) : Eff World unit :=
  let peerRandom := sigma1_random sigma1 in
  let peerEcdhPublicKey := sigma1_ecdhPublicKey sigma1 in
  let mrpParams := sigma1_mrpParams sigma1 in

  (* Generate sigma 2 *)
  let* fabric := findFabricFromDestinationId (destinationId sigma1) peerRandom in
  let nodeOpCert := operationalCert fabric in
  let intermediateCACert := intermediateCACert fabric in
  let operationalIdentityProtectionKey := operationalIdentityProtectionKey fabric in
  let* seed := getRandomData 32 in
  let (ecdhPublicKey, sharedSecret) := ecdhGeneratePublicKeyAndSecret peerEcdhPublicKey seed in
  let sigma2Salt :=
    operationalIdentityProtectionKey ++ random ++ ecdhPublicKey ++ hash [sigma1Bytes] in
  let sigma2Key := hkdf sharedSecret sigma2Salt KDFSR2_INFO in
  let signatureData :=
    TlvSignedData_encode {| signed_nodeOpCert := nodeOpCert;
                            signed_intermediateCACert := intermediateCACert;
                            signed_ecdhPublicKey := ecdhPublicKey;
                            signed_peerEcdhPublicKey := peerEcdhPublicKey |} in
  let signature := sign fabric signatureData in
  let encryptedData :=
    TlvEncryptedDataSigma2_encode {| tbe2_nodeOpCert := nodeOpCert;
                                     tbe2_intermediateCACert := intermediateCACert;
                                     tbe2_signature := signature;
                                     tbe2_resumptionId := resumptionId |} in
  let encrypted := encrypt sigma2Key encryptedData TBE_DATA2_NONCE in
  let* sigma2Bytes :=
    sendSigma2 {| sigma2_random := random;
                  sigma2_sessionId := sessionId;
                  sigma2_ecdhPublicKey := ecdhPublicKey;
                  sigma2_encrypted := encrypted;
                  sigma2_mrpParams := mrpParams |} in

  (* Read and process sigma 3 *)
  let* (sigma3Bytes, peerEncrypted) := readSigma3 in
  let sigma3Salt := operationalIdentityProtectionKey ++ hash [sigma1Bytes; sigma2Bytes] in
  let sigma3Key := hkdf sharedSecret sigma3Salt KDFSR3_INFO in
  let* peerEncryptedData := Eff.lift (decrypt sigma3Key peerEncrypted TBE_DATA3_NONCE) in
  let* tbe3 := Eff.lift (TlvEncryptedDataSigma3_decode peerEncryptedData) in
  let peerNewOpCert := tbe3_nodeOpCert tbe3 in
  let peerIntermediateCACert := tbe3_intermediateCACert tbe3 in
  let peerSignature := tbe3_signature tbe3 in
  let* _ := Eff.lift (verifyCredentials fabric peerNewOpCert peerIntermediateCACert) in
  let peerSignatureData :=
    TlvSignedData_encode {| signed_nodeOpCert := peerNewOpCert;
                            signed_intermediateCACert := peerIntermediateCACert;
                            signed_ecdhPublicKey := peerEcdhPublicKey;
                            signed_peerEcdhPublicKey := ecdhPublicKey |} in
  let* cert := Eff.lift (TlvOperationalCertificate_decode peerNewOpCert) in
  let peerPublicKey := ellipticCurvePublicKey cert in
  let peerNodeId := subject_nodeId cert in
  let* _ := Eff.lift (verifySpki peerPublicKey peerSignatureData peerSignature) in

  (* All good! Create secure session *)
  let secureSessionSalt :=
    operationalIdentityProtectionKey ++ hash [sigma1Bytes; sigma2Bytes; sigma3Bytes] in
  let* secureSession :=
    createSecureSession {| session_id := sessionId;
                           session_fabric := Some fabric;
                           session_peerNodeId := peerNodeId;
                           session_peerSessionId := sigma1_sessionId sigma1;
                           session_sharedSecret := sharedSecret;
                           session_salt := secureSessionSalt;
                           isInitiator := false;
                           isResumption := false;
                           session_idleRetransTimeoutMs := mrpParams ≫= idleRetransTimeoutMs;
                           session_activeRetransTimeoutMs := mrpParams ≫= activeRetransTimeoutMs |} in
  let* name := Eff.gets channelName in
  info ("Case server: session " +:+ pretty (session_id secureSession)
          +:+ " created with " +:+ name) >>
  sendSuccess >>

  let* resumptionRecord :=
    newResumptionRecord {| sharedSecret := sharedSecret;
                           fabric := fabric;
                           peerNodeId := peerNodeId;
                           resumptionId := resumptionId |} in

  close >>
  saveResumptionRecord resumptionRecord.

(** [CaseServer.handleSigma1] (lines 86-166) *)
Definition handleSigma1 : Eff World unit :=
  let* name := Eff.gets channelName in
  info ("Case server: Received pairing request from " +:+ name) >>
  (* Generate pairing info *)
  let* sessionId := getNextAvailableSessionId in
  let* random := getRandom in

  (* Read and process sigma 1 *)
  let* (sigma1Bytes, sigma1) := readSigma1 in

  (* Try to resume a previous session *)
  let* resumptionId := getRandomData 16 in

  (* We try to resume the session *)
  match sigma1_resumptionId sigma1, sigma1_resumeMic sigma1 with
  | Some peerResumptionId, Some peerResumeMic =>
      let* found := findResumptionRecordById peerResumptionId in
      match found with
      | Some (ref, resumptionRecord) =>
          resume sessionId resumptionId sigma1 peerResumptionId peerResumeMic
                 ref resumptionRecord
      | None => establish sessionId random resumptionId sigma1Bytes sigma1
      end
  | _, _ => establish sessionId random resumptionId sigma1Bytes sigma1
  end.

(** [CaseServer.onNewExchange] (lines 72-80) *)
Definition onNewExchange : Eff World unit :=
  Eff.tryCatch handleSigma1
    (fun error =>
       Eff.modify (emit (EvError "An error occurred during the commissioning" error)) >>
       sendError).

(** *** Vocabulary of the specification *)

(** The exchange accepts every message that is sent. *)
Definition accepting (w : World) : Prop := forall n, sendOk w n = true.

Definition isClose (ev : Event) : bool :=
  match ev with
  | EvClose => true
  | _ => false
  end.

(** "The messenger is closed": [close] has been called. *)
Definition closed (w : World) : bool := existsb isClose (trace w).

(** The records that have been persisted, in order. *)
Definition saved (w : World) : list ResumptionRecord :=
  omap (fun ev => match ev with
                  | EvSaved r => Some r
                  | _ => None
                  end) (trace w).

(** An Error status has been sent on the exchange. *)
Definition errorSent (w : World) : bool :=
  existsb (fun ev => match ev with
                     | EvSent OutError => true
                     | _ => false
                     end) (trace w).

(** The handshake cannot be resumed from sigma1: a resumption field is
    missing, or the node has no record under the peer's resumption id. *)
Definition notResumable (w : World) (sigma1 : Sigma1) : Prop :=
  match sigma1_resumptionId sigma1, sigma1_resumeMic sigma1 with
  | Some peerResumptionId, Some _ =>
      findRecord (heap w) peerResumptionId (resumptionRecords w) = None
  | _, _ => True
  end.

(** The sigma2 message of the full handshake, for the local key pair
    [keys] (public key and shared secret). *)
Definition sigma2For (fabric : Fabric) (random : ByteArray) (sessionId : N)
    (resumptionId sigma1Bytes : ByteArray) (sigma1 : Sigma1)
    (keys : ByteArray * ByteArray) : Sigma2 :=
  let sigma2Salt :=
    operationalIdentityProtectionKey fabric ++ random ++ keys.1 ++ hash [sigma1Bytes] in
  let signatureData :=
    TlvSignedData_encode {| signed_nodeOpCert := operationalCert fabric;
                            signed_intermediateCACert := intermediateCACert fabric;
                            signed_ecdhPublicKey := keys.1;
                            signed_peerEcdhPublicKey := sigma1_ecdhPublicKey sigma1 |} in
  let encryptedData :=
    TlvEncryptedDataSigma2_encode {| tbe2_nodeOpCert := operationalCert fabric;
                                     tbe2_intermediateCACert := intermediateCACert fabric;
                                     tbe2_signature := sign fabric signatureData;
                                     tbe2_resumptionId := resumptionId |} in
  {| sigma2_random := random;
     sigma2_sessionId := sessionId;
     sigma2_ecdhPublicKey := keys.1;
     sigma2_encrypted := encrypt (hkdf keys.2 sigma2Salt KDFSR2_INFO) encryptedData
                                 TBE_DATA2_NONCE;
     sigma2_mrpParams := sigma1_mrpParams sigma1 |}.

(** The verification of sigma3: the payload is decrypted and decoded, the
    peer's credentials are verified against the fabric, and the peer's
    signature over the two public keys is verified with the key of its
    certificate.  The result is the node id of the certificate, or the
    error of the first step that fails. *)
Definition verifySigma3 (fabric : Fabric) (keys : ByteArray * ByteArray)
    (sigma1Bytes sigma2Bytes : ByteArray) (sigma1 : Sigma1) (peerEncrypted : ByteArray)
  : Outcome NodeId :=
  let sigma3Salt :=
    operationalIdentityProtectionKey fabric ++ hash [sigma1Bytes; sigma2Bytes] in
  match decrypt (hkdf keys.2 sigma3Salt KDFSR3_INFO) peerEncrypted TBE_DATA3_NONCE with
  | Thrown e => Thrown e
  | Returned peerEncryptedData =>
      match TlvEncryptedDataSigma3_decode peerEncryptedData with
      | Thrown e => Thrown e
      | Returned tbe3 =>
          match verifyCredentials fabric (tbe3_nodeOpCert tbe3)
                                  (tbe3_intermediateCACert tbe3) with
          | Thrown e => Thrown e
          | Returned _ =>
              match TlvOperationalCertificate_decode (tbe3_nodeOpCert tbe3) with
              | Thrown e => Thrown e
              | Returned cert =>
                  match verifySpki
                          (ellipticCurvePublicKey cert)
                          (TlvSignedData_encode
                             {| signed_nodeOpCert := tbe3_nodeOpCert tbe3;
                                signed_intermediateCACert := tbe3_intermediateCACert tbe3;
                                signed_ecdhPublicKey := sigma1_ecdhPublicKey sigma1;
                                signed_peerEcdhPublicKey := keys.1 |})
                          (tbe3_signature tbe3) with
                  | Thrown e => Thrown e
                  | Returned _ => Returned (subject_nodeId cert)
                  end
              end
          end
      end
  end.

(** The [length] bytes of the generator from position [start]. *)
Definition randomBytes (w : World) (start length : nat) : ByteArray :=
  map (randomSource w) (seq start length).

(** The session and the resumption record of a full handshake. *)
Definition establishedSession (fabric : Fabric) (sessionId : N) (sigma1 : Sigma1)
    (keys : ByteArray * ByteArray) (sigma1Bytes sigma2Bytes sigma3Bytes : ByteArray)
    (peerNodeId : NodeId) : SecureSession :=
  {| session_id := sessionId;
     session_fabric := Some fabric;
     session_peerNodeId := peerNodeId;
     session_peerSessionId := sigma1_sessionId sigma1;
     session_sharedSecret := keys.2;
     session_salt := operationalIdentityProtectionKey fabric
                       ++ hash [sigma1Bytes; sigma2Bytes; sigma3Bytes];
     isInitiator := false;
     isResumption := false;
     session_idleRetransTimeoutMs := sigma1_mrpParams sigma1 ≫= idleRetransTimeoutMs;
     session_activeRetransTimeoutMs := sigma1_mrpParams sigma1 ≫= activeRetransTimeoutMs |}.

(** The session of a resumed handshake. *)
Definition resumedSession (record : ResumptionRecord) (sessionId : N) (sigma1 : Sigma1)
    (peerResumptionId : ByteArray) : SecureSession :=
  {| session_id := sessionId;
     session_fabric := Some (fabric record);
     session_peerNodeId := peerNodeId record;
     session_peerSessionId := sigma1_sessionId sigma1;
     session_sharedSecret := sharedSecret record;
     session_salt := sigma1_random sigma1 ++ peerResumptionId;
     isInitiator := false;
     isResumption := true;
     session_idleRetransTimeoutMs := sigma1_mrpParams sigma1 ≫= idleRetransTimeoutMs;
     session_activeRetransTimeoutMs := sigma1_mrpParams sigma1 ≫= activeRetransTimeoutMs |}.

(** The sigma2 resume message for the fresh id [resumptionId]. *)
Definition sigma2ResumeFor (record : ResumptionRecord) (sessionId : N) (sigma1 : Sigma1)
    (resumptionId : ByteArray) : Sigma2Resume :=
  {| resume_resumptionId := resumptionId;
     resume_resumeMic :=
       encrypt (hkdf (sharedSecret record) (sigma1_random sigma1 ++ resumptionId)
                     KDFSR2_KEY_INFO)
               [] RESUME2_MIC_NONCE;
     resume_sessionId := sessionId |}.

(** The states of a full handshake: after sigma3 has been read, and at
    the end. *)
Definition afterSigma3 (w : World) (sigma2 : Sigma2) (sigma3Bytes peerEncrypted : ByteArray)
    (rest : list Inbound) : World :=
  emit (EvReceived (InSigma3 sigma3Bytes peerEncrypted))
    (setInbound rest (emit (EvSent (OutSigma2 sigma2)) (setDrawn (drawn w + 32) w))).

Definition established (w : World) (session : SecureSession) (record : ResumptionRecord) : World :=
  emit (EvSaved record)
    (setResumptionRecords
       (fun refs => if decide (length (heap w) ∈ refs) then refs else refs ++ [length (heap w)])
       (emit EvClose
          (setHeap (fun h => h ++ [record])
             (emit (EvSent OutSuccess)
                (emit (EvInfo ("Case server: session " +:+ pretty (session_id session)
                                 +:+ " created with " +:+ channelName w))
                   (setSessions (fun l => l ++ [session]) w)))))).
End Handshake.
End SecureChannel.

(** ** Scenarios for the interaction client

    Concrete stand-ins for the imports and a few worlds, after the
    scenarios of the specification: values are integers, a raw report
    entry is already decoded, the key of a path is its rendering, and the
    status codes are those of the Matter tables. *)

Module InteractionScenarios.
Import Interaction.

Abbreviation Report := (@DecodedAttributeReportValue Z).

#[export] Instance imports : @Imports Z Report :=
  {| Success := 0;
     Failure := 1;
     InvalidSubscription := 125;
     ResultCode_Success := 0;
     normalizeAndDecodeReadAttributeReport := fun entries => entries;
     attributePathToId := renderPath |}.

Abbreviation World := (@World Z Z Report).

(** A client without subscriptions, on an exchange that accepts every
    message and has [messages] coming in. *)
Definition receiving (messages : list (@Inbound Z Report)) : World :=
  {| subscriptionListeners := ∅;
     subscribedLocalValues := ∅;
     inbound := messages;
     sendOk := fun _ => true;
     trace := [] |}.

Definition entry (e c a : N) (v : option Z) (ver : N) : Report :=
  {| path := {| nodeId := None; endpointId := Some e; clusterId := Some c;
                attributeId := Some a |};
     value := v;
     version := ver |}.

Definition report (sid : option N) (vs : list Report) (more suppress : bool)
  : @DataReport Report :=
  {| subscriptionId := sid;
     values := Some vs;
     moreChunkedMessages := Some more;
     suppressResponse := Some suppress |}.

(** S5: a wildcard read answered in three chunks; the second chunk
    suppresses its response. *)
Definition a : Report := entry 0 29 0 (Some 1) 1.
Definition b : Report := entry 0 29 1 (Some 2) 1.
Definition c : Report := entry 1 6 0 (Some 0) 7.
Definition d : Report := entry 1 6 16384 (Some 1) 7.
Definition e : Report := entry 1 29 0 (Some 5) 3.

Definition readAll : ReadRequest :=
  {| attributes := [pathOf None None None];
     interactionModelRevision := 1;
     isFabricFiltered := true |}.

Definition chunk1 := report None [a; b] true false.
Definition chunk2 := report None [c] true true.
Definition chunk3 := report None [d; e] false false.

Definition wildcardRead : World :=
  receiving [InDataReport chunk1; InDataReport chunk2; InDataReport chunk3].

(** A schema that encodes an integer as itself, and [TlvNoResponse]. *)
Definition TlvInt : @TlvSchema Z Z :=
  {| isTlvNoResponse := false; encodeTlv := Returned; decodeTlv := Returned |}.

Definition TlvNoResponse : @TlvSchema Z Z :=
  {| isTlvNoResponse := true; encodeTlv := Returned; decodeTlv := Returned |}.

Definition onOff : @Attribute Z Z := {| attribute_id := 0; schema := TlvInt |}.

(** A write of two attributes answered with one success, one cluster
    status and one entry without any status. *)
Definition writes : list (@AttributeWrite Z Z) :=
  [ {| write_endpointId := 1; write_clusterId := 6; write_attribute := onOff;
       write_value := 1; write_dataVersion := None |};
    {| write_endpointId := 1; write_clusterId := 8; write_attribute := onOff;
       write_value := 200; write_dataVersion := Some 4%N |} ].

Definition answer (st cst : option Z) (cluster : N) : WriteResponseEntry :=
  {| status := st; clusterStatus := cst; response_path := path (entry 1 cluster 0 None 0) |}.

Definition mixedAnswers : WriteResponse :=
  {| writeResponses := [answer (Some 0) None 6; answer None (Some 135) 8; answer None None 9] |}.

Definition mixedWrite : World := receiving [InWriteResponse (Some mixedAnswers)].

(** A command answered with a bare result. *)
Definition resultOnly (code : Z) : @InvokeResponse Z :=
  {| responses := [ {| response := None; result := Some code |} ] |}.

Definition invoked (code : Z) : World := receiving [InInvokeResponse (Some (resultOnly code))].

(** S6: a subscription to the on/off attribute of endpoint 1, whose user
    listener returns; and a report for it. *)
Definition onOffReport : @DataReport Report := report (Some 1%N) [c] false false.

Definition quietListener : Callback (Z * N) := fun _ => None.

Definition subscribed (l : @Listener Z) (messages : list (@Inbound Z Report)) : World :=
  {| subscriptionListeners := {[ 1%N := l ]};
     subscribedLocalValues := ∅;
     inbound := messages;
     sendOk := fun _ => true;
     trace := [] |}.

Definition onOffSubscribed : World :=
  subscribed (SubscribeListener (Some quietListener)) [InDataReport onOffReport].

(** A report for several attributes whose second entry has no value. *)
Definition holed : Report := entry 1 8 0 None 2.

Definition holedReport : @DataReport Report := report (Some 1%N) [c; holed; e] false false.

Definition quietDataListener : Callback Report := fun _ => None.

Definition holedSubscribed : World :=
  subscribed (SubscribeMultipleListener (Some quietDataListener)) [InDataReport holedReport].

(** A report with a second entry without value, after [e]; a report
    whose only entry without value is the last; and a user listener that
    throws. *)
Definition lateHole : Report := entry 1 8 1 None 2.

Definition twiceHoledReport : @DataReport Report :=
  report (Some 1%N) [c; holed; e; lateHole] false false.

Definition lateHoleReport : @DataReport Report := report (Some 1%N) [c; d; holed] false false.

Definition failingDataListener : Callback Report := fun _ => Some (JsError "listener failed").

(** A report for a subscription that the client does not have, and one
    without entries for the subscription that it has. *)
Definition strayReport : @DataReport Report := report (Some 2%N) [c] false false.

Definition straySubscribed : World :=
  subscribed (SubscribeListener (Some quietListener)) [InDataReport strayReport].

Definition emptyReport : @DataReport Report := report (Some 1%N) [] false false.

Definition emptySubscribed : World :=
  subscribed (SubscribeListener (Some quietListener)) [InDataReport emptyReport].

(** A read of the on/off attribute answered in one chunk. *)
Definition onOffAnswer : @DataReport Report := report None [c] false false.

Definition onOffRead : World := receiving [InDataReport onOffAnswer].

(** A schema for unsigned integers, which rejects a negative value; and
    a write whose second value it rejects. *)
Definition TlvUInt : @TlvSchema Z Z :=
  {| isTlvNoResponse := false;
     encodeTlv := fun v => if 0 <=? v then Returned v else Thrown (JsError "Invalid value");
     decodeTlv := Returned |}.

Definition level : @Attribute Z Z := {| attribute_id := 0; schema := TlvUInt |}.

Definition negativeLevel : @AttributeWrite Z Z :=
  {| write_endpointId := 1; write_clusterId := 8; write_attribute := level;
     write_value := -1; write_dataVersion := None |}.

(** A write and a command that the peer leaves without response. *)
Definition unansweredWrite : World := receiving [InWriteResponse None].

Definition unansweredInvoke : World := receiving [InInvokeResponse None].

(** A command answered with a response payload and no result. *)
Definition payloadOnly (tlv : Z) : @InvokeResponse Z :=
  {| responses := [ {| response := Some tlv; result := None |} ] |}.

Definition answered (tlv : Z) : World := receiving [InInvokeResponse (Some (payloadOnly tlv))].

(** A subscribe request answered with subscription id 1 and the initial
    report of S6. *)
Definition subscribing : World := receiving [InSubscribeResponse onOffReport 1%N].

(** A report for two attributes of endpoint 1, and the second of them. *)
Definition twoReport : @DataReport Report := report (Some 1%N) [c; d] false false.

Definition startUpOnOff : @Attribute Z Z := {| attribute_id := 16384; schema := TlvInt |}.

(** The facade of an on/off cluster; [capitalize] makes the first letter
    of a name upper case. *)
Definition capitalize (name : string) : string :=
  match name with
  | EmptyString => EmptyString
  | String first rest =>
      let n := Ascii.nat_of_ascii first in
      String (if (97 <=? n)%nat && (n <=? 122)%nat then Ascii.ascii_of_nat (n - 32) else first)
             rest
  end.

Definition toggle : @Command Z Z :=
  {| requestId := 2; requestSchema := TlvNoResponse; responseId := 2;
     responseSchema := TlvNoResponse; optional := false |}.

Definition offWithEffect : @Command Z Z :=
  {| requestId := 64; requestSchema := TlvInt; responseId := 64;
     responseSchema := TlvNoResponse; optional := false |}.

Definition onOffCluster : @Cluster Z Z :=
  {| cluster_id := 6;
     cluster_attributes := [("onOff", onOff); ("startUpOnOff", startUpOnOff)];
     cluster_commands := [("toggle", toggle); ("offWithEffect", offWithEffect)] |}.
End InteractionScenarios.

(** ** Scenarios for the session establishment

    Concrete stand-ins for the imports, in which every operation is
    transparent: a hash is the concatenation of its inputs, a derived key
    is secret, salt and info in a row, a ciphertext is its key and nonce
    followed by the plain text, and a signature is the signer's
    certificate followed by the signed data. *)

Module HandshakeScenarios.
Import SecureChannel.

Definition decryptionFailure : Error :=
  JsError "Unsupported state or unable to authenticate data".

Definition open (key data nonce : ByteArray) : Outcome ByteArray :=
  if decide (take (length (key ++ nonce)) data = key ++ nonce)
  then Returned (drop (length (key ++ nonce)) data)
  else Thrown decryptionFailure.

#[export] Instance imports : Imports :=
  {| DEFAULT_PASSCODE_ID := 0;
     SPAKE_CONTEXT := [Byte.x43; Byte.x48; Byte.x49; Byte.x50];
     UNDEFINED_NODE_ID := 0%N;
     GeneralStatusSuccess := 0;
     KDFSR1_KEY_INFO := [Byte.x01];
     KDFSR2_INFO := [Byte.x02];
     KDFSR2_KEY_INFO := [Byte.x03];
     KDFSR3_INFO := [Byte.x04];
     RESUME1_MIC_NONCE := [Byte.x05];
     RESUME2_MIC_NONCE := [Byte.x06];
     TBE_DATA2_NONCE := [Byte.x07];
     TBE_DATA3_NONCE := [Byte.x08];
     hash := fun parts => concat parts;
     hkdf := fun secret salt info => secret ++ salt ++ info;
     encrypt := fun key data nonce => key ++ nonce ++ data;
     decrypt := open;
     ecdhGeneratePublicKeyAndSecret := fun peer seed => (take 2 seed, take 2 peer ++ take 2 seed);
     verifySpki := fun key data signature =>
                     if decide (signature = key ++ data)
                     then Returned tt
                     else Thrown (JsError "Signature verification failed");
     Spake2p := ByteArray;
     computeW0W1 := fun params pin => Returned (salt params, rev (salt params));
     create := fun context w0 seed => take 2 context ++ w0 ++ take 2 seed;
     computeX := fun sp => Byte.x58 :: take 2 sp;
     computeSecretAndVerifiersFromY :=
       fun sp w1 X Y => Returned (X ++ Y, Byte.x0a :: Y, Byte.x0b :: X);
     encodePbkdfParamRequest := fun m => Byte.x20 :: take 2 (request_random m);
     encodeSigma2 := fun m => Byte.x31 :: sigma2_ecdhPublicKey m;
     TlvSignedData_encode := fun m => signed_ecdhPublicKey m ++ signed_peerEcdhPublicKey m;
     TlvEncryptedDataSigma2_encode := fun m => tbe2_signature m ++ tbe2_resumptionId m;
     TlvEncryptedDataSigma3_decode :=
       fun data => Returned {| tbe3_nodeOpCert := take 1 data;
                               tbe3_intermediateCACert := None;
                               tbe3_signature := drop 1 data |};
     TlvOperationalCertificate_decode :=
       fun cert => Returned {| ellipticCurvePublicKey := cert; subject_nodeId := 77%N |};
     sign := fun fabric data => operationalCert fabric ++ data;
     verifyCredentials := fun _ _ _ => Returned tt;
     matchDestinationId :=
       fun fabrics _ _ => match fabrics with
                          | fabric :: _ => Returned fabric
                          | [] => Thrown (JsError "Fabric cannot be found from destinationId")
                          end |}.

(** A generator that counts: byte [n] of its output is [n mod 256]. *)
Definition counting (n : nat) : Byte.byte :=
  default Byte.x00 (Byte.of_nat (n `mod` 256)%nat).

Definition home : Fabric :=
  {| fabricIndex := 1;
     operationalCert := [Byte.xc1];
     intermediateCACert := None;
     operationalIdentityProtectionKey := [Byte.x1d] |}.

(** A node with one fabric, the resumption records [records], no
    session, on an exchange that accepts every message and has [messages]
    coming in. *)
Definition node (records : list ResumptionRecord) (messages : list Inbound) : World :=
  {| sessions := [];
     nextSessionId := 1;
     heap := records;
     resumptionRecords := seq 0 (length records);
     fabrics := [home];
     inbound := messages;
     sendOk := fun _ => true;
     trace := [];
     channelName := "udp://peer";
     randomSource := counting;
     drawn := 0 |}.

(** S2: the peer's pake2 carries a verifier that differs from [hBX] in
    one byte. *)
Definition pbkdfResponse : Inbound :=
  InPbkdfParamResponse [Byte.x21]
    {| pbkdfParameters := Some {| iterations := 1000; salt := [Byte.x00; Byte.x01] |};
       response_sessionId := 9 |}.

Definition pake2 (verifier : ByteArray) : Inbound := InPasePake2 [Byte.x59] verifier.

Definition hBX : ByteArray := [Byte.x0b; Byte.x58; Byte.x43; Byte.x48].

Definition wrongVerifier : ByteArray := [Byte.x0b; Byte.x58; Byte.x43; Byte.x49].

Definition verifierMismatch : World := node [] [pbkdfResponse; pake2 wrongVerifier].

(** S1: the same pairing with the right verifier and a success status. *)
Definition pairing : World := node [] [pbkdfResponse; pake2 hBX; InStatusReport 0].

(** S3: the node holds a record with resumption id [R]; sigma1 carries
    [R] and a MIC that opens under the record's secret. *)
Definition R : ByteArray := replicate 16 Byte.x52.

Definition S : ByteArray := [Byte.x53; Byte.x53].

Definition known : ResumptionRecord :=
  {| sharedSecret := S; fabric := home; peerNodeId := 42%N; resumptionId := R |}.

Definition peerRandom : ByteArray := [Byte.xaa; Byte.xbb].

Definition resumeSigma1 : Sigma1 :=
  {| sigma1_sessionId := 9;
     sigma1_resumptionId := Some R;
     sigma1_resumeMic :=
       Some (encrypt (hkdf S (peerRandom ++ R) KDFSR1_KEY_INFO) [] RESUME1_MIC_NONCE);
     destinationId := [Byte.xd0];
     sigma1_random := peerRandom;
     sigma1_ecdhPublicKey := [Byte.xe0; Byte.xe1];
     sigma1_mrpParams := None |}.

(** The id that the generator gives the handshake: bytes 32 to 47. *)
Definition R' : ByteArray := map counting (seq 32 16).

Definition resumeConfirmed : World :=
  node [known] [InSigma1 [Byte.x30] resumeSigma1; InStatusReport 0].

(** The same resume, but the peer does not confirm: its status report is
    not a success. *)
Definition resumeRefused : World :=
  node [known] [InSigma1 [Byte.x30] resumeSigma1; InStatusReport 1].

(** A resume attempt whose MIC does not open. *)
Definition badMicSigma1 : Sigma1 :=
  {| sigma1_sessionId := 9;
     sigma1_resumptionId := Some R;
     sigma1_resumeMic := Some [Byte.x00];
     destinationId := [Byte.xd0];
     sigma1_random := peerRandom;
     sigma1_ecdhPublicKey := [Byte.xe0; Byte.xe1];
     sigma1_mrpParams := None |}.

Definition resumeBadMic : World := node [known] [InSigma1 [Byte.x30] badMicSigma1].

(** A parameter response without PBKDF parameters. *)
Definition bareResponse : PbkdfParamResponse :=
  {| pbkdfParameters := None; response_sessionId := 9 |}.

Definition withoutParameters : World := node [] [InPbkdfParamResponse [Byte.x21] bareResponse].

(** A full handshake: sigma1 without resumption fields, and a sigma3
    whose payload is the peer's certificate [c2] followed by its
    signature over the two public keys, encrypted under the sigma3 key. *)
Definition freshSigma1 : Sigma1 :=
  {| sigma1_sessionId := 9;
     sigma1_resumptionId := None;
     sigma1_resumeMic := None;
     destinationId := [Byte.xd0];
     sigma1_random := peerRandom;
     sigma1_ecdhPublicKey := [Byte.xe0; Byte.xe1];
     sigma1_mrpParams := None |}.

Definition localKeys : ByteArray * ByteArray :=
  ([Byte.x30; Byte.x31], [Byte.xe0; Byte.xe1; Byte.x30; Byte.x31]).

Definition sigma3Key : ByteArray :=
  hkdf localKeys.2
       (operationalIdentityProtectionKey home
          ++ hash [[Byte.x30]; [Byte.x31; Byte.x30; Byte.x31]])
       KDFSR3_INFO.

Definition sigma3Payload : ByteArray :=
  encrypt sigma3Key
          ([Byte.xc2] ++ [Byte.xc2] ++ [Byte.xe0; Byte.xe1] ++ localKeys.1)
          TBE_DATA3_NONCE.

Definition fullHandshake : World :=
  node [] [InSigma1 [Byte.x30] freshSigma1; InSigma3 [Byte.x32] sigma3Payload].

(** The same handshake with a sigma3 that does not decrypt. *)
Definition sealedSigma3 : World :=
  node [] [InSigma1 [Byte.x30] freshSigma1; InSigma3 [Byte.x32] [Byte.x00]].

(** A node without any fabric. *)
Definition uncommissioned (messages : list Inbound) : World :=
  {| sessions := [];
     nextSessionId := 1;
     heap := [];
     resumptionRecords := [];
     fabrics := [];
     inbound := messages;
     sendOk := fun _ => true;
     trace := [];
     channelName := "udp://peer";
     randomSource := counting;
     drawn := 0 |}.

(** The resume of S3 on an exchange that does not accept its third
    event, the send of sigma2 resume. *)
Definition resumeUnsent : World :=
  {| sessions := [];
     nextSessionId := 1;
     heap := [known];
     resumptionRecords := [0%nat];
     fabrics := [home];
     inbound := [InSigma1 [Byte.x30] resumeSigma1];
     sendOk := fun n => negb (n =? 2)%nat;
     trace := [];
     channelName := "udp://peer";
     randomSource := counting;
     drawn := 0 |}.
End HandshakeScenarios.

(** ** Facts about the effect monad *)

Module EffFacts.
Section Frame.
Context {S T : Type} (proj : S -> T).

Lemma keeps_ret {A} (a : A) : Eff.keeps proj (@Eff.ret S A a).
Proof. by intros s. Qed.

Lemma keeps_throw {A} (e : Error) : Eff.keeps proj (@Eff.throw S A e).
Proof. by intros s. Qed.

Lemma keeps_lift {A} (r : Outcome A) : Eff.keeps proj (@Eff.lift S A r).
Proof. by intros s. Qed.

Lemma keeps_gets {A} (g : S -> A) : Eff.keeps proj (Eff.gets g).
Proof. by intros s. Qed.

Lemma keeps_modify (f : S -> S) :
  (forall s, proj (f s) = proj s) -> Eff.keeps proj (Eff.modify f).
Proof. intros Hf s. apply Hf. Qed.

Lemma keeps_bind {A B} (m : Eff S A) (k : A -> Eff S B) :
  Eff.keeps proj m -> (forall a, Eff.keeps proj (k a)) -> Eff.keeps proj (Eff.bind m k).
Proof.
  intros Hm Hk s. unfold Eff.bind. specialize (Hm s).
  destruct (m s) as [[a|e] s1]; simpl in *; [|done].
  by rewrite Hk.
Qed.

Lemma keeps_tryFinally {A} (m : Eff S A) (f : Eff S unit) :
  Eff.keeps proj m -> Eff.keeps proj f -> Eff.keeps proj (Eff.tryFinally m f).
Proof.
  intros Hm Hf s. unfold Eff.tryFinally. specialize (Hm s).
  destruct (m s) as [r s1]. specialize (Hf s1).
  destruct (f s1) as [[u|e] s2]; simpl in *; congruence.
Qed.

Lemma keeps_mapM {A B} (f : A -> Eff S B) (xs : list A) :
  (forall x, Eff.keeps proj (f x)) -> Eff.keeps proj (Eff.mapM f xs).
Proof.
  intros Hf. induction xs as [|x xs IH]; simpl; [apply keeps_ret|].
  apply keeps_bind; [done|]. intros y.
  apply keeps_bind; [done|]. intros ys. apply keeps_ret.
Qed.

Lemma keeps_forEach {A} (f : A -> Eff S unit) (xs : list A) :
  (forall x, Eff.keeps proj (f x)) -> Eff.keeps proj (Eff.forEach f xs).
Proof.
  intros Hf. induction xs as [|x xs IH]; simpl; [apply keeps_ret|].
  apply keeps_bind; [done|]. by intros _.
Qed.

Lemma keepsOnThrow_keeps {A} (m : Eff S A) :
  Eff.keeps proj m -> Eff.keepsOnThrow proj m.
Proof. intros Hm s e s' Hrun. specialize (Hm s). by rewrite Hrun in Hm. Qed.

Lemma keepsOnThrow_returns {A} (m : Eff S A) :
  (forall s, exists a s', m s = (Returned a, s')) -> Eff.keepsOnThrow proj m.
Proof. intros Hm s e s' Hrun. destruct (Hm s) as (a & s1 & Hret). congruence. Qed.

Lemma keepsOnThrow_bind {A B} (m : Eff S A) (k : A -> Eff S B) :
  Eff.keeps proj m -> (forall a, Eff.keepsOnThrow proj (k a)) ->
  Eff.keepsOnThrow proj (Eff.bind m k).
Proof.
  intros Hm Hk s e s'. unfold Eff.bind. specialize (Hm s).
  destruct (m s) as [[a|e1] s1]; simpl in *.
  - intros Hrun. rewrite <- Hm. by eapply Hk.
  - by intros [= <- <-].
Qed.
End Frame.

(** What holds whenever a bind returns, when its first computation keeps
    [proj] and its continuation ensures [R]. *)
Lemma returns_bind {S T A B} (proj : S -> T) (R : T -> B -> S -> Prop)
    (m : Eff S A) (k : A -> Eff S B) :
  Eff.keeps proj m ->
  (forall a s b s', k a s = (Returned b, s') -> R (proj s) b s') ->
  forall s b s', Eff.bind m k s = (Returned b, s') -> R (proj s) b s'.
Proof.
  intros Hm Hk s b s'. unfold Eff.bind. specialize (Hm s).
  destruct (m s) as [[a|e] s1]; [|done]. simpl in Hm.
  intros Hrun. rewrite <- Hm. by eapply Hk.
Qed.

Lemma keeps_tryCatch {S T A} (proj : S -> T) (m : Eff S A) (h : Error -> Eff S A) :
  Eff.keeps proj m -> (forall e, Eff.keeps proj (h e)) -> Eff.keeps proj (Eff.tryCatch m h).
Proof.
  intros Hm Hh s. unfold Eff.tryCatch. specialize (Hm s).
  destruct (m s) as [[a|e] s1]; simpl in *; [done|]. by rewrite Hh.
Qed.

(** Running a bind whose first computation is known. *)
Lemma run_bind {S A B} (m : Eff S A) (k : A -> Eff S B) (s s' : S) (a : A) :
  m s = (Returned a, s') -> Eff.bind m k s = k a s'.
Proof. intros Hm. unfold Eff.bind. by rewrite Hm. Qed.

Lemma run_bind_thrown {S A B} (m : Eff S A) (k : A -> Eff S B) (s s' : S) (e : Error) :
  m s = (Thrown e, s') -> Eff.bind m k s = (Thrown e, s').
Proof. intros Hm. unfold Eff.bind. by rewrite Hm. Qed.

(** Running a [try] block whose body is known. *)
Lemma run_tryCatch {S A} (m : Eff S A) (h : Error -> Eff S A) (s s' : S) (a : A) :
  m s = (Returned a, s') -> Eff.tryCatch m h s = (Returned a, s').
Proof. intros Hm. unfold Eff.tryCatch. by rewrite Hm. Qed.

Lemma run_tryCatch_thrown {S A} (m : Eff S A) (h : Error -> Eff S A) (s s' : S) (e : Error) :
  m s = (Thrown e, s') -> Eff.tryCatch m h s = h e s'.
Proof. intros Hm. unfold Eff.tryCatch. by rewrite Hm. Qed.
End EffFacts.

(** ** Facts about the interaction client *)

Module InteractionFacts.
Import Interaction EffFacts.

Section Facts.
Context {JsValue TlvStream AttributeReport : Type}.
Context {imports : @Imports JsValue AttributeReport}.

Abbreviation World := (@World JsValue TlvStream AttributeReport).
Abbreviation Event := (@Event JsValue TlvStream AttributeReport).
Abbreviation Outbound := (@Outbound TlvStream).
Abbreviation Inbound := (@Inbound TlvStream AttributeReport).
Abbreviation DataReport := (@DataReport AttributeReport).
Abbreviation TlvSchema := (@TlvSchema JsValue TlvStream).
Abbreviation Attribute := (@Attribute JsValue TlvStream).
Abbreviation Decoded := (@DecodedAttributeReportValue JsValue).
Abbreviation Listener := (@Listener JsValue).

Implicit Types (w : World) (c : DataReport) (m : Outbound).

Lemma send_accepted w m :
  sendOk w (length (trace w)) = true ->
  send m w = (Returned tt, emit (EvSent m) w).
Proof. intros Hok. unfold send. by rewrite Hok. Qed.

Lemma readDataReport_next w c rest :
  inbound w = InDataReport c :: rest ->
  readDataReport w = (Returned c, emit (EvReceived (InDataReport c)) (setInbound rest w)).
Proof.
  intros Hin. unfold readDataReport, Eff.bind, nextMessage. by rewrite Hin.
Qed.

(** One turn of the loop answers the chunk in hand. *)
Lemma reply_run w c :
  accepting w ->
  (if truthy (suppressResponse c) then Eff.ret tt else sendStatus Success) w
  = (Returned tt, foldl (fun w ev => emit ev w) w (replyTo c)).
Proof.
  intros Hok. unfold replyTo. destruct (truthy (suppressResponse c)); [done|].
  unfold sendStatus. by rewrite send_accepted.
Qed.

Lemma foldl_emit_trace (evs : list Event) w :
  trace (foldl (fun w ev => emit ev w) w evs) = trace w ++ evs.
Proof.
  revert w. induction evs as [|ev evs IH]; intros w; simpl.
  - by rewrite app_nil_r.
  - rewrite IH. simpl. by rewrite <- app_assoc.
Qed.

Lemma foldl_emit_frame (evs : list Event) w :
  let w' := foldl (fun w ev => emit ev w) w evs in
  inbound w' = inbound w /\ sendOk w' = sendOk w
  /\ subscribedLocalValues w' = subscribedLocalValues w
  /\ subscriptionListeners w' = subscriptionListeners w.
Proof.
  revert w. induction evs as [|ev evs IH]; intros w; simpl; [done|].
  destruct (IH (emit ev w)) as (? & ? & ? & ?). simpl in *. done.
Qed.

(** The loop of [processReadRequest], started on chunk [c] with the
    chunks [later] still to come. *)
Lemma readChunks_run (later : list DataReport) :
  forall c fuel (result : list AttributeReport) w rest,
    accepting w ->
    chunked c later ->
    inbound w = map InDataReport later ++ rest ->
    (length later <= fuel)%nat ->
    exists w',
      readChunks fuel c result w
      = (Returned (result ++ concat (map valuesOf (c :: later))), w')
      /\ trace w' = trace w ++ replyTo c ++ flat_map chunkEvents later
      /\ inbound w' = rest
      /\ subscribedLocalValues w' = subscribedLocalValues w
      /\ subscriptionListeners w' = subscriptionListeners w.
Proof.
  induction later as [|c' later IH]; intros c fuel result w rest Hok Hch Hin Hfuel.
  - simpl in Hch, Hin.
    exists (foldl (fun w ev => emit ev w) w (replyTo c)).
    destruct (foldl_emit_frame (replyTo c) w) as (Hi & _ & Hc & Hl).
    split.
    + destruct fuel; simpl; unfold Eff.bind; rewrite (reply_run _ _ Hok), Hch;
        unfold Eff.ret, valuesOf; destruct (values c); simpl; by rewrite ?app_nil_r.
    + rewrite foldl_emit_trace, Hi. simpl. by rewrite app_nil_r.
  - destruct Hch as [Hmore Hch]. simpl in Hin.
    destruct fuel as [|fuel]; [simpl in Hfuel; lia|].
    set (w1 := foldl (fun w ev => emit ev w) w (replyTo c)).
    destruct (foldl_emit_frame (replyTo c) w) as (Hi & Hs & Hc & Hl). fold w1 in Hi, Hs, Hc, Hl.
    set (w2 := emit (EvReceived (InDataReport c')) (setInbound (map InDataReport later ++ rest) w1)).
    destruct (IH c' fuel (result ++ valuesOf c) w2 rest) as (w' & Hrun & Htr & Hin' & Hc' & Hl').
    + intros n. simpl. rewrite Hs. apply Hok.
    + done.
    + done.
    + simpl in Hfuel. lia.
    + exists w'. split; [|split; [|split; [done|split]]].
      * simpl. unfold Eff.bind at 1. rewrite (reply_run _ _ Hok), Hmore.
        unfold Eff.bind. fold w1.
        rewrite (readDataReport_next w1 c' (map InDataReport later ++ rest)) by (by rewrite Hi).
        fold w2.
        replace (match values c with Some vs => result ++ vs | None => result end)
          with (result ++ valuesOf c)
          by (unfold valuesOf; destruct (values c); simpl; by rewrite ?app_nil_r).
        rewrite Hrun. simpl. by rewrite <- app_assoc.
      * rewrite Htr. simpl. unfold w1. rewrite foldl_emit_trace.
        rewrite <- !app_assoc. done.
      * rewrite Hc'. simpl. done.
      * rewrite Hl'. simpl. done.
Qed.

Lemma chunked_snoc (chunks : list DataReport) (final : DataReport) :
  Forall (fun c => truthy (moreChunkedMessages c) = true) chunks ->
  truthy (moreChunkedMessages final) = false ->
  forall c later, chunks ++ [final] = c :: later -> chunked c later.
Proof.
  induction chunks as [|c0 chunks IH]; intros Hall Hfinal c later Heq; simpl in Heq.
  - by injection Heq as <- <-.
  - injection Heq as <- <-. apply Forall_cons in Hall as [Hc0 Hall].
    destruct (chunks ++ [final]) as [|c1 later1] eqn:Hsplit.
    + by destruct chunks.
    + simpl. split; [done|]. by apply IH.
Qed.

(** C4.  A chunked read, that is, DataReports with [moreChunkedMessages]
    set followed by one with it clear, on an exchange that accepts what
    is sent: [processReadRequest] returns the decode of the
    concatenation of the chunks' values lists in receipt order, and what
    it sends after the read request is one Success status after each
    chunk whose [suppressResponse] is not set, the final chunk included,
    and nothing after a chunk whose [suppressResponse] is set. *)
Theorem processReadRequest_chunked w (request : ReadRequest)
    (chunks : list DataReport) (final : DataReport) (rest : list Inbound) :
  accepting w ->
  Forall (fun c => truthy (moreChunkedMessages c) = true) chunks ->
  truthy (moreChunkedMessages final) = false ->
  inbound w = map InDataReport (chunks ++ [final]) ++ rest ->
  exists w',
    processReadRequest request w
    = (Returned (normalizeAndDecodeReadAttributeReport
                   (concat (map valuesOf (chunks ++ [final])))), w')
    /\ trace w' = trace w ++ EvSent (OutReadRequest request)
                           :: flat_map chunkEvents (chunks ++ [final]).
Proof.
  intros Hok Hall Hfinal Hin.
  destruct (chunks ++ [final]) as [|c later] eqn:Hsplit; [by destruct chunks|].
  pose proof (chunked_snoc chunks final Hall Hfinal c later Hsplit) as Hch.
  simpl in Hin.
  set (w1 := emit (EvSent (OutReadRequest request)) w).
  set (w2 := emit (EvReceived (InDataReport c)) (setInbound (map InDataReport later ++ rest) w1)).
  destruct (readChunks_run later c (length (inbound w2)) [] w2 rest)
    as (w' & Hrun & Htr & _); [by intros n; apply Hok|done|done| |].
  { simpl. rewrite length_app, length_map. lia. }
  exists w'. split.
  - unfold processReadRequest, sendReadRequest, Eff.bind at 1 2.
    rewrite send_accepted by apply Hok. fold w1.
    rewrite (readDataReport_next w1 c (map InDataReport later ++ rest)) by done.
    fold w2. unfold Eff.bind, Eff.gets. rewrite Hrun. done.
  - rewrite Htr. simpl. rewrite <- !app_assoc. done.
Qed.

(** *** Writes *)

Lemma flat_map_toAttributeStatus (entries : list WriteResponseEntry) :
  flat_map toAttributeStatus entries = map reported entries.
Proof.
  induction entries as [|entry entries IH]; [done|].
  simpl. rewrite IH. f_equal.
  unfold reported, derivedStatus.
  destruct entry as [st cst [n e c a]]; simpl. by destruct st, cst.
Qed.

Lemma mapM_toWriteRequest (attributes : list AttributeWrite) w :
  Forall (fun a => exists data : TlvStream,
              encodeTlv (schema (write_attribute a)) (write_value a) = Returned data)
         attributes ->
  exists requests, Eff.mapM toWriteRequest attributes w = (Returned requests, w).
Proof.
  induction 1 as [|a attributes [data Hdata] _ [requests IH]]; simpl.
  - by eexists.
  - unfold Eff.bind at 1. unfold toWriteRequest at 1, Eff.bind, Eff.lift.
    rewrite Hdata. simpl. unfold Eff.bind. rewrite IH. by eexists.
Qed.

(** C8.  When every value encodes, the exchange accepts the write request
    and the peer answers with a write response, [setMultipleAttributes]
    returns exactly the entries of the response whose derived status
    ([status ?? clusterStatus ?? Failure]) is not Success, in response
    order; a response whose entries are all Success gives the empty
    list. *)
Theorem setMultipleAttributes_returns_failures w (attributes : list AttributeWrite)
    (response : WriteResponse) (rest : list Inbound) :
  Forall (fun a => exists data : TlvStream,
              encodeTlv (schema (write_attribute a)) (write_value a) = Returned data)
         attributes ->
  accepting w ->
  inbound w = InWriteResponse (Some response) :: rest ->
  (setMultipleAttributes attributes w).1
  = Returned (filter (fun s => status_code s <> Success)
                     (map reported (writeResponses response)))
  /\ (Forall (fun entry => derivedStatus entry = Success) (writeResponses response) ->
      (setMultipleAttributes attributes w).1 = Returned []).
Proof.
  intros Henc Hok Hin.
  assert ((setMultipleAttributes attributes w).1
          = Returned (filter (fun s => status_code s <> Success)
                             (map reported (writeResponses response)))) as Hrun.
  { unfold setMultipleAttributes, withMessenger, Eff.bind at 1, newMessenger, Eff.modify.
    unfold Eff.tryFinally, Eff.bind at 1.
    destruct (mapM_toWriteRequest attributes (emit EvOpen w) Henc) as [requests ->].
    unfold sendWriteCommand, Eff.bind at 1 2.
    rewrite send_accepted by apply Hok.
    unfold Eff.bind, nextMessage. simpl. rewrite Hin. simpl.
    by rewrite flat_map_toAttributeStatus. }
  split; [done|].
  intros Hall. rewrite Hrun. f_equal. clear Hrun.
  induction Hall as [|entry entries Hentry _ IH]; [done|].
  simpl. rewrite filter_cons_False; [done|].
  intros Hne. by apply Hne.
Qed.

(** *** The write path leaves the cache alone *)

Section Frame.
Context {T : Type} (proj : World -> T).
Hypothesis proj_emit : forall ev w, proj (emit ev w) = proj w.
Hypothesis proj_setInbound : forall i w, proj (setInbound i w) = proj w.

Lemma keeps_emit (ev : Event) : Eff.keeps proj (Eff.modify (emit ev)).
Proof. intros w. apply proj_emit. Qed.

Lemma keeps_send m : Eff.keeps proj (send m).
Proof. intros w. unfold send. destruct (sendOk w _); simpl; [apply proj_emit|done]. Qed.

Lemma keeps_nextMessage : Eff.keeps proj (@nextMessage JsValue TlvStream AttributeReport).
Proof.
  intros w. unfold nextMessage.
  destruct (inbound w) as [|[] ?]; simpl; by rewrite ?proj_emit, ?proj_setInbound.
Qed.

Lemma keeps_withMessenger {A} (f : Eff World A) :
  Eff.keeps proj f -> Eff.keeps proj (withMessenger f).
Proof.
  intros Hf. unfold withMessenger.
  apply keeps_bind; [apply keeps_emit|]. intros _.
  apply keeps_tryFinally; [done|apply keeps_emit].
Qed.

Lemma keeps_callListener {A} (listener : option (Callback A)) (a : A) (ev : Event) :
  Eff.keeps proj (callListener listener a ev).
Proof.
  destruct listener as [f|]; simpl; [|apply keeps_ret].
  apply keeps_bind; [apply keeps_emit|]. intros _.
  destruct (f a); [apply keeps_throw|apply keeps_ret].
Qed.
End Frame.

(** The loop never runs out of turns: with at least as many turns as
    there are pending messages, one more turn changes nothing.  In
    particular a loop that asks for a further chunk when nothing is
    pending fails with the Timeout of the read. *)
Lemma readChunks_fuel (fuel : nat) :
  forall c (result : list AttributeReport) w,
    (length (inbound w) <= fuel)%nat ->
    readChunks (S fuel) c result w = readChunks fuel c result w.
Proof.
  induction fuel as [|fuel IH]; intros c result w Hlen.
  - simpl. unfold Eff.bind.
    destruct ((if truthy (suppressResponse c) then Eff.ret tt else sendStatus Success) w)
      as [[[]|e] w1] eqn:Hreply; [|done].
    destruct (truthy (moreChunkedMessages c)); [|done].
    assert (inbound w1 = inbound w) as Hin.
    { destruct (truthy (suppressResponse c)).
      - by injection Hreply as <-.
      - pose proof (keeps_send (@inbound JsValue TlvStream AttributeReport)
                      (fun _ _ => eq_refl) (OutStatus Success) w) as Hkeep.
        unfold sendStatus in Hreply. by rewrite Hreply in Hkeep. }
    unfold readDataReport, Eff.bind, nextMessage. rewrite Hin.
    destruct (inbound w); [done|simpl in Hlen; lia].
  - change (readChunks (S (S fuel)) c result w)
      with (Eff.bind
              (if truthy (suppressResponse c) then Eff.ret tt else sendStatus Success)
              (fun _ => if truthy (moreChunkedMessages c)
                        then Eff.bind readDataReport
                               (fun response =>
                                  readChunks (S fuel) response
                                    match values c with
                                    | Some vs => result ++ vs
                                    | None => result
                                    end)
                        else Eff.ret match values c with
                                     | Some vs => result ++ vs
                                     | None => result
                                     end) w).
    change (readChunks (S fuel) c result w)
      with (Eff.bind
              (if truthy (suppressResponse c) then Eff.ret tt else sendStatus Success)
              (fun _ => if truthy (moreChunkedMessages c)
                        then Eff.bind readDataReport
                               (fun response =>
                                  readChunks fuel response
                                    match values c with
                                    | Some vs => result ++ vs
                                    | None => result
                                    end)
                        else Eff.ret match values c with
                                     | Some vs => result ++ vs
                                     | None => result
                                     end) w).
    unfold Eff.bind at 1 3.
    destruct ((if truthy (suppressResponse c) then Eff.ret tt else sendStatus Success) w)
      as [[[]|e] w1] eqn:Hreply; [|done].
    destruct (truthy (moreChunkedMessages c)); [|done].
    assert (inbound w1 = inbound w) as Hin.
    { destruct (truthy (suppressResponse c)).
      - by injection Hreply as <-.
      - pose proof (keeps_send (@inbound JsValue TlvStream AttributeReport)
                      (fun _ _ => eq_refl) (OutStatus Success) w) as Hkeep.
        unfold sendStatus in Hreply. by rewrite Hreply in Hkeep. }
    unfold Eff.bind.
    destruct (readDataReport w1) as [[c'|e] w2] eqn:Hread; [|done].
    apply IH.
    unfold readDataReport, Eff.bind, nextMessage in Hread. rewrite Hin in Hread.
    destruct (inbound w) as [|[] rest]; simplify_eq; simpl in *.
    unfold Eff.ret in Hread. injection Hread as <- <-. simpl. lia.
Qed.

Lemma keepsCache_setMultipleAttributes (attributes : list AttributeWrite) :
  Eff.keeps (@subscribedLocalValues JsValue TlvStream AttributeReport)
            (setMultipleAttributes attributes).
Proof.
  apply keeps_withMessenger; [done|].
  apply keeps_bind.
  { apply keeps_mapM. intros a. apply keeps_bind; [apply keeps_lift|].
    intros data. apply keeps_ret. }
  intros requests. apply keeps_bind.
  { apply keeps_bind; [by apply keeps_send|]. intros _.
    apply keeps_bind; [by apply keeps_nextMessage|].
    intros []; first [apply keeps_ret | apply keeps_throw]. }
  intros [response|]; [apply keeps_ret|apply keeps_throw].
Qed.

(** C7.  Whatever [setMultipleAttributes] and [set] are called with, in
    whatever state, and whether they return or throw, the cache
    [subscribedLocalValues] is the same map afterwards as before. *)
Theorem write_path_keeps_cache w (attributes : list AttributeWrite)
    (endpointId clusterId : N) (attribute : Attribute) (value : JsValue)
    (dataVersion : option N) :
  subscribedLocalValues (setMultipleAttributes attributes w).2 = subscribedLocalValues w
  /\ subscribedLocalValues (set endpointId clusterId attribute value dataVersion w).2
     = subscribedLocalValues w.
Proof.
  split; [apply keepsCache_setMultipleAttributes|].
  revert w.
  change (Eff.keeps (@subscribedLocalValues JsValue TlvStream AttributeReport)
            (set endpointId clusterId attribute value dataVersion)).
  apply keeps_bind; [apply keepsCache_setMultipleAttributes|].
  intros [|first others]; [apply keeps_ret|].
  destruct (decide _); [apply keeps_throw|apply keeps_ret].
Qed.

(** *** Invoke *)

(** C9.  An [invoke] whose request encodes, on an exchange that accepts
    it, and whose first response entry carries a result: with result code
    Success the call returns [undefined] when the response schema is
    [TlvNoResponse] and throws "A response was expected for this command"
    when it is any other schema; with any other result code it throws an
    error whose message carries the code. *)
Theorem invoke_result_entry w (endpointId clusterId : N) (request : JsValue) (id : N)
    (requestSchema : TlvSchema) (responseId : N) (responseSchema : TlvSchema)
    (optional : bool) (args : TlvStream) (invokeResponse : InvokeResponse)
    (first : InvokeResponseEntry) (others : list InvokeResponseEntry) (code : Z)
    (rest : list Inbound) :
  encodeTlv requestSchema request = Returned args ->
  accepting w ->
  inbound w = InInvokeResponse (Some invokeResponse) :: rest ->
  responses invokeResponse = first :: others ->
  result first = Some code ->
  let outcome :=
    (invoke endpointId clusterId request id requestSchema responseId responseSchema
            optional w).1 in
  (code = ResultCode_Success -> isTlvNoResponse responseSchema = true ->
   outcome = Returned None)
  /\ (code = ResultCode_Success -> isTlvNoResponse responseSchema = false ->
      outcome = Thrown (JsError "A response was expected for this command"))
  /\ (code <> ResultCode_Success ->
      outcome = Thrown (JsError ("Received non-success result: " +:+ pretty code))).
Proof.
  intros Henc Hok Hin Hresp Hres outcome.
  assert (outcome
          = if decide (code <> ResultCode_Success)
            then Thrown (JsError ("Received non-success result: " +:+ pretty code))
            else if negb (isTlvNoResponse responseSchema)
                 then Thrown (JsError "A response was expected for this command")
                 else Returned None) as ->.
  { unfold outcome, invoke, withMessenger, Eff.bind at 1, newMessenger, Eff.modify.
    unfold Eff.tryFinally, Eff.bind at 1, Eff.lift. rewrite Henc.
    unfold sendInvokeCommand, Eff.bind at 1 2.
    rewrite send_accepted by apply Hok.
    unfold Eff.bind, nextMessage. simpl. rewrite Hin. simpl. rewrite Hresp, Hres.
    destruct (decide (code <> ResultCode_Success)); [done|].
    by destruct (isTlvNoResponse responseSchema). }
  repeat split.
  - intros -> ->. by rewrite decide_False by (by intros []).
  - intros -> ->. by rewrite decide_False by (by intros []).
  - intros Hne. by rewrite decide_True.
Qed.

(** *** The subscription receiver *)

Lemma keepsListeners_storeLocalValue (p : AttributePath) (v : JsValue) (ver : N) :
  Eff.keeps (@subscriptionListeners JsValue TlvStream AttributeReport)
            (storeLocalValue p v ver).
Proof. by intros w. Qed.

Lemma keepsListeners_callSubscriptionListener (l : Listener) (dataReport : DataReport) :
  Eff.keeps (@subscriptionListeners JsValue TlvStream AttributeReport)
            (callSubscriptionListener l dataReport).
Proof.
  destruct l as [listener|listener]; simpl.
  - unfold subscribeListener.
    destruct (values dataReport) as [[|r rs]|]; try by apply keeps_emit.
    destruct (normalizeAndDecodeReadAttributeReport (r :: rs)) as [|d [|d' data]];
      try apply keeps_throw.
    destruct (value d); [|apply keeps_throw].
    apply keeps_bind; [apply keepsListeners_storeLocalValue|].
    intros _. by apply keeps_callListener.
  - unfold subscribeMultipleListener.
    destruct (values dataReport) as [[|r rs]|]; try by apply keeps_emit.
    apply keeps_forEach. intros d. unfold handleEntry.
    destruct (value d); [|apply keeps_throw].
    apply keeps_bind; [apply keepsListeners_storeLocalValue|].
    intros _. by apply keeps_callListener.
Qed.

(** C5, as the code has it.  For an inbound DataReport whose
    subscriptionId maps to a registered listener, on an exchange that
    accepts the reply, [onNewExchange] replies Success and then calls the
    listener with the report; the outcome of the call is the outcome of
    [onNewExchange], so an error thrown by the listener is thrown by
    [onNewExchange] after the Success reply; the registered listeners are
    the same afterwards. *)
Theorem onNewExchange_calls_listener w (dataReport : DataReport) (sid : N) (l : Listener)
    (rest : list Inbound) :
  inbound w = InDataReport dataReport :: rest ->
  subscriptionId dataReport = Some sid ->
  subscriptionListeners w !! sid = Some l ->
  accepting w ->
  let replied :=
    emit (EvSent (OutStatus Success))
         (emit (EvReceived (InDataReport dataReport)) (setInbound rest w)) in
  onNewExchange w = callSubscriptionListener l dataReport replied
  /\ (forall e w', callSubscriptionListener l dataReport replied = (Thrown e, w') ->
      onNewExchange w = (Thrown e, w'))
  /\ subscriptionListeners (onNewExchange w).2 = subscriptionListeners w.
Proof.
  intros Hin Hsid Hl Hok replied.
  assert (onNewExchange w = callSubscriptionListener l dataReport replied) as Hrun.
  { unfold onNewExchange, Eff.bind at 1.
    rewrite (readDataReport_next w dataReport rest Hin), Hsid.
    unfold Eff.bind at 1, Eff.gets. simpl. rewrite Hl.
    unfold Eff.bind, sendStatus. by rewrite send_accepted by apply Hok. }
  split; [done|]. split; [by intros e w' <-|].
  rewrite Hrun. by rewrite keepsListeners_callSubscriptionListener.
Qed.

(** *** The cache *)

(** C6.  When a subscription report delivers a value [v] for a path, so
    that the listener installed by [subscribe] puts it in
    [subscribedLocalValues], a following [get] for that path returns [v]
    and leaves the state as it is: no messenger is constructed and
    nothing is sent. *)
Theorem get_after_subscription_report w (listener : option (Callback (JsValue * N)))
    (dataReport : DataReport) (r : AttributeReport) (rs : list AttributeReport)
    (d : Decoded) (v : JsValue) (endpoint cluster : N) (attribute : Attribute) :
  values dataReport = Some (r :: rs) ->
  normalizeAndDecodeReadAttributeReport (r :: rs) = [d] ->
  value d = Some v ->
  endpointId (path d) = Some endpoint ->
  clusterId (path d) = Some cluster ->
  attributeId (path d) = Some (attribute_id attribute) ->
  let w' := (subscribeListener listener dataReport w).2 in
  subscribedLocalValues w' !! cacheKey d
  = Some {| local_value := v; local_version := Some (version d) |}
  /\ get endpoint cluster attribute w' = (Returned (Some v), w').
Proof.
  intros Hvalues Hdecode Hv He Hc Ha w'.
  assert (subscribedLocalValues w' !! cacheKey d
          = Some {| local_value := v; local_version := Some (version d) |}) as Hcache.
  { unfold w', subscribeListener. rewrite Hvalues, Hdecode, Hv.
    unfold Eff.bind, storeLocalValue, Eff.modify.
    rewrite (keeps_callListener subscribedLocalValues); [|done].
    simpl. apply lookup_insert_eq. }
  split; [done|].
  unfold get, Eff.bind, Eff.gets.
  unfold cacheKey in Hcache. rewrite He, Hc, Ha in Hcache. by rewrite Hcache.
Qed.

(** *** Reports are not processed atomically *)

Lemma forEach_handleEntry_prefix (listener : option (Callback Decoded))
    (before remaining : list Decoded) :
  Forall (fun x => is_Some (value x)) before ->
  (forall f x, listener = Some f -> x ∈ before -> f x = None) ->
  forall w, exists w1,
    Eff.forEach (handleEntry listener) (before ++ remaining) w
    = Eff.forEach (handleEntry listener) remaining w1
    /\ subscribedLocalValues w1 = cacheAfter before (subscribedLocalValues w)
    /\ trace w1 = trace w ++ listenerCalls listener before
    /\ subscriptionListeners w1 = subscriptionListeners w
    /\ inbound w1 = inbound w.
Proof.
  induction before as [|x before IH]; intros Hvalues Hreturns w.
  - exists w. simpl. split; [done|]. split; [done|]. split; [|done].
    unfold listenerCalls. destruct listener; simpl; by rewrite app_nil_r.
  - apply Forall_cons in Hvalues as [[v Hv] Hvalues].
    set (w0 := setLocalValue (cacheKey x)
                 {| local_value := v; local_version := Some (version x) |} w).
    set (w1 := match listener with
               | Some _ => emit (EvDataListener x) w0
               | None => w0
               end).
    destruct (IH Hvalues (fun f y Hf Hy => Hreturns f y Hf (list_elem_of_further _ _ _ Hy)) w1)
      as (w2 & Hrun & Hcache & Htrace & Hls & Hin).
    exists w2. split; [|split; [|split; [|split]]].
    + simpl. unfold Eff.bind at 1, handleEntry at 1. rewrite Hv.
      unfold Eff.bind at 1, storeLocalValue, Eff.modify. fold (cacheKey x). fold w0.
      rewrite <- Hrun. unfold w1, callListener.
      destruct listener as [f|]; [|done].
      unfold Eff.bind, Eff.modify.
      by rewrite (Hreturns f x eq_refl (list_elem_of_here _ _)).
    + rewrite Hcache. simpl. rewrite Hv. unfold w1. by destruct listener.
    + rewrite Htrace. unfold w1, listenerCalls.
      destruct listener; simpl; [by rewrite <- app_assoc|done].
    + rewrite Hls. unfold w1. by destruct listener.
    + rewrite Hin. unfold w1. by destruct listener.
Qed.

(** C10.  A DataReport handled by the listener that
    [subscribeMultipleAttributes] installs, whose decoded entries are
    defined up to position k and undefined at position k, the user
    listener returning on the entries before k: the listener throws, and
    the cache holds the updates of all entries before k and the user
    listener has been called on each of them; nothing is rolled back. *)
Theorem subscribeMultipleListener_not_atomic w (listener : option (Callback Decoded))
    (dataReport : DataReport) (r : AttributeReport) (rs : list AttributeReport)
    (before : list Decoded) (d : Decoded) (after : list Decoded) :
  values dataReport = Some (r :: rs) ->
  normalizeAndDecodeReadAttributeReport (r :: rs) = before ++ d :: after ->
  Forall (fun x => is_Some (value x)) before ->
  value d = None ->
  (forall f x, listener = Some f -> x ∈ before -> f x = None) ->
  exists w',
    subscribeMultipleListener listener dataReport w
    = (Thrown (JsError "Subscription result reporting undefined value not specified"), w')
    /\ subscribedLocalValues w' = cacheAfter before (subscribedLocalValues w)
    /\ trace w' = trace w ++ listenerCalls listener before.
Proof.
  intros Hvalues Hdecode Hbefore Hd Hreturns.
  destruct (forEach_handleEntry_prefix listener before (d :: after) Hbefore Hreturns w)
    as (w1 & Hrun & Hcache & Htrace & _).
  exists w1. split; [|done].
  unfold subscribeMultipleListener. rewrite Hvalues, Hdecode, Hrun.
  simpl. unfold Eff.bind, handleEntry. by rewrite Hd.
Qed.
End Facts.

(** *** The facts on the scenarios *)

Import InteractionScenarios.

(** S5: the three chunks are returned as one list, and a Success status
    follows the first and the third chunk only. *)
Lemma processReadRequest_chunked_S5 :
  exists w',
    processReadRequest readAll wildcardRead = (Returned [a; b; c; d; e], w')
    /\ trace w' = [ EvSent (OutReadRequest readAll);
                    EvReceived (InDataReport chunk1); EvSent (OutStatus 0);
                    EvReceived (InDataReport chunk2);
                    EvReceived (InDataReport chunk3); EvSent (OutStatus 0) ].
Proof.
  assert (accepting wildcardRead) as Hok by (intros n; reflexivity).
  assert (Forall (fun c => truthy (moreChunkedMessages c) = true) [chunk1; chunk2])
    as Hmore by (repeat constructor).
  exact (processReadRequest_chunked wildcardRead readAll [chunk1; chunk2] chunk3 []
           Hok Hmore eq_refl eq_refl).
Defined.

Lemma setMultipleAttributes_mixed_answers :
  (setMultipleAttributes writes mixedWrite).1
  = Returned [ {| status_path := path (entry 1 8 0 None 0); status_code := 135 |};
               {| status_path := path (entry 1 9 0 None 0); status_code := 1 |} ]
  /\ (Forall (fun entry => derivedStatus entry = Success) (writeResponses mixedAnswers) ->
      (setMultipleAttributes writes mixedWrite).1 = Returned []).
Proof.
  assert (Forall (fun a => exists data : Z,
                      encodeTlv (schema (write_attribute a)) (write_value a) = Returned data)
                 writes) as Henc by (repeat constructor; by eexists).
  assert (accepting mixedWrite) as Hok by (intros n; reflexivity).
  exact (setMultipleAttributes_returns_failures mixedWrite writes mixedAnswers []
           Henc Hok eq_refl).
Defined.

Lemma invoke_result_only :
  let outcome := (invoke 1 6 0 2 TlvInt 0 TlvNoResponse false (invoked 0)).1 in
  (0 = ResultCode_Success -> isTlvNoResponse TlvNoResponse = true ->
   outcome = Returned None)
  /\ (0 = ResultCode_Success -> isTlvNoResponse TlvNoResponse = false ->
      outcome = Thrown (JsError "A response was expected for this command"))
  /\ (0 <> ResultCode_Success ->
      outcome = Thrown (JsError ("Received non-success result: " +:+ pretty 0))).
Proof.
  assert (accepting (invoked 0)) as Hok by (intros n; reflexivity).
  exact (invoke_result_entry (invoked 0) 1 6 0 2 TlvInt 0 TlvNoResponse false 0
           (resultOnly 0) {| response := None; result := Some 0 |} [] 0 []
           eq_refl Hok eq_refl eq_refl eq_refl).
Defined.

(** S6: the report for subscription 1 is answered with Success and handed
    to the listener. *)
Lemma onNewExchange_on_off_report :
  let replied :=
    emit (EvSent (OutStatus Success))
         (emit (EvReceived (InDataReport onOffReport)) (setInbound [] onOffSubscribed)) in
  onNewExchange onOffSubscribed
  = callSubscriptionListener (SubscribeListener (Some quietListener)) onOffReport replied
  /\ (forall e w',
        callSubscriptionListener (SubscribeListener (Some quietListener)) onOffReport replied
        = (Thrown e, w') ->
        onNewExchange onOffSubscribed = (Thrown e, w'))
  /\ subscriptionListeners (onNewExchange onOffSubscribed).2
     = subscriptionListeners onOffSubscribed.
Proof.
  assert (accepting onOffSubscribed) as Hok by (intros n; reflexivity).
  assert (subscriptionListeners onOffSubscribed !! 1%N
          = Some (SubscribeListener (Some quietListener))) as Hl by (vm_compute; reflexivity).
  exact (onNewExchange_calls_listener onOffSubscribed onOffReport 1%N
           (SubscribeListener (Some quietListener)) [] eq_refl eq_refl Hl Hok).
Defined.

(** S6: after the report, [get] answers from the cache. *)
Lemma get_on_off_cached :
  let w' := (subscribeListener (Some quietListener) onOffReport (receiving [])).2 in
  subscribedLocalValues w' !! cacheKey c
  = Some {| local_value := 0; local_version := Some (version c) |}
  /\ get 1 6 onOff w' = (Returned (Some 0), w').
Proof.
  exact (get_after_subscription_report (receiving []) (Some quietListener) onOffReport
           c [] c 0 1%N 6%N onOff eq_refl eq_refl eq_refl eq_refl eq_refl eq_refl).
Defined.

Lemma holed_report_half_applied :
  exists w',
    subscribeMultipleListener (Some quietDataListener) holedReport (receiving [])
    = (Thrown (JsError "Subscription result reporting undefined value not specified"), w')
    /\ subscribedLocalValues w' = cacheAfter [c] (subscribedLocalValues (receiving []))
    /\ trace w' = trace (receiving []) ++ listenerCalls (Some quietDataListener) [c].
Proof.
  assert (Forall (fun x : Report => is_Some (value x)) [c]) as Hbefore
    by (repeat constructor; by eexists).
  assert (forall (f : Callback Report) x,
             Some quietDataListener = Some f -> x ∈ [c] -> f x = None) as Hreturns
    by (intros f x [= <-] _; reflexivity).
  exact (subscribeMultipleListener_not_atomic (receiving []) (Some quietDataListener) holedReport
           c [holed; e] [c] holed [e] eq_refl eq_refl Hbefore eq_refl Hreturns).
Defined.

(** C10, as stated, fails.  For a position k that is not the first one
    without value: in the report [c; holed; e; lateHole] the entry at
    position 3 has no value and [e] stands before it, at position 2, but
    the listener throws at position 1, so that [e] is neither cached nor
    handed to the user listener.  And for a user listener that throws:
    in the report [c; d; holed] the entry at position 2 has no value, but
    the error of the user listener on [c] ends the processing, so that
    [d], at position 1, is neither cached nor handed to the user
    listener, and the error raised is the user listener's. *)
Lemma entries_before_hole_not_applied :
  let decoded := normalizeAndDecodeReadAttributeReport [c; holed; e; lateHole] in
  let run := subscribeMultipleListener (Some quietDataListener) twiceHoledReport
                                       (receiving []) in
  let decoded' := normalizeAndDecodeReadAttributeReport [c; d; holed] in
  let run' := subscribeMultipleListener (Some failingDataListener) lateHoleReport
                                        (receiving []) in
  (decoded !! 3%nat = Some lateHole
   /\ value lateHole = None
   /\ decoded !! 2%nat = Some e
   /\ value e = Some 5
   /\ run.1 = Thrown (JsError "Subscription result reporting undefined value not specified")
   /\ subscribedLocalValues run.2 !! cacheKey e = None
   /\ trace run.2 = [EvDataListener c])
  /\ (decoded' !! 2%nat = Some holed
      /\ value holed = None
      /\ decoded' !! 1%nat = Some d
      /\ value d = Some 1
      /\ run'.1 = Thrown (JsError "listener failed")
      /\ subscribedLocalValues run'.2 !! cacheKey d = None
      /\ trace run'.2 = [EvDataListener c]).
Proof. vm_compute. done. Qed.

(** C5, as stated, fails: the listener of subscription 1 throws on the
    report with a hole, and the error leaves [onNewExchange]; the trace
    holds the receipt and the Success reply and no log line. *)
Lemma onNewExchange_listener_error_escapes :
  subscriptionListeners holedSubscribed !! 1%N
  = Some (SubscribeMultipleListener (Some quietDataListener))
  /\ (onNewExchange holedSubscribed).1
     = Thrown (JsError "Subscription result reporting undefined value not specified")
  /\ trace (onNewExchange holedSubscribed).2
     = [EvReceived (InDataReport holedReport); EvSent (OutStatus Success); EvDataListener c].
Proof. vm_compute. done. Qed.
End InteractionFacts.

(** ** Facts about the session establishment *)

Module HandshakeFacts.
Import SecureChannel EffFacts.

Section Facts.
Context {imports : Imports}.

Implicit Types (w : World) (m : Outbound).

Lemma handshake_send_accepted w m :
  sendOk w (length (trace w)) = true ->
  send m w = (Returned tt, emit (EvSent m) w).
Proof. intros Hok. unfold send. by rewrite Hok. Qed.

(** [crypto.getRandomData(n)] returns [n] bytes. *)
Lemma getRandomData_length (n : nat) w : 
  exists bytes, (getRandomData n w).1 = Returned bytes /\ length bytes = n.
Proof.
  eexists. split; [done|]. by rewrite length_map, length_seq.
Qed.

(** *** What a failed pairing leaves behind *)

Section Frame.
Context {T : Type} (proj : World -> T).
Hypothesis proj_sent : forall m w, proj (emit (EvSent m) w) = proj w.
Hypothesis proj_received : forall i w, proj (emit (EvReceived i) w) = proj w.
Hypothesis proj_setInbound : forall i w, proj (setInbound i w) = proj w.
Hypothesis proj_setDrawn : forall n w, proj (setDrawn n w) = proj w.
Hypothesis proj_setNextSessionId : forall n w, proj (setNextSessionId n w) = proj w.

Lemma handshake_keeps_send m : Eff.keeps proj (send m).
Proof. intros w. unfold send. destruct (sendOk w _); simpl; [apply proj_sent|done]. Qed.

Lemma handshake_keeps_nextMessage : Eff.keeps proj nextMessage.
Proof.
  intros w. unfold nextMessage.
  destruct (inbound w) as [|[] ?]; simpl; by rewrite ?proj_received, ?proj_setInbound.
Qed.

Lemma handshake_keeps_getRandomData (n : nat) : Eff.keeps proj (getRandomData n).
Proof. intros w. apply proj_setDrawn. Qed.

Lemma handshake_keeps_getNextAvailableSessionId : Eff.keeps proj getNextAvailableSessionId.
Proof. intros w. apply proj_setNextSessionId. Qed.

Lemma handshake_keeps_waitForSuccess : Eff.keeps proj waitForSuccess.
Proof.
  apply keeps_bind; [apply handshake_keeps_nextMessage|].
  intros []; try apply keeps_throw.
  destruct (decide _); [apply keeps_ret|apply keeps_throw].
Qed.
End Frame.

(** Whenever [pair] throws, whatever the reason, no session has been
    registered and the messenger has not been closed. *)
Lemma pair_throws_frame (setupPin : N) :
  Eff.keepsOnThrow (fun w => (sessions w, closed w)) (pair setupPin).
Proof.
  set (proj := fun w => (sessions w, closed w)).
  assert (forall m w, proj (emit (EvSent m) w) = proj w) as Hsent.
  { intros m w. unfold proj, closed. simpl. rewrite existsb_app. simpl.
    by rewrite !orb_false_r. }
  assert (forall i w, proj (emit (EvReceived i) w) = proj w) as Hreceived.
  { intros i w. unfold proj, closed. simpl. rewrite existsb_app. simpl.
    by rewrite !orb_false_r. }
  unfold pair.
  apply keepsOnThrow_bind; [by apply handshake_keeps_getRandomData|]. intros random.
  apply keepsOnThrow_bind; [by apply handshake_keeps_getNextAvailableSessionId|].
  intros sessionId.
  apply keepsOnThrow_bind.
  { apply keeps_bind; [by apply handshake_keeps_send|]. intros _. apply keeps_ret. }
  intros requestPayload.
  apply keepsOnThrow_bind.
  { apply keeps_bind; [by apply handshake_keeps_nextMessage|].
    intros []; first [apply keeps_ret | apply keeps_throw]. }
  intros [responsePayload response].
  destruct (pbkdfParameters response) as [params|];
    [|apply keepsOnThrow_keeps, keeps_throw].
  apply keepsOnThrow_bind; [apply keeps_lift|]. intros [w0 w1].
  apply keepsOnThrow_bind; [by apply handshake_keeps_getRandomData|]. intros seed.
  apply keepsOnThrow_bind; [by apply handshake_keeps_send|]. intros _.
  apply keepsOnThrow_bind.
  { apply keeps_bind; [by apply handshake_keeps_nextMessage|].
    intros []; first [apply keeps_ret | apply keeps_throw]. }
  intros [Y verifier].
  apply keepsOnThrow_bind; [apply keeps_lift|]. intros [[Ke hAY] hBX].
  destruct (decide (verifier = hBX)); [|apply keepsOnThrow_keeps, keeps_throw].
  apply keepsOnThrow_bind; [by apply handshake_keeps_send|]. intros _.
  apply keepsOnThrow_bind; [by apply handshake_keeps_waitForSuccess|]. intros _.
  apply keepsOnThrow_returns. intros w. by eexists _, _.
Qed.

(** *** A resume that the peer does not confirm *)

(** The resume branch, when the MIC opens, the exchange accepts sigma2
    resume and the peer's status report is not a success: the wait throws,
    and by then the session is registered and the record object carries
    the new resumption id, while nothing has been persisted. *)
Lemma resume_not_confirmed w (sessionId : N) (resumptionId : ByteArray) (sigma1 : Sigma1)
    (peerResumptionId peerResumeMic : ByteArray) (ref : nat) (record : ResumptionRecord)
    (plain : ByteArray) (code : Z) (rest : list Inbound) :
  decrypt (hkdf (sharedSecret record) (sigma1_random sigma1 ++ peerResumptionId)
                KDFSR1_KEY_INFO)
          peerResumeMic RESUME1_MIC_NONCE = Returned plain ->
  accepting w ->
  inbound w = InStatusReport code :: rest ->
  code <> GeneralStatusSuccess ->
  exists w' session,
    resume sessionId resumptionId sigma1 peerResumptionId peerResumeMic ref record w
    = (Thrown (StatusResponseError "Received error status" code), w')
    /\ sessions w' = sessions w ++ [session]
    /\ session_id session = sessionId
    /\ heap w' = alter (withResumptionId resumptionId) ref (heap w)
    /\ saved w' = saved w
    /\ closed w' = closed w.
Proof.
  intros Hmic Hok Hin Hcode.
  eexists _, _. split.
  - unfold resume, Eff.bind at 1, Eff.lift. rewrite Hmic.
    unfold Eff.bind at 1, createSecureSession, Eff.bind at 1, Eff.modify, Eff.ret.
    unfold Eff.bind at 1, Eff.tryCatch, sendSigma2Resume.
    rewrite handshake_send_accepted by apply Hok.
    unfold Eff.bind at 1, Eff.gets.
    unfold Eff.bind at 1, info, Eff.modify.
    unfold Eff.bind at 1.
    unfold Eff.bind at 1, waitForSuccess, Eff.bind at 1, nextMessage. simpl.
    rewrite Hin. rewrite decide_False by done. reflexivity.
  - simpl. repeat split.
    + unfold saved. simpl. rewrite !omap_app. simpl. by rewrite !app_nil_r.
    + unfold closed. simpl. rewrite !existsb_app. simpl. by rewrite !orb_false_r.
Qed.

(** The resume branch, when the MIC does not open: the error of the
    decryption is thrown and the state is as it was; no session has been
    registered. *)
Lemma resume_mic_rejected w (sessionId : N) (resumptionId : ByteArray) (sigma1 : Sigma1)
    (peerResumptionId peerResumeMic : ByteArray) (ref : nat) (record : ResumptionRecord)
    (e : Error) :
  decrypt (hkdf (sharedSecret record) (sigma1_random sigma1 ++ peerResumptionId)
                KDFSR1_KEY_INFO)
          peerResumeMic RESUME1_MIC_NONCE = Thrown e ->
  resume sessionId resumptionId sigma1 peerResumptionId peerResumeMic ref record w
  = (Thrown e, w).
Proof.
  intros Hmic. unfold resume, Eff.bind at 1, Eff.lift. by rewrite Hmic.
Qed.

(** The resume branch, when the MIC opens, the exchange accepts sigma2
    resume and the peer reports success: the record object carries the
    new resumption id and is persisted with it, and the messenger is
    closed. *)
Lemma resume_confirmed w (sessionId : N) (resumptionId : ByteArray) (sigma1 : Sigma1)
    (peerResumptionId peerResumeMic : ByteArray) (ref : nat)
    (record stored : ResumptionRecord) (plain : ByteArray) (rest : list Inbound) :
  decrypt (hkdf (sharedSecret record) (sigma1_random sigma1 ++ peerResumptionId)
                KDFSR1_KEY_INFO)
          peerResumeMic RESUME1_MIC_NONCE = Returned plain ->
  accepting w ->
  inbound w = InStatusReport GeneralStatusSuccess :: rest ->
  heap w !! ref = Some stored ->
  exists w',
    resume sessionId resumptionId sigma1 peerResumptionId peerResumeMic ref record w
    = (Returned tt, w')
    /\ heap w' = alter (withResumptionId resumptionId) ref (heap w)
    /\ saved w' = saved w ++ [withResumptionId resumptionId stored]
    /\ closed w' = true.
Proof.
  intros Hmic Hok Hin Hstored.
  eexists. split.
  - unfold resume, Eff.bind at 1, Eff.lift. rewrite Hmic.
    unfold Eff.bind at 1, createSecureSession, Eff.bind at 1, Eff.modify, Eff.ret.
    unfold Eff.bind at 1, Eff.tryCatch, sendSigma2Resume.
    rewrite handshake_send_accepted by apply Hok.
    unfold Eff.bind at 1, Eff.gets.
    unfold Eff.bind at 1, info, Eff.modify.
    unfold Eff.bind at 1.
    unfold Eff.bind at 1, waitForSuccess, Eff.bind at 1, nextMessage. simpl.
    rewrite Hin. rewrite decide_True by done.
    unfold Eff.bind, close, Eff.modify, saveResumptionRecord. simpl.
    rewrite list_lookup_alter_eq, Hstored. simpl. reflexivity.
  - simpl. repeat split.
    + unfold saved. simpl. rewrite !omap_app. simpl. by rewrite !app_nil_r.
    + unfold closed. simpl. rewrite !existsb_app. simpl.
      by rewrite !orb_true_r, ?orb_true_l.
Qed.

(** *** What [CaseServer.onNewExchange] does with an error *)

(** An error thrown by [handleSigma1] is logged and answered with an
    Error status; [onNewExchange] itself returns. *)
Lemma onNewExchange_reports_error w (e : Error) w1 :
  handleSigma1 w = (Thrown e, w1) ->
  accepting w1 ->
  onNewExchange w
  = (Returned tt,
     emit (EvSent OutError)
          (emit (EvError "An error occurred during the commissioning" e) w1)).
Proof.
  intros Hrun Hok. unfold onNewExchange, Eff.tryCatch. rewrite Hrun.
  unfold Eff.bind, Eff.modify, sendError.
  by rewrite handshake_send_accepted by apply Hok.
Qed.
End Facts.

(** *** The facts on the scenarios *)

Import HandshakeScenarios.

(** S1: a pairing that succeeds registers its session and closes the
    messenger. *)
Lemma pair_success_closes :
  let r := pair 20202021 pairing in
  length (sessions r.2) = 1%nat /\ closed r.2 = true.
Proof. vm_compute. done. Qed.

(** C2, on a failing input.  S2: the peer's pake2 carries a verifier that
    differs from hBX.  [pair] throws the key-confirmation error and no
    session is created, as the specification says; but the messenger is
    not closed, which the specification says it is. *)
Theorem pair_verifier_mismatch_not_closed :
  let r := pair 20202021 verifierMismatch in
  r.1 = Thrown (JsError "Received incorrect key confirmation from the receiver")
  /\ sessions r.2 = []
  /\ closed r.2 = false.
Proof. vm_compute. done. Qed.

(** S3: a resume that the peer confirms; the record with the new id is
    persisted. *)
Lemma resume_confirmed_saves :
  let w' := (onNewExchange resumeConfirmed).2 in
  saved w' = [withResumptionId R' known]
  /\ heap w' = [withResumptionId R' known]
  /\ closed w' = true.
Proof. vm_compute. done. Qed.

(** A resume whose MIC does not open: the Error status is sent and no
    session exists afterwards. *)
Lemma resume_bad_mic_no_session :
  let r := onNewExchange resumeBadMic in
  r.1 = Returned tt /\ errorSent r.2 = true /\ sessions r.2 = [] /\ heap r.2 = [known].
Proof. vm_compute. done. Qed.

(** C1, on a failing input.  A resume whose MIC opens and whose sigma2
    resume is sent, but which the peer does not confirm, so that
    [waitForSuccess] throws: [onNewExchange] sends the Error status, as
    the specification says; but the session that was created before the
    wait is still registered, which the specification says it is not. *)
Theorem onNewExchange_unconfirmed_resume_keeps_session :
  let r := onNewExchange resumeRefused in
  sessions resumeRefused = []
  /\ r.1 = Returned tt
  /\ errorSent r.2 = true
  /\ exists session, sessions r.2 = [session] /\ isResumption session = true.
Proof. vm_compute. repeat split. eexists. done. Qed.

(** C3, on a failing input.  The same resume: nothing is persisted, as
    the specification says; but the node's record, which carried the id
    R, already carries the fresh 16-byte id, and is found under it and no
    longer under R, although the client did not confirm. *)
Theorem resume_unconfirmed_rotates_record :
  let w' := (onNewExchange resumeRefused).2 in
  heap resumeRefused = [known]
  /\ saved w' = []
  /\ length R' = 16%nat
  /\ R' <> R
  /\ heap w' = [withResumptionId R' known]
  /\ findRecord (heap w') R (resumptionRecords w') = None
  /\ findRecord (heap w') R' (resumptionRecords w') = Some (0%nat, withResumptionId R' known).
Proof. vm_compute. repeat split. discriminate. Qed.
End HandshakeFacts.

(** ** More facts about the interaction client *)

Module InteractionCoverage.
Import Interaction EffFacts InteractionFacts.

Section Facts.
Context {JsValue TlvStream AttributeReport : Type}.
Context {imports : @Imports JsValue AttributeReport}.

Abbreviation World := (@World JsValue TlvStream AttributeReport).
Abbreviation Event := (@Event JsValue TlvStream AttributeReport).
Abbreviation Outbound := (@Outbound TlvStream).
Abbreviation Inbound := (@Inbound TlvStream AttributeReport).
Abbreviation DataReport := (@DataReport AttributeReport).
Abbreviation TlvSchema := (@TlvSchema JsValue TlvStream).
Abbreviation Attribute := (@Attribute JsValue TlvStream).
Abbreviation Decoded := (@DecodedAttributeReportValue JsValue).
Abbreviation Listener := (@Listener JsValue).

Implicit Types (w : World) (c : DataReport) (m : Outbound).

(** *** Reports that cannot be dispatched *)

(** X1.  An inbound DataReport without subscriptionId, or whose
    subscriptionId has no registered listener, on an exchange that
    accepts the reply: [onNewExchange] replies InvalidSubscription and
    throws; no listener is called and nothing else changes. *)
Theorem onNewExchange_undispatched w (dataReport : DataReport) (rest : list Inbound) :
  inbound w = InDataReport dataReport :: rest ->
  subscriptionId dataReport ≫= (fun sid => subscriptionListeners w !! sid) = None ->
  accepting w ->
  onNewExchange w
  = (Thrown (undispatched (subscriptionId dataReport)),
     emit (EvSent (OutStatus InvalidSubscription))
          (emit (EvReceived (InDataReport dataReport)) (setInbound rest w))).
Proof.
  intros Hin Hnone Hok.
  unfold onNewExchange, Eff.bind at 1.
  rewrite (readDataReport_next w dataReport rest Hin).
  destruct (subscriptionId dataReport) as [sid|]; simpl in *.
  - unfold Eff.bind at 1, Eff.gets. simpl. rewrite Hnone.
    unfold Eff.bind, sendStatus. by rewrite send_accepted by apply Hok.
  - unfold Eff.bind, sendStatus. by rewrite send_accepted by apply Hok.
Qed.

(** *** What the operations leave alone *)

Section Quiet.
Context {T : Type} (proj : World -> T).
Hypothesis proj_event :
  forall ev w, isOpen ev = false -> isClose ev = false -> proj (emit ev w) = proj w.
Hypothesis proj_setInbound : forall i w, proj (setInbound i w) = proj w.
Hypothesis proj_bracket :
  forall w w1, proj w1 = proj (emit EvOpen w) -> proj (emit EvClose w1) = proj w.
Hypothesis proj_setLocalValue : forall k v w, proj (setLocalValue k v w) = proj w.
Hypothesis proj_setListener : forall k l w, proj (setListener k l w) = proj w.

Lemma quiet_send m : Eff.keeps proj (send m).
Proof. intros w. unfold send. destruct (sendOk w _); simpl; [by apply proj_event|done]. Qed.

Lemma quiet_nextMessage : Eff.keeps proj (@nextMessage JsValue TlvStream AttributeReport).
Proof.
  intros w. unfold nextMessage.
  destruct (inbound w) as [|[] ?]; simpl; rewrite ?proj_event, ?proj_setInbound; done.
Qed.

Lemma quiet_readDataReport : Eff.keeps proj (@readDataReport JsValue TlvStream AttributeReport).
Proof.
  apply keeps_bind; [apply quiet_nextMessage|].
  intros []; first [apply keeps_ret | apply keeps_throw].
Qed.

Lemma quiet_readChunks (fuel : nat) :
  forall c (result : list AttributeReport), Eff.keeps proj (readChunks fuel c result).
Proof.
  induction fuel as [|fuel IH]; intros c result; simpl.
  - apply keeps_bind.
    { destruct (truthy (suppressResponse c)); [apply keeps_ret|apply quiet_send]. }
    intros _. destruct (truthy (moreChunkedMessages c)); [apply keeps_throw|apply keeps_ret].
  - apply keeps_bind.
    { destruct (truthy (suppressResponse c)); [apply keeps_ret|apply quiet_send]. }
    intros _. destruct (truthy (moreChunkedMessages c)); [|apply keeps_ret].
    apply keeps_bind; [apply quiet_readDataReport|]. intros c'. apply IH.
Qed.

Lemma quiet_processReadRequest (request : ReadRequest) :
  Eff.keeps proj (processReadRequest request).
Proof.
  apply keeps_bind.
  { apply keeps_bind; [apply quiet_send|]. intros _. apply quiet_readDataReport. }
  intros c. apply keeps_bind; [apply keeps_gets|]. intros pending.
  apply keeps_bind; [apply quiet_readChunks|]. intros result. apply keeps_ret.
Qed.

Lemma quiet_withMessenger {A} (f : Eff World A) :
  Eff.keeps proj f -> Eff.keeps proj (withMessenger f).
Proof.
  intros Hf w. unfold withMessenger, Eff.bind, newMessenger, Eff.modify, Eff.tryFinally.
  specialize (Hf (emit EvOpen w)).
  destruct (f (emit EvOpen w)) as [r w1]. simpl in *. by apply proj_bracket.
Qed.

Lemma quiet_getMultipleAttributes (paths : list AttributePath) :
  Eff.keeps proj (getMultipleAttributes paths).
Proof. apply quiet_withMessenger, quiet_processReadRequest. Qed.

Lemma quiet_get (endpointId clusterId : N) (attribute : Attribute) :
  Eff.keeps proj (get endpointId clusterId attribute).
Proof.
  apply keeps_bind; [apply keeps_gets|]. intros [localValue|]; [apply keeps_ret|].
  apply keeps_bind; [apply quiet_getMultipleAttributes|].
  intros [|first [|second others]]; first [apply keeps_ret | apply keeps_throw].
Qed.

Lemma quiet_setMultipleAttributes (attributes : list AttributeWrite) :
  Eff.keeps proj (setMultipleAttributes attributes).
Proof.
  apply quiet_withMessenger.
  apply keeps_bind.
  { apply keeps_mapM. intros a. apply keeps_bind; [apply keeps_lift|].
    intros data. apply keeps_ret. }
  intros requests. apply keeps_bind.
  { apply keeps_bind; [apply quiet_send|]. intros _.
    apply keeps_bind; [apply quiet_nextMessage|].
    intros []; first [apply keeps_ret | apply keeps_throw]. }
  intros [response|]; [apply keeps_ret|apply keeps_throw].
Qed.

Lemma quiet_set (endpointId clusterId : N) (attribute : Attribute) (value : JsValue)
    (dataVersion : option N) :
  Eff.keeps proj (set endpointId clusterId attribute value dataVersion).
Proof.
  apply keeps_bind; [apply quiet_setMultipleAttributes|].
  intros [|first others]; [apply keeps_ret|].
  destruct (decide _); [apply keeps_throw|apply keeps_ret].
Qed.

Lemma quiet_invoke (endpointId clusterId : N) (request : JsValue) (id : N)
    (requestSchema : TlvSchema) (responseId : N) (responseSchema : TlvSchema)
    (optional : bool) :
  Eff.keeps proj (invoke endpointId clusterId request id requestSchema responseId
                         responseSchema optional).
Proof.
  apply quiet_withMessenger.
  apply keeps_bind; [apply keeps_lift|]. intros args.
  apply keeps_bind.
  { apply keeps_bind; [apply quiet_send|]. intros _.
    apply keeps_bind; [apply quiet_nextMessage|].
    intros []; first [apply keeps_ret | apply keeps_throw]. }
  intros [invokeResponse|]; [|apply keeps_throw].
  destruct (responses invokeResponse) as [|first others]; [apply keeps_throw|].
  destruct (result first) as [resultCode|].
  - destruct (decide _); [apply keeps_throw|].
    destruct (negb _); [apply keeps_throw|apply keeps_ret].
  - destruct (response first) as [tlv|].
    + apply keeps_bind; [apply keeps_lift|]. intros decoded. apply keeps_ret.
    + destruct optional; [apply keeps_ret|apply keeps_throw].
Qed.

Lemma quiet_callListener {A} (listener : option (Callback A)) (a : A) (ev : Event) :
  isOpen ev = false -> isClose ev = false ->
  Eff.keeps proj (callListener listener a ev).
Proof.
  intros Hopen Hclose. destruct listener as [f|]; simpl; [|apply keeps_ret].
  apply keeps_bind; [apply keeps_modify; intros w; by apply proj_event|]. intros _.
  destruct (f a); [apply keeps_throw|apply keeps_ret].
Qed.

Lemma quiet_callSubscriptionListener (l : Listener) (dataReport : DataReport) :
  Eff.keeps proj (callSubscriptionListener l dataReport).
Proof.
  assert (forall p v ver, Eff.keeps proj (storeLocalValue p v ver)) as Hstore.
  { intros p v ver w. apply proj_setLocalValue. }
  assert (Eff.keeps proj (debug "Subscription result empty")) as Hdebug.
  { apply keeps_modify. intros w. by apply proj_event. }
  destruct l as [listener|listener]; simpl.
  - unfold subscribeListener.
    destruct (values dataReport) as [[|r rs]|]; try done.
    destruct (normalizeAndDecodeReadAttributeReport (r :: rs)) as [|d [|d' data]];
      try apply keeps_throw.
    destruct (value d); [|apply keeps_throw].
    apply keeps_bind; [apply Hstore|]. intros _. by apply quiet_callListener.
  - unfold subscribeMultipleListener.
    destruct (values dataReport) as [[|r rs]|]; try done.
    apply keeps_forEach. intros d. unfold handleEntry.
    destruct (value d); [|apply keeps_throw].
    apply keeps_bind; [apply Hstore|]. intros _. by apply quiet_callListener.
Qed.

Lemma quiet_sendSubscribeRequest (request : SubscribeRequest) :
  Eff.keeps proj (@sendSubscribeRequest JsValue TlvStream AttributeReport request).
Proof.
  apply keeps_bind; [apply quiet_send|]. intros _.
  apply keeps_bind; [apply quiet_nextMessage|].
  intros []; first [apply keeps_ret | apply keeps_throw].
Qed.

Lemma quiet_subscribe (endpointId clusterId : N) (attribute : Attribute)
    (minIntervalFloorSeconds maxIntervalCeilingSeconds : N)
    (listener : option (Callback (JsValue * N))) :
  Eff.keeps proj (subscribe endpointId clusterId attribute minIntervalFloorSeconds
                            maxIntervalCeilingSeconds listener).
Proof.
  apply quiet_withMessenger.
  apply keeps_bind; [apply quiet_sendSubscribeRequest|]. intros [report sid].
  apply keeps_bind; [apply keeps_modify; intros w; apply proj_setListener|]. intros _.
  apply (quiet_callSubscriptionListener (SubscribeListener listener)).
Qed.

Lemma quiet_subscribeMultipleAttributes (attributeRequests : list AttributePath)
    (minIntervalFloorSeconds maxIntervalCeilingSeconds : N)
    (listener : option (Callback Decoded)) :
  Eff.keeps proj (subscribeMultipleAttributes attributeRequests minIntervalFloorSeconds
                                              maxIntervalCeilingSeconds listener).
Proof.
  apply quiet_withMessenger.
  apply keeps_bind; [apply quiet_sendSubscribeRequest|]. intros [report sid].
  apply keeps_bind; [apply keeps_modify; intros w; apply proj_setListener|]. intros _.
  apply (quiet_callSubscriptionListener (SubscribeMultipleListener listener)).
Qed.

Lemma quiet_onNewExchange :
  Eff.keeps proj (@onNewExchange JsValue TlvStream AttributeReport imports).
Proof.
  apply keeps_bind; [apply quiet_readDataReport|]. intros dataReport.
  destruct (subscriptionId dataReport) as [sid|].
  - apply keeps_bind; [apply keeps_gets|]. intros [l|].
    + apply keeps_bind; [apply quiet_send|]. intros _.
      apply quiet_callSubscriptionListener.
    + apply keeps_bind; [apply quiet_send|]. intros _. apply keeps_throw.
  - apply keeps_bind; [apply quiet_send|]. intros _. apply keeps_throw.
Qed.
End Quiet.

Lemma unclosed_event (ev : Event) w :
  isOpen ev = false -> isClose ev = false -> unclosed (emit ev w) = unclosed w.
Proof.
  intros Hopen Hclose. unfold unclosed, opens, closes. simpl.
  rewrite !List.filter_app. simpl. rewrite Hopen, Hclose. by rewrite !app_nil_r.
Qed.

Lemma unclosed_bracket w w1 :
  unclosed w1 = unclosed (emit EvOpen w) -> unclosed (emit EvClose w1) = unclosed w.
Proof.
  unfold unclosed, opens, closes. simpl.
  rewrite !List.filter_app. simpl. rewrite !length_app. simpl. lia.
Qed.

(** X2.  No operation of the client leaks a messenger: whatever the
    arguments and the state, and whether the operation returns or throws,
    the number of messengers that are constructed and not closed is the
    same after it as before. *)
Theorem operations_close_their_messengers w (paths : list AttributePath)
    (endpointId clusterId : N) (attribute : Attribute) (value : JsValue)
    (dataVersion : option N) (attributes : list AttributeWrite)
    (minIntervalFloorSeconds maxIntervalCeilingSeconds : N)
    (listener : option (Callback (JsValue * N))) (dataListener : option (Callback Decoded))
    (request : JsValue) (id responseId : N) (requestSchema responseSchema : TlvSchema)
    (optional : bool) :
  unclosed (getMultipleAttributes paths w).2 = unclosed w
  /\ unclosed (get endpointId clusterId attribute w).2 = unclosed w
  /\ unclosed (setMultipleAttributes attributes w).2 = unclosed w
  /\ unclosed (set endpointId clusterId attribute value dataVersion w).2 = unclosed w
  /\ unclosed (subscribe endpointId clusterId attribute minIntervalFloorSeconds
                         maxIntervalCeilingSeconds listener w).2 = unclosed w
  /\ unclosed (subscribeMultipleAttributes paths minIntervalFloorSeconds
                                           maxIntervalCeilingSeconds dataListener w).2
     = unclosed w
  /\ unclosed (invoke endpointId clusterId request id requestSchema responseId
                      responseSchema optional w).2 = unclosed w.
Proof.
  repeat split.
  - apply (quiet_getMultipleAttributes unclosed unclosed_event); solve [done | apply unclosed_bracket].
  - apply (quiet_get unclosed unclosed_event); solve [done | apply unclosed_bracket].
  - apply (quiet_setMultipleAttributes unclosed unclosed_event); solve [done | apply unclosed_bracket].
  - apply (quiet_set unclosed unclosed_event); solve [done | apply unclosed_bracket].
  - apply (quiet_subscribe unclosed unclosed_event); solve [done | apply unclosed_bracket].
  - apply (quiet_subscribeMultipleAttributes unclosed unclosed_event); solve [done | apply unclosed_bracket].
  - apply (quiet_invoke unclosed unclosed_event); solve [done | apply unclosed_bracket].
Qed.

(** X3.  Reading and invoking never write the cache: whatever the
    arguments and the state, [subscribedLocalValues] is the same map after
    [getMultipleAttributes], [getAllAttributes], [get] and [invoke] as
    before, so a value that [get] has read from the peer is read again by
    the next [get]. *)
Theorem reads_keep_cache w (paths : list AttributePath) (endpointId clusterId : N)
    (attribute : Attribute) (request : JsValue) (id responseId : N)
    (requestSchema responseSchema : TlvSchema) (optional : bool) :
  subscribedLocalValues (getMultipleAttributes paths w).2 = subscribedLocalValues w
  /\ subscribedLocalValues (getAllAttributes w).2 = subscribedLocalValues w
  /\ subscribedLocalValues (get endpointId clusterId attribute w).2 = subscribedLocalValues w
  /\ subscribedLocalValues (invoke endpointId clusterId request id requestSchema responseId
                                   responseSchema optional w).2
     = subscribedLocalValues w.
Proof.
  repeat split.
  - by apply (quiet_getMultipleAttributes
                (@subscribedLocalValues JsValue TlvStream AttributeReport)).
  - by apply (quiet_getMultipleAttributes
                (@subscribedLocalValues JsValue TlvStream AttributeReport)).
  - by apply (quiet_get (@subscribedLocalValues JsValue TlvStream AttributeReport)).
  - by apply (quiet_invoke (@subscribedLocalValues JsValue TlvStream AttributeReport)).
Qed.

(** X4.  Only the subscribe operations register listeners: whatever the
    arguments and the state, [subscriptionListeners] is the same map after
    [getMultipleAttributes], [get], [setMultipleAttributes], [set],
    [invoke] and [SubscriptionClient.onNewExchange] as before. *)
Theorem listeners_only_change_by_subscribe w (paths : list AttributePath)
    (endpointId clusterId : N) (attribute : Attribute) (value : JsValue)
    (dataVersion : option N) (attributes : list AttributeWrite)
    (request : JsValue) (id responseId : N) (requestSchema responseSchema : TlvSchema)
    (optional : bool) :
  subscriptionListeners (getMultipleAttributes paths w).2 = subscriptionListeners w
  /\ subscriptionListeners (get endpointId clusterId attribute w).2 = subscriptionListeners w
  /\ subscriptionListeners (setMultipleAttributes attributes w).2 = subscriptionListeners w
  /\ subscriptionListeners (set endpointId clusterId attribute value dataVersion w).2
     = subscriptionListeners w
  /\ subscriptionListeners (invoke endpointId clusterId request id requestSchema responseId
                                   responseSchema optional w).2
     = subscriptionListeners w
  /\ subscriptionListeners (onNewExchange w).2 = subscriptionListeners w.
Proof.
  repeat split.
  - by apply (quiet_getMultipleAttributes
                (@subscriptionListeners JsValue TlvStream AttributeReport)).
  - by apply (quiet_get (@subscriptionListeners JsValue TlvStream AttributeReport)).
  - by apply (quiet_setMultipleAttributes
                (@subscriptionListeners JsValue TlvStream AttributeReport)).
  - by apply (quiet_set (@subscriptionListeners JsValue TlvStream AttributeReport)).
  - by apply (quiet_invoke (@subscriptionListeners JsValue TlvStream AttributeReport)).
  - by apply (quiet_onNewExchange
                (@subscriptionListeners JsValue TlvStream AttributeReport)).
Qed.

(** *** Reads that go to the peer *)

Lemma getMultipleAttributes_run w (paths : list AttributePath) c (later : list DataReport)
    (rest : list Inbound) :
  accepting w ->
  chunked c later ->
  inbound w = map InDataReport (c :: later) ++ rest ->
  exists w',
    getMultipleAttributes paths w
    = (Returned (normalizeAndDecodeReadAttributeReport (concat (map valuesOf (c :: later)))),
       w')
    /\ trace w' = trace w ++ EvOpen :: EvSent (OutReadRequest (readRequestFor paths))
                            :: flat_map chunkEvents (c :: later) ++ [EvClose]
    /\ inbound w' = rest
    /\ subscribedLocalValues w' = subscribedLocalValues w.
Proof.
  intros Hok Hch Hin. simpl in Hin.
  set (w0 := emit EvOpen w).
  set (w1 := emit (EvSent (OutReadRequest (readRequestFor paths))) w0).
  set (w2 := emit (EvReceived (InDataReport c)) (setInbound (map InDataReport later ++ rest) w1)).
  destruct (readChunks_run later c (length (inbound w2)) [] w2 rest)
    as (w3 & Hrun & Htr & Hin3 & Hcache & _); [by intros n; apply Hok|done|done| |].
  { simpl. rewrite length_app, length_map. lia. }
  exists (emit EvClose w3). split; [|split; [|split]].
  - unfold getMultipleAttributes, withMessenger, Eff.bind at 1, newMessenger, Eff.modify.
    fold w0. unfold Eff.tryFinally, processReadRequest, sendReadRequest, Eff.bind at 1 2.
    rewrite send_accepted by apply Hok. fold (readRequestFor paths). fold w1.
    rewrite (readDataReport_next w1 c (map InDataReport later ++ rest)) by done.
    fold w2. unfold Eff.bind, Eff.gets. rewrite Hrun. done.
  - simpl. rewrite Htr. simpl. rewrite <- !app_assoc. done.
  - done.
  - simpl. by rewrite Hcache.
Qed.

(** X5.  A [get] for a path that is not in the cache reads it from the
    peer: a messenger is constructed, one read request for exactly that
    path is sent, the answer is acknowledged chunk by chunk and the
    messenger is closed; a decoded answer without entries gives
    [undefined], one entry gives its value, and more than one entry makes
    [get] throw. *)
Theorem get_reads_on_miss w (endpoint cluster : N) (attribute : Attribute) c
    (later : list DataReport) (rest : list Inbound) :
  subscribedLocalValues w
    !! attributePathToId (pathOf (Some endpoint) (Some cluster)
                                 (Some (attribute_id attribute))) = None ->
  accepting w ->
  chunked c later ->
  inbound w = map InDataReport (c :: later) ++ rest ->
  exists w',
    get endpoint cluster attribute w
    = (firstValue (normalizeAndDecodeReadAttributeReport
                     (concat (map valuesOf (c :: later)))), w')
    /\ trace w'
       = trace w ++ EvOpen
                 :: EvSent (OutReadRequest
                              (readRequestFor [pathOf (Some endpoint) (Some cluster)
                                                      (Some (attribute_id attribute))]))
                 :: flat_map chunkEvents (c :: later) ++ [EvClose].
Proof.
  intros Hmiss Hok Hch Hin.
  destruct (getMultipleAttributes_run w
              [pathOf (Some endpoint) (Some cluster) (Some (attribute_id attribute))]
              c later rest Hok Hch Hin) as (w' & Hrun & Htr & _).
  exists w'. split; [|done].
  unfold get, Eff.bind at 1, Eff.gets. rewrite Hmiss.
  unfold Eff.bind. rewrite Hrun. unfold firstValue.
  by destruct (normalizeAndDecodeReadAttributeReport _) as [|first [|second others]].
Qed.

(** *** Writes *)

(** Encoding the values does not look at the state. *)
Lemma mapM_toWriteRequest_encoded (attributes : list AttributeWrite) :
  Forall (fun a => exists data : TlvStream,
              encodeTlv (schema (write_attribute a)) (write_value a) = Returned data)
         attributes ->
  exists requests,
    length requests = length attributes
    /\ forall w, Eff.mapM toWriteRequest attributes w = (Returned requests, w).
Proof.
  induction 1 as [|a attributes [data Hdata] _ (requests & Hlen & IH)]; simpl.
  - by exists [].
  - eexists (_ :: requests). split; [simpl; by rewrite Hlen|].
    intros w. unfold Eff.bind at 1. unfold toWriteRequest at 1, Eff.bind, Eff.lift.
    rewrite Hdata. simpl. unfold Eff.bind. by rewrite IH.
Qed.

(** The write request that [setMultipleAttributes] sends, and what it
    makes of the answer. *)
Lemma setMultipleAttributes_run w (attributes : list AttributeWrite)
    (response : option WriteResponse) (rest : list Inbound) :
  Forall (fun a => exists data : TlvStream,
              encodeTlv (schema (write_attribute a)) (write_value a) = Returned data)
         attributes ->
  accepting w ->
  inbound w = InWriteResponse response :: rest ->
  exists requests,
    Eff.mapM toWriteRequest attributes w = (Returned requests, w)
    /\ setMultipleAttributes attributes w
       = (match response with
          | Some response =>
              Returned (filter (fun s => status_code s <> Success)
                               (map reported (writeResponses response)))
          | None => Thrown (JsError "No response received")
          end,
          emit EvClose
            (emit (EvReceived (InWriteResponse response))
               (setInbound rest
                  (emit (EvSent (OutWriteRequest
                                   {| write_suppressResponse := false;
                                      write_timedRequest := false;
                                      writeRequests := requests;
                                      write_moreChunkedMessages := false;
                                      write_interactionModelRevision := 1 |}))
                        (emit EvOpen w))))).
Proof.
  intros Henc Hok Hin.
  destruct (mapM_toWriteRequest_encoded attributes Henc) as (requests & _ & Hreq).
  exists requests. split; [done|].
  unfold setMultipleAttributes, withMessenger, Eff.bind at 1, newMessenger, Eff.modify.
  unfold Eff.tryFinally, Eff.bind at 1. rewrite Hreq.
  unfold sendWriteCommand, Eff.bind at 1 2.
  rewrite send_accepted by apply Hok.
  unfold Eff.bind, nextMessage. simpl. rewrite Hin. simpl.
  destruct response as [response|]; simpl; [|done].
  by rewrite flat_map_toAttributeStatus.
Qed.

(** X6.  [set] writes one attribute and judges the answer by its first
    failing entry: when the value encodes and the peer answers the write,
    [set] returns if every entry of the answer has a derived status of
    Success, and otherwise throws a StatusResponseError that carries the
    path and the derived status of the first entry that has not, whichever
    path that is. *)
Theorem set_throws_first_failure w (endpoint cluster : N) (attribute : Attribute)
    (value : JsValue) (dataVersion : option N) (data : TlvStream)
    (response : WriteResponse) (rest : list Inbound) :
  encodeTlv (schema attribute) value = Returned data ->
  accepting w ->
  inbound w = InWriteResponse (Some response) :: rest ->
  (set endpoint cluster attribute value dataVersion w).1
  = match filter (fun s => status_code s <> Success) (map reported (writeResponses response))
    with
    | [] => Returned tt
    | first :: _ =>
        Thrown (StatusResponseError
                  ("Error setting attribute " +:+ renderPath (status_path first))
                  (status_code first))
    end
  /\ trace (set endpoint cluster attribute value dataVersion w).2
     = trace w ++ [ EvOpen;
                    EvSent (OutWriteRequest
                              {| write_suppressResponse := false;
                                 write_timedRequest := false;
                                 writeRequests :=
                                   [ {| request_path :=
                                          pathOf (Some endpoint) (Some cluster)
                                                 (Some (attribute_id attribute));
                                        request_data := data;
                                        request_dataVersion := dataVersion |} ];
                                 write_moreChunkedMessages := false;
                                 write_interactionModelRevision := 1 |});
                    EvReceived (InWriteResponse (Some response));
                    EvClose ].
Proof.
  intros Henc Hok Hin.
  set (attributes := [ {| write_endpointId := endpoint; write_clusterId := cluster;
                          write_attribute := attribute; write_value := value;
                          write_dataVersion := dataVersion |} ]).
  destruct (setMultipleAttributes_run w attributes (Some response) rest)
    as (requests & Hreq & Hrun); [|done|done|].
  { repeat constructor. by exists data. }
  assert (requests = [ {| request_path := pathOf (Some endpoint) (Some cluster)
                                                 (Some (attribute_id attribute));
                          request_data := data;
                          request_dataVersion := dataVersion |} ]) as ->.
  { unfold attributes in Hreq. simpl in Hreq.
    unfold Eff.bind at 1 in Hreq. unfold toWriteRequest, Eff.bind, Eff.lift in Hreq.
    simpl in Hreq. rewrite Henc in Hreq. unfold Eff.ret in Hreq. congruence. }
  unfold set. fold attributes. unfold Eff.bind. rewrite Hrun.
  destruct (filter _ _) as [|first others] eqn:Hfilter; simpl.
  - split; [done|]. by rewrite <- !app_assoc.
  - assert (status_code first <> Success) as Hfirst.
    { assert (first ∈ filter (fun s => status_code s <> Success)
                              (map reported (writeResponses response))) as Hel
        by (rewrite Hfilter; apply list_elem_of_here).
      by apply list_elem_of_filter in Hel as [? _]. }
    rewrite decide_True by done. simpl. split; [done|]. by rewrite <- !app_assoc.
Qed.

(** X7.  When one of the values does not encode, [setMultipleAttributes]
    throws the error of the encoder and sends nothing: the messenger is
    constructed and closed, and no write request leaves, also for the
    values that come before the failing one. *)
Theorem setMultipleAttributes_encode_failure w (before after : list AttributeWrite)
    (a : AttributeWrite) (e : Error) :
  Forall (fun a => exists data : TlvStream,
              encodeTlv (schema (write_attribute a)) (write_value a) = Returned data)
         before ->
  encodeTlv (schema (write_attribute a)) (write_value a) = Thrown e ->
  setMultipleAttributes (before ++ a :: after) w = (Thrown e, emit EvClose (emit EvOpen w)).
Proof.
  intros Hbefore Ha.
  assert (forall w0, Eff.mapM toWriteRequest (before ++ a :: after) w0 = (Thrown e, w0))
    as Hmap.
  { induction Hbefore as [|b before [data Hdata] _ IH]; intros w0; simpl.
    - unfold Eff.bind at 1. unfold toWriteRequest at 1, Eff.bind, Eff.lift.
      by rewrite Ha.
    - unfold Eff.bind at 1. unfold toWriteRequest at 1, Eff.bind, Eff.lift.
      rewrite Hdata. simpl. unfold Eff.bind. by rewrite IH. }
  unfold setMultipleAttributes, withMessenger, Eff.bind at 1, newMessenger, Eff.modify.
  unfold Eff.tryFinally, Eff.bind at 1. by rewrite Hmap.
Qed.

(** X8.  A write that the messenger answers with no response makes
    [setMultipleAttributes] throw "No response received", after the
    write request was sent, and the messenger is closed. *)
Theorem setMultipleAttributes_no_response w (attributes : list AttributeWrite)
    (rest : list Inbound) :
  Forall (fun a => exists data : TlvStream,
              encodeTlv (schema (write_attribute a)) (write_value a) = Returned data)
         attributes ->
  accepting w ->
  inbound w = InWriteResponse None :: rest ->
  exists request,
    length (writeRequests request) = length attributes
    /\ (setMultipleAttributes attributes w).1 = Thrown (JsError "No response received")
    /\ trace (setMultipleAttributes attributes w).2
       = trace w ++ [EvOpen; EvSent (OutWriteRequest request);
                     EvReceived (InWriteResponse None); EvClose].
Proof.
  intros Henc Hok Hin.
  destruct (mapM_toWriteRequest_encoded attributes Henc) as (requests & Hlen & Hreq).
  destruct (setMultipleAttributes_run w attributes None rest Henc Hok Hin)
    as (requests' & Hreq' & Hrun).
  rewrite Hreq in Hreq'. injection Hreq' as <-.
  eexists. split; [|rewrite Hrun; split; [done|simpl; by rewrite <- !app_assoc]].
  done.
Qed.

(** *** Invoke *)

(** What [invoke] does up to the inspection of the answer. *)
Lemma invoke_run w (endpoint cluster : N) (request : JsValue) (id : N)
    (requestSchema : TlvSchema) (responseId : N) (responseSchema : TlvSchema)
    (optional : bool) (args : TlvStream) (answer : option InvokeResponse)
    (rest : list Inbound) :
  encodeTlv requestSchema request = Returned args ->
  accepting w ->
  inbound w = InInvokeResponse answer :: rest ->
  invoke endpoint cluster request id requestSchema responseId responseSchema optional w
  = (match answer with
     | None => Thrown (JsError "No response received")
     | Some invokeResponse =>
         match responses invokeResponse with
         | [] => Thrown (JsError "No response received")
         | first :: _ =>
             match result first with
             | Some resultCode =>
                 if decide (resultCode <> ResultCode_Success)
                 then Thrown (JsError ("Received non-success result: " +:+ pretty resultCode))
                 else if negb (isTlvNoResponse responseSchema)
                      then Thrown (JsError "A response was expected for this command")
                      else Returned None
             | None =>
                 match response first with
                 | Some tlv =>
                     match decodeTlv responseSchema tlv with
                     | Returned decoded => Returned (Some decoded)
                     | Thrown e => Thrown e
                     end
                 | None =>
                     if optional
                     then Returned None
                     else Thrown (JsError "Received invoke response with no result nor response")
                 end
             end
         end
     end,
     emit EvClose
       (emit (EvReceived (InInvokeResponse answer))
          (setInbound rest
             (emit (EvSent (OutInvokeRequest (invokeRequestFor endpoint cluster id args)))
                   (emit EvOpen w))))).
Proof.
  intros Henc Hok Hin.
  unfold invoke, withMessenger, Eff.bind at 1, newMessenger, Eff.modify.
  unfold Eff.tryFinally, Eff.bind at 1, Eff.lift. rewrite Henc.
  unfold sendInvokeCommand, Eff.bind at 1 2.
  fold (invokeRequestFor endpoint cluster id args).
  rewrite send_accepted by apply Hok.
  unfold Eff.bind, nextMessage. simpl. rewrite Hin. simpl.
  destruct answer as [invokeResponse|]; [|done].
  destruct (responses invokeResponse) as [|first others]; [done|].
  destruct (result first) as [resultCode|].
  - destruct (decide _); [done|]. by destruct (negb _).
  - destruct (response first) as [tlv|]; [|by destruct optional].
    unfold Eff.lift. by destruct (decodeTlv responseSchema tlv).
Qed.

(** X9.  An [invoke] that gets no answer, or an answer without entries,
    throws "No response received"; the request has been sent by then and
    the messenger is closed. *)
Theorem invoke_no_response w (endpoint cluster : N) (request : JsValue) (id : N)
    (requestSchema : TlvSchema) (responseId : N) (responseSchema : TlvSchema)
    (optional : bool) (args : TlvStream) (answer : option InvokeResponse)
    (rest : list Inbound) :
  encodeTlv requestSchema request = Returned args ->
  accepting w ->
  inbound w = InInvokeResponse answer :: rest ->
  default [] (responses <$> answer) = [] ->
  (invoke endpoint cluster request id requestSchema responseId responseSchema optional w).1
  = Thrown (JsError "No response received")
  /\ trace (invoke endpoint cluster request id requestSchema responseId responseSchema
                   optional w).2
     = trace w ++ [EvOpen;
                   EvSent (OutInvokeRequest (invokeRequestFor endpoint cluster id args));
                   EvReceived (InInvokeResponse answer);
                   EvClose].
Proof.
  intros Henc Hok Hin Hempty.
  rewrite (invoke_run w endpoint cluster request id requestSchema responseId responseSchema
             optional args answer rest Henc Hok Hin).
  simpl. split; [|by rewrite <- !app_assoc].
  destruct answer as [invokeResponse|]; [|done]. simpl in Hempty. by rewrite Hempty.
Qed.

(** X10.  An [invoke] whose first response entry carries no result: a
    response payload is decoded with the response schema and returned,
    and an error of the decoder is thrown; without a payload the call
    returns [undefined] for an optional command and throws for any other.
    The entries after the first are not looked at, and one invoke request
    with the encoded arguments has been sent. *)
Theorem invoke_without_result w (endpoint cluster : N) (request : JsValue) (id : N)
    (requestSchema : TlvSchema) (responseId : N) (responseSchema : TlvSchema)
    (optional : bool) (args : TlvStream) (invokeResponse : InvokeResponse)
    (first : InvokeResponseEntry) (others : list InvokeResponseEntry)
    (rest : list Inbound) :
  encodeTlv requestSchema request = Returned args ->
  accepting w ->
  inbound w = InInvokeResponse (Some invokeResponse) :: rest ->
  responses invokeResponse = first :: others ->
  result first = None ->
  (invoke endpoint cluster request id requestSchema responseId responseSchema optional w).1
  = match response first with
    | Some tlv =>
        match decodeTlv responseSchema tlv with
        | Returned decoded => Returned (Some decoded)
        | Thrown e => Thrown e
        end
    | None =>
        if optional
        then Returned None
        else Thrown (JsError "Received invoke response with no result nor response")
    end
  /\ trace (invoke endpoint cluster request id requestSchema responseId responseSchema
                   optional w).2
     = trace w ++ [EvOpen;
                   EvSent (OutInvokeRequest (invokeRequestFor endpoint cluster id args));
                   EvReceived (InInvokeResponse (Some invokeResponse));
                   EvClose].
Proof.
  intros Henc Hok Hin Hresp Hres.
  rewrite (invoke_run w endpoint cluster request id requestSchema responseId responseSchema
             optional args (Some invokeResponse) rest Henc Hok Hin).
  simpl. rewrite Hresp, Hres. split; [done|by rewrite <- !app_assoc].
Qed.

(** When the request does not encode, [invoke] throws the error of the
    encoder and sends nothing. *)
Lemma invoke_encode_failure w (endpoint cluster : N) (request : JsValue) (id : N)
    (requestSchema : TlvSchema) (responseId : N) (responseSchema : TlvSchema)
    (optional : bool) (e : Error) :
  encodeTlv requestSchema request = Thrown e ->
  invoke endpoint cluster request id requestSchema responseId responseSchema optional w
  = (Thrown e, emit EvClose (emit EvOpen w)).
Proof.
  intros Henc.
  unfold invoke, withMessenger, Eff.bind at 1, newMessenger, Eff.modify.
  unfold Eff.tryFinally, Eff.bind at 1, Eff.lift. by rewrite Henc.
Qed.

(** *** Subscribing *)

(** What the subscribe operations do up to the initial report. *)
Lemma subscribe_run w (endpoint cluster : N) (attribute : Attribute) (minFloor maxCeiling : N)
    (listener : option (Callback (JsValue * N))) (report : DataReport) (sid : N)
    (rest : list Inbound) :
  accepting w ->
  inbound w = InSubscribeResponse report sid :: rest ->
  let request :=
    subscribeRequestFor [pathOf (Some endpoint) (Some cluster) (Some (attribute_id attribute))]
                        minFloor maxCeiling in
  let registered :=
    setListener sid (SubscribeListener listener)
      (emit (EvReceived (InSubscribeResponse report sid))
         (setInbound rest (emit (EvSent (OutSubscribeRequest request)) (emit EvOpen w)))) in
  subscribe endpoint cluster attribute minFloor maxCeiling listener w
  = ((subscribeListener listener report registered).1,
     emit EvClose (subscribeListener listener report registered).2).
Proof.
  intros Hok Hin request registered.
  unfold subscribe, withMessenger, Eff.bind at 1, newMessenger, Eff.modify.
  unfold Eff.tryFinally, Eff.bind at 1, sendSubscribeRequest, Eff.bind at 1.
  fold request. rewrite send_accepted by apply Hok.
  unfold Eff.bind at 1, nextMessage. simpl. rewrite Hin. simpl.
  unfold Eff.bind. simpl. unfold registered, request, subscribeRequestFor.
  by destruct (subscribeListener listener report _).
Qed.

Lemma subscribeMultipleAttributes_run w (paths : list AttributePath) (minFloor maxCeiling : N)
    (listener : option (Callback Decoded)) (report : DataReport) (sid : N)
    (rest : list Inbound) :
  accepting w ->
  inbound w = InSubscribeResponse report sid :: rest ->
  let request := subscribeRequestFor paths minFloor maxCeiling in
  let registered :=
    setListener sid (SubscribeMultipleListener listener)
      (emit (EvReceived (InSubscribeResponse report sid))
         (setInbound rest (emit (EvSent (OutSubscribeRequest request)) (emit EvOpen w)))) in
  subscribeMultipleAttributes paths minFloor maxCeiling listener w
  = ((subscribeMultipleListener listener report registered).1,
     emit EvClose (subscribeMultipleListener listener report registered).2).
Proof.
  intros Hok Hin request registered.
  unfold subscribeMultipleAttributes, withMessenger, Eff.bind at 1, newMessenger, Eff.modify.
  unfold Eff.tryFinally, Eff.bind at 1, sendSubscribeRequest, Eff.bind at 1.
  fold request. rewrite send_accepted by apply Hok.
  unfold Eff.bind at 1, nextMessage. simpl. rewrite Hin. simpl.
  unfold Eff.bind. simpl. unfold registered, request, subscribeRequestFor.
  by destruct (subscribeMultipleListener listener report _).
Qed.

(** X11.  Once the peer has answered the subscribe request, the listener
    is registered under the subscriptionId of the answer, replacing any
    listener registered under that id, before the initial report is
    handled: it stays registered also when handling the initial report
    throws and the subscribe operation fails with it. *)
Theorem subscribe_registers_before_initial_report w (endpoint cluster : N)
    (attribute : Attribute) (paths : list AttributePath) (minFloor maxCeiling : N)
    (listener : option (Callback (JsValue * N))) (dataListener : option (Callback Decoded))
    (report : DataReport) (sid : N) (rest : list Inbound) :
  accepting w ->
  inbound w = InSubscribeResponse report sid :: rest ->
  subscriptionListeners (subscribe endpoint cluster attribute minFloor maxCeiling listener w).2
  = <[sid := SubscribeListener listener]> (subscriptionListeners w)
  /\ subscriptionListeners
       (subscribeMultipleAttributes paths minFloor maxCeiling dataListener w).2
     = <[sid := SubscribeMultipleListener dataListener]> (subscriptionListeners w).
Proof.
  intros Hok Hin. split.
  - rewrite (subscribe_run w endpoint cluster attribute minFloor maxCeiling listener
               report sid rest Hok Hin). simpl.
    etrans; [apply (keepsListeners_callSubscriptionListener (SubscribeListener listener)
                      report)|done].
  - rewrite (subscribeMultipleAttributes_run w paths minFloor maxCeiling dataListener
               report sid rest Hok Hin). simpl.
    etrans; [apply (keepsListeners_callSubscriptionListener
                      (SubscribeMultipleListener dataListener) report)|done].
Qed.

Lemma sendSubscribeRequest_unanswered w (request : SubscribeRequest) :
  (forall report sid rest, inbound w <> InSubscribeResponse report sid :: rest) ->
  exists e w1,
    sendSubscribeRequest request w = (Thrown e, w1)
    /\ subscriptionListeners w1 = subscriptionListeners w
    /\ subscribedLocalValues w1 = subscribedLocalValues w.
Proof.
  intros Hin. unfold sendSubscribeRequest, Eff.bind at 1, send.
  destruct (sendOk w _); [|by eexists _, _].
  unfold Eff.bind, nextMessage. simpl.
  destruct (inbound w) as [|[c|r|r|report sid|e] rest] eqn:Hhead; simpl;
    try by eexists _, _.
  by destruct (Hin report sid rest).
Qed.

(** X12.  A subscribe operation whose request is not answered with a
    subscribe response throws and registers nothing; the cache is as it
    was and the messenger is closed. *)
Theorem subscribe_unanswered_registers_nothing w (endpoint cluster : N)
    (attribute : Attribute) (minFloor maxCeiling : N)
    (listener : option (Callback (JsValue * N))) :
  (forall report sid rest, inbound w <> InSubscribeResponse report sid :: rest) ->
  (exists e, (subscribe endpoint cluster attribute minFloor maxCeiling listener w).1
             = Thrown e)
  /\ subscriptionListeners (subscribe endpoint cluster attribute minFloor maxCeiling
                                      listener w).2
     = subscriptionListeners w
  /\ subscribedLocalValues (subscribe endpoint cluster attribute minFloor maxCeiling
                                      listener w).2
     = subscribedLocalValues w
  /\ last (trace (subscribe endpoint cluster attribute minFloor maxCeiling listener w).2)
     = Some EvClose.
Proof.
  intros Hin.
  destruct (sendSubscribeRequest_unanswered (emit EvOpen w)
              (subscribeRequestFor
                 [pathOf (Some endpoint) (Some cluster) (Some (attribute_id attribute))]
                 minFloor maxCeiling) Hin) as (e & w1 & Hrun & Hl & Hc).
  assert (subscribe endpoint cluster attribute minFloor maxCeiling listener w
          = (Thrown e, emit EvClose w1)) as ->.
  { unfold subscribe, withMessenger, Eff.bind at 1, newMessenger, Eff.modify.
    unfold Eff.tryFinally, Eff.bind at 1.
    unfold subscribeRequestFor in Hrun. by rewrite Hrun. }
  simpl in *.
  split; [by eexists|]. split; [done|]. split; [done|]. by rewrite last_snoc.
Qed.

(** *** Reports *)

Lemma subscribeListener_stores w (listener : option (Callback (JsValue * N)))
    (report : DataReport) (r : AttributeReport) (rs : list AttributeReport)
    (d : Decoded) (v : JsValue) :
  values report = Some (r :: rs) ->
  normalizeAndDecodeReadAttributeReport (r :: rs) = [d] ->
  value d = Some v ->
  (forall f, listener = Some f -> f (v, version d) = None) ->
  exists w',
    subscribeListener listener report w = (Returned tt, w')
    /\ subscribedLocalValues w' = <[cacheKey d := localValueOf d v]> (subscribedLocalValues w)
    /\ trace w' = trace w ++ listenerCall listener d v
    /\ subscriptionListeners w' = subscriptionListeners w
    /\ inbound w' = inbound w
    /\ sendOk w' = sendOk w.
Proof.
  intros Hvalues Hdecode Hv Hreturns.
  unfold subscribeListener. rewrite Hvalues, Hdecode, Hv.
  unfold Eff.bind, storeLocalValue, Eff.modify, callListener, listenerCall.
  destruct listener as [f|]; simpl.
  - unfold Eff.bind, Eff.modify. rewrite (Hreturns f eq_refl). by eexists.
  - eexists. split; [done|]. simpl. by rewrite app_nil_r.
Qed.

(** X13.  A subscribe whose initial report carries one value [v] for the
    subscribed path, the user listener returning: the operation returns,
    the user listener has been called once, with [v] and the version of
    the report, between the subscribe response and the closing of the
    messenger, and a [get] for the path then returns [v] without touching
    the exchange. *)
Theorem subscribe_then_get w (endpoint cluster : N) (attribute : Attribute)
    (minFloor maxCeiling : N) (listener : option (Callback (JsValue * N)))
    (report : DataReport) (sid : N) (rest : list Inbound)
    (r : AttributeReport) (rs : list AttributeReport) (d : Decoded) (v : JsValue) :
  accepting w ->
  inbound w = InSubscribeResponse report sid :: rest ->
  values report = Some (r :: rs) ->
  normalizeAndDecodeReadAttributeReport (r :: rs) = [d] ->
  value d = Some v ->
  (forall f, listener = Some f -> f (v, version d) = None) ->
  endpointId (path d) = Some endpoint ->
  clusterId (path d) = Some cluster ->
  attributeId (path d) = Some (attribute_id attribute) ->
  exists w',
    subscribe endpoint cluster attribute minFloor maxCeiling listener w = (Returned tt, w')
    /\ trace w'
       = trace w
         ++ [ EvOpen;
              EvSent (OutSubscribeRequest
                        (subscribeRequestFor
                           [pathOf (Some endpoint) (Some cluster)
                                   (Some (attribute_id attribute))]
                           minFloor maxCeiling));
              EvReceived (InSubscribeResponse report sid) ]
         ++ listenerCall listener d v ++ [EvClose]
    /\ get endpoint cluster attribute w' = (Returned (Some v), w').
Proof.
  intros Hok Hin Hvalues Hdecode Hv Hreturns He Hc Ha.
  rewrite (subscribe_run w endpoint cluster attribute minFloor maxCeiling listener
             report sid rest Hok Hin).
  match goal with
  | |- context [subscribeListener listener report ?registered] =>
      destruct (subscribeListener_stores registered listener report r rs d v
                  Hvalues Hdecode Hv Hreturns) as (w1 & Hrun & Hcache & Htrace & _)
  end.
  rewrite Hrun. simpl. eexists. split; [done|]. split.
  - simpl. rewrite Htrace. simpl. rewrite <- !app_assoc. done.
  - unfold get, Eff.bind, Eff.gets. simpl. rewrite Hcache.
    unfold cacheKey. rewrite He, Hc, Ha. by rewrite lookup_insert_eq.
Qed.

(** X14.  A report without values, or with an empty values array, for a
    registered subscription is accepted silently: [onNewExchange] replies
    Success, the listener logs "Subscription result empty" and returns;
    the user listener is not called and the cache is as it was. *)
Theorem onNewExchange_empty_report w (dataReport : DataReport) (sid : N) (l : Listener)
    (rest : list Inbound) :
  inbound w = InDataReport dataReport :: rest ->
  subscriptionId dataReport = Some sid ->
  subscriptionListeners w !! sid = Some l ->
  accepting w ->
  valuesOf dataReport = [] ->
  onNewExchange w
  = (Returned tt,
     emit (EvLog "Subscription result empty")
          (emit (EvSent (OutStatus Success))
                (emit (EvReceived (InDataReport dataReport)) (setInbound rest w)))).
Proof.
  intros Hin Hsid Hl Hok Hempty.
  unfold onNewExchange, Eff.bind at 1.
  rewrite (readDataReport_next w dataReport rest Hin), Hsid.
  unfold Eff.bind at 1, Eff.gets. simpl. rewrite Hl.
  unfold Eff.bind, sendStatus. rewrite send_accepted by apply Hok.
  unfold valuesOf in Hempty.
  destruct l as [listener|listener]; simpl;
    unfold subscribeListener, subscribeMultipleListener;
    destruct (values dataReport) as [[|r rs]|]; simpl in Hempty; done.
Qed.

(** X15.  The listener of [subscribe] accepts only a report that decodes
    to exactly one entry with a value: when the decoded entries are none,
    more than one, or one without value, it throws the matching error
    and changes nothing; the user listener is not called. *)
Theorem subscribeListener_rejects w (listener : option (Callback (JsValue * N)))
    (report : DataReport) (r : AttributeReport) (rs : list AttributeReport) (e : Error) :
  values report = Some (r :: rs) ->
  rejection (normalizeAndDecodeReadAttributeReport (r :: rs)) = Some e ->
  subscribeListener listener report w = (Thrown e, w).
Proof.
  intros Hvalues Hrejected. unfold subscribeListener. rewrite Hvalues.
  unfold rejection in Hrejected.
  destruct (normalizeAndDecodeReadAttributeReport (r :: rs)) as [|d [|d' data]];
    simplify_eq; try done.
  destruct (value d); by simplify_eq.
Qed.

(** X16.  A report whose decoded entries all have a value, handled by
    the listener of [subscribeMultipleAttributes] with a user listener
    that returns: the listener returns, every entry has been stored in
    the cache in report order, a later entry for the same path replacing
    an earlier one, and the user listener has been called on every entry
    in report order. *)
Theorem subscribeMultipleListener_stores_all w (listener : option (Callback Decoded))
    (report : DataReport) (r : AttributeReport) (rs : list AttributeReport) :
  values report = Some (r :: rs) ->
  Forall (fun x => is_Some (value x)) (normalizeAndDecodeReadAttributeReport (r :: rs)) ->
  (forall f x, listener = Some f ->
               x ∈ normalizeAndDecodeReadAttributeReport (r :: rs) -> f x = None) ->
  exists w',
    subscribeMultipleListener listener report w = (Returned tt, w')
    /\ subscribedLocalValues w'
       = cacheAfter (normalizeAndDecodeReadAttributeReport (r :: rs))
                    (subscribedLocalValues w)
    /\ trace w'
       = trace w ++ listenerCalls listener (normalizeAndDecodeReadAttributeReport (r :: rs)).
Proof.
  intros Hvalues Hall Hreturns.
  destruct (forEach_handleEntry_prefix listener
              (normalizeAndDecodeReadAttributeReport (r :: rs)) [] Hall Hreturns w)
    as (w1 & Hrun & Hcache & Htrace & _).
  exists w1. split; [|done].
  unfold subscribeMultipleListener. rewrite Hvalues.
  rewrite app_nil_r in Hrun. by rewrite Hrun.
Qed.

Lemma cacheAfter_other (entries : list Decoded) (cache : gmap string LocalValue)
    (k : string) :
  Forall (fun x => cacheKey x <> k) entries ->
  cacheAfter entries cache !! k = cache !! k.
Proof.
  revert cache. induction entries as [|x entries IH]; intros cache Hother; [done|].
  apply Forall_cons in Hother as [Hx Hother]. simpl.
  change (cacheAfter entries
            match value x with
            | Some v => <[cacheKey x := {| local_value := v;
                                           local_version := Some (version x) |}]> cache
            | None => cache
            end !! k = cache !! k).
  rewrite IH by done. destruct (value x); [|done]. by rewrite lookup_insert_ne.
Qed.

Lemma cacheAfter_last (before after : list Decoded) (d : Decoded) (v : JsValue)
    (cache : gmap string LocalValue) :
  value d = Some v ->
  Forall (fun x => cacheKey x <> cacheKey d) after ->
  cacheAfter (before ++ d :: after) cache !! cacheKey d = Some (localValueOf d v).
Proof.
  intros Hv Hafter. unfold cacheAfter. rewrite foldl_app. simpl. rewrite Hv.
  fold (cacheAfter before cache).
  match goal with
  | |- foldl ?f ?m after !! _ = _ => change (foldl f m after) with (cacheAfter after m)
  end.
  rewrite cacheAfter_other by done. by rewrite lookup_insert_eq.
Qed.

(** X17.  After such a report, a [get] for the path of an entry [d] that
    no later entry of the report overwrites returns the value of [d],
    without touching the exchange: within one report the last entry for a
    path wins. *)
Theorem get_after_multiple_report w (listener : option (Callback Decoded))
    (report : DataReport) (r : AttributeReport) (rs : list AttributeReport)
    (before after : list Decoded) (d : Decoded) (v : JsValue)
    (endpoint cluster : N) (attribute : Attribute) :
  values report = Some (r :: rs) ->
  normalizeAndDecodeReadAttributeReport (r :: rs) = before ++ d :: after ->
  Forall (fun x => is_Some (value x)) (before ++ d :: after) ->
  (forall f x, listener = Some f -> x ∈ before ++ d :: after -> f x = None) ->
  value d = Some v ->
  Forall (fun x => cacheKey x <> cacheKey d) after ->
  endpointId (path d) = Some endpoint ->
  clusterId (path d) = Some cluster ->
  attributeId (path d) = Some (attribute_id attribute) ->
  let w' := (subscribeMultipleListener listener report w).2 in
  get endpoint cluster attribute w' = (Returned (Some v), w').
Proof.
  intros Hvalues Hdecode Hall Hreturns Hv Hafter He Hc Ha w'.
  destruct (forEach_handleEntry_prefix listener (before ++ d :: after) [] Hall Hreturns w)
    as (w1 & Hrun & Hcache & _).
  assert (w' = w1) as ->.
  { unfold w', subscribeMultipleListener. rewrite Hvalues, Hdecode.
    rewrite app_nil_r in Hrun. by rewrite Hrun. }
  unfold get, Eff.bind, Eff.gets. rewrite Hcache.
  pose proof (cacheAfter_last before after d v (subscribedLocalValues w) Hv Hafter) as Hlast.
  unfold cacheKey in Hlast at 1. rewrite He, Hc, Ha in Hlast. by rewrite Hlast.
Qed.

(** X18.  A later report for a subscription of [subscribe] reaches the
    cache through [SubscriptionClient.onNewExchange]: after a report with
    one value [v] for a path, dispatched to the registered listener, a
    [get] for that path returns [v] without touching the exchange,
    whatever the cache held for the path before. *)
Theorem onNewExchange_then_get w (dataReport : DataReport) (sid : N)
    (listener : option (Callback (JsValue * N))) (rest : list Inbound)
    (r : AttributeReport) (rs : list AttributeReport) (d : Decoded) (v : JsValue)
    (endpoint cluster : N) (attribute : Attribute) :
  inbound w = InDataReport dataReport :: rest ->
  subscriptionId dataReport = Some sid ->
  subscriptionListeners w !! sid = Some (SubscribeListener listener) ->
  accepting w ->
  values dataReport = Some (r :: rs) ->
  normalizeAndDecodeReadAttributeReport (r :: rs) = [d] ->
  value d = Some v ->
  (forall f, listener = Some f -> f (v, version d) = None) ->
  endpointId (path d) = Some endpoint ->
  clusterId (path d) = Some cluster ->
  attributeId (path d) = Some (attribute_id attribute) ->
  exists w',
    onNewExchange w = (Returned tt, w')
    /\ trace w' = trace w ++ [EvReceived (InDataReport dataReport);
                              EvSent (OutStatus Success)]
                          ++ listenerCall listener d v
    /\ inbound w' = rest
    /\ get endpoint cluster attribute w' = (Returned (Some v), w').
Proof.
  intros Hin Hsid Hl Hok Hvalues Hdecode Hv Hreturns He Hc Ha.
  set (replied := emit (EvSent (OutStatus Success))
                       (emit (EvReceived (InDataReport dataReport)) (setInbound rest w))).
  destruct (subscribeListener_stores replied listener dataReport r rs d v
              Hvalues Hdecode Hv Hreturns) as (w1 & Hrun & Hcache & Htrace & _ & Hin1 & _).
  exists w1. split; [|split; [|split]].
  - unfold onNewExchange, Eff.bind at 1.
    rewrite (readDataReport_next w dataReport rest Hin), Hsid.
    unfold Eff.bind at 1, Eff.gets. simpl. rewrite Hl.
    unfold Eff.bind, sendStatus. rewrite send_accepted by apply Hok.
    fold replied. simpl. by rewrite Hrun.
  - rewrite Htrace. simpl. by rewrite <- !app_assoc.
  - by rewrite Hin1.
  - unfold get, Eff.bind, Eff.gets. rewrite Hcache.
    unfold cacheKey. rewrite He, Hc, Ha. by rewrite lookup_insert_eq.
Qed.
End Facts.

(** *** The cluster facade *)

Section FacadeFacts.
Context {JsValue TlvStream : Type} (capitalize : string -> string).

Abbreviation Method := (@Method JsValue TlvStream).
Abbreviation Command := (@Command JsValue TlvStream).
Abbreviation Cluster := (@Cluster JsValue TlvStream).
Abbreviation AttributeDef := (@Attribute JsValue TlvStream).

Lemma addCommand_other (commands : list (string * Command)) (result : gmap string Method)
    (k : string) :
  k ∉ commands.*1 ->
  foldl addCommand result commands !! k = result !! k.
Proof.
  revert result. induction commands as [|[name command] commands IH]; intros result Hk;
    [done|].
  simpl in *. apply not_elem_of_cons in Hk as [Hne Hk].
  rewrite IH by done. unfold addCommand. simpl. by rewrite lookup_insert_ne.
Qed.

Lemma addCommand_lookup (commands : list (string * Command)) (result : gmap string Method)
    (name : string) (command : Command) :
  NoDup commands.*1 ->
  (name, command) ∈ commands ->
  foldl addCommand result commands !! name = Some (CommandMethod command).
Proof.
  revert result. induction commands as [|[name' command'] commands IH];
    intros result Hnodup Hin; [by apply elem_of_nil in Hin|].
  simpl in *. apply NoDup_cons in Hnodup as [Hfresh Hnodup].
  apply elem_of_cons in Hin as [[= -> ->]|Hin].
  - rewrite addCommand_other by done. unfold addCommand. simpl. by rewrite lookup_insert_eq.
  - by apply IH.
Qed.

Lemma addAccessors_other (attributes : list (string * AttributeDef))
    (result : gmap string Method) (prefix capitalized : string) :
  prefix ∈ ["get"; "set"; "subscribe"] ->
  capitalized ∉ (capitalize <$> attributes.*1) ->
  foldl (addAccessors capitalize) result attributes !! (prefix +:+ capitalized)
  = result !! (prefix +:+ capitalized).
Proof.
  intros Hprefix. revert result.
  induction attributes as [|[name attribute] attributes IH]; intros result Hfresh; [done|].
  simpl in *. apply not_elem_of_cons in Hfresh as [Hne Hfresh].
  rewrite IH by done. unfold addAccessors. simpl.
  repeat (apply elem_of_cons in Hprefix as [->|Hprefix]); [| | |by apply elem_of_nil in Hprefix].
  - rewrite !lookup_insert_ne; [done| |discriminate|discriminate].
    simpl. intros [= Heq]. by destruct Hne.
  - rewrite !lookup_insert_ne; [done|discriminate| |discriminate].
    simpl. intros [= Heq]. by destruct Hne.
  - rewrite !lookup_insert_ne; [done|discriminate|discriminate|].
    simpl. intros [= Heq]. by destruct Hne.
Qed.

Lemma addAccessors_lookup (attributes : list (string * AttributeDef))
    (result : gmap string Method) (name : string) (attribute : AttributeDef) :
  NoDup (capitalize <$> attributes.*1) ->
  (name, attribute) ∈ attributes ->
  let methods := foldl (addAccessors capitalize) result attributes in
  methods !! ("get" +:+ capitalize name) = Some (GetMethod attribute)
  /\ methods !! ("set" +:+ capitalize name) = Some (SetMethod attribute)
  /\ methods !! ("subscribe" +:+ capitalize name) = Some (SubscribeMethod attribute).
Proof.
  revert result. induction attributes as [|[name' attribute'] attributes IH];
    intros result Hnodup Hin; [by apply elem_of_nil in Hin|].
  simpl in *. apply NoDup_cons in Hnodup as [Hfresh Hnodup].
  apply elem_of_cons in Hin as [[= -> ->]|Hin]; [|by apply IH].
  rewrite !addAccessors_other by first [done | repeat constructor].
  unfold addAccessors. simpl. repeat split.
  - rewrite !lookup_insert_ne by discriminate. by rewrite lookup_insert_eq.
  - rewrite lookup_insert_ne by discriminate. by rewrite lookup_insert_eq.
  - by rewrite lookup_insert_eq.
Qed.

(** X19.  In the facade of a cluster, the property named after a command
    is the closure that invokes that command, also when an accessor of an
    attribute has the same name: the commands are added after the
    accessors and overwrite them. *)
Theorem ClusterClient_command (clusterDef : Cluster) (name : string) (command : Command) :
  NoDup (cluster_commands clusterDef).*1 ->
  (name, command) ∈ cluster_commands clusterDef ->
  ClusterClient capitalize clusterDef !! name = Some (CommandMethod command).
Proof. intros Hnodup Hin. by apply addCommand_lookup. Qed.

(** X20.  In the facade of a cluster whose attribute names stay distinct
    when capitalized, an attribute has its three accessors under
    [get], [set] and [subscribe] followed by its capitalized name, each
    bound to that attribute, unless a command of the cluster has taken
    the name. *)
Theorem ClusterClient_accessors (clusterDef : Cluster) (name : string)
    (attribute : AttributeDef) :
  NoDup (capitalize <$> (cluster_attributes clusterDef).*1) ->
  (name, attribute) ∈ cluster_attributes clusterDef ->
  let methods := ClusterClient capitalize clusterDef in
  ("get" +:+ capitalize name ∉ (cluster_commands clusterDef).*1 ->
   methods !! ("get" +:+ capitalize name) = Some (GetMethod attribute))
  /\ ("set" +:+ capitalize name ∉ (cluster_commands clusterDef).*1 ->
      methods !! ("set" +:+ capitalize name) = Some (SetMethod attribute))
  /\ ("subscribe" +:+ capitalize name ∉ (cluster_commands clusterDef).*1 ->
      methods !! ("subscribe" +:+ capitalize name) = Some (SubscribeMethod attribute)).
Proof.
  intros Hnodup Hin methods.
  destruct (addAccessors_lookup (cluster_attributes clusterDef) ∅ name attribute Hnodup Hin)
    as (Hget & Hset & Hsubscribe).
  unfold methods, ClusterClient.
  repeat split; intros Hfree; by rewrite addCommand_other.
Qed.

Lemma addAccessors_keys (attributes : list (string * AttributeDef))
    (result : gmap string Method) (k : string) :
  is_Some (foldl (addAccessors capitalize) result attributes !! k) ->
  is_Some (result !! k)
  \/ exists name prefix,
       name ∈ attributes.*1 /\ prefix ∈ ["get"; "set"; "subscribe"]
       /\ k = prefix +:+ capitalize name.
Proof.
  revert result. induction attributes as [|[name attribute] attributes IH];
    intros result Hk; [by left|].
  simpl in Hk. apply IH in Hk as [Hk|(name' & prefix & Hname & Hprefix & ->)].
  - unfold addAccessors in Hk. simpl in Hk.
    destruct (decide (k = "subscribe" +:+ capitalize name)) as [->|Hne1].
    { right. exists name, "subscribe". simpl. repeat split; repeat constructor. }
    rewrite lookup_insert_ne in Hk by done.
    destruct (decide (k = "set" +:+ capitalize name)) as [->|Hne2].
    { right. exists name, "set". simpl. repeat split; repeat constructor. }
    rewrite lookup_insert_ne in Hk by done.
    destruct (decide (k = "get" +:+ capitalize name)) as [->|Hne3].
    { right. exists name, "get". simpl. repeat split; repeat constructor. }
    rewrite lookup_insert_ne in Hk by done. by left.
  - right. exists name', prefix. simpl. repeat split; [by constructor|done].
Qed.

(** X21.  The facade has no other properties: every name that it defines
    is the name of a command of the cluster, or [get], [set] or
    [subscribe] followed by the capitalized name of one of its
    attributes. *)
Theorem ClusterClient_names (clusterDef : Cluster) (k : string) :
  is_Some (ClusterClient capitalize clusterDef !! k) ->
  k ∈ (cluster_commands clusterDef).*1
  \/ exists name prefix,
       name ∈ (cluster_attributes clusterDef).*1
       /\ prefix ∈ ["get"; "set"; "subscribe"]
       /\ k = prefix +:+ capitalize name.
Proof.
  intros Hk. unfold ClusterClient in Hk.
  destruct (decide (k ∈ (cluster_commands clusterDef).*1)) as [Hcommand|Hfree]; [by left|].
  right. rewrite addCommand_other in Hk by done.
  apply addAccessors_keys in Hk as [Hk|Hk]; [|done].
  rewrite lookup_empty in Hk. by destruct Hk.
Qed.
End FacadeFacts.

(** *** The properties on the scenarios *)

Import InteractionScenarios.

(** A report for subscription 2, which the client does not have, is
    answered with InvalidSubscription and then refused. *)
Lemma stray_report_refused :
  onNewExchange straySubscribed
  = (Thrown (undispatched (Some 2%N)),
     emit (EvSent (OutStatus InvalidSubscription))
          (emit (EvReceived (InDataReport strayReport)) (setInbound [] straySubscribed))).
Proof.
  assert (accepting straySubscribed) as Hok by (intros n; reflexivity).
  assert (subscriptionId strayReport ≫= (fun sid => subscriptionListeners straySubscribed !! sid)
          = None) as Hnone by (vm_compute; reflexivity).
  exact (onNewExchange_undispatched straySubscribed strayReport [] eq_refl Hnone Hok).
Defined.

(** Without a cached value, [get] reads the on/off attribute. *)
Lemma get_on_off_read :
  exists w',
    get 1 6 onOff onOffRead = (Returned (Some 0), w')
    /\ trace w'
       = [ EvOpen;
           EvSent (OutReadRequest (readRequestFor [pathOf (Some 1%N) (Some 6%N) (Some 0%N)]));
           EvReceived (InDataReport onOffAnswer);
           EvSent (OutStatus 0);
           EvClose ].
Proof.
  assert (accepting onOffRead) as Hok by (intros n; reflexivity).
  exact (get_reads_on_miss onOffRead 1%N 6%N onOff onOffAnswer [] []
           (lookup_empty _) Hok eq_refl eq_refl).
Defined.

(** The failure of the write of S7 that [set] reports is the first one,
    that of cluster 8. *)
Lemma set_mixed_answers :
  (set 1 6 onOff 1 None mixedWrite).1
  = Thrown (StatusResponseError
              ("Error setting attribute " +:+ renderPath (path (entry 1 8 0 None 0))) 135)
  /\ trace (set 1 6 onOff 1 None mixedWrite).2
     = [ EvOpen;
         EvSent (OutWriteRequest
                   {| write_suppressResponse := false;
                      write_timedRequest := false;
                      writeRequests :=
                        [ {| request_path := pathOf (Some 1%N) (Some 6%N) (Some 0%N);
                             request_data := 1;
                             request_dataVersion := None |} ];
                      write_moreChunkedMessages := false;
                      write_interactionModelRevision := 1 |});
         EvReceived (InWriteResponse (Some mixedAnswers));
         EvClose ].
Proof.
  assert (accepting mixedWrite) as Hok by (intros n; reflexivity).
  exact (set_throws_first_failure mixedWrite 1%N 6%N onOff 1 None 1 mixedAnswers []
           eq_refl Hok eq_refl).
Defined.

(** A write whose third value cannot be encoded sends nothing. *)
Lemma write_negative_level :
  setMultipleAttributes (writes ++ negativeLevel :: writes) mixedWrite
  = (Thrown (JsError "Invalid value"), emit EvClose (emit EvOpen mixedWrite)).
Proof.
  assert (Forall (fun a => exists data : Z,
                      encodeTlv (schema (write_attribute a)) (write_value a) = Returned data)
                 writes) as Henc by (repeat constructor; by eexists).
  exact (setMultipleAttributes_encode_failure mixedWrite writes writes negativeLevel
           (JsError "Invalid value") Henc eq_refl).
Defined.

Lemma write_unanswered :
  exists request,
    length (writeRequests request) = length writes
    /\ (setMultipleAttributes writes unansweredWrite).1 = Thrown (JsError "No response received")
    /\ trace (setMultipleAttributes writes unansweredWrite).2
       = trace unansweredWrite ++ [EvOpen; EvSent (OutWriteRequest request);
                                   EvReceived (InWriteResponse None); EvClose].
Proof.
  assert (Forall (fun a => exists data : Z,
                      encodeTlv (schema (write_attribute a)) (write_value a) = Returned data)
                 writes) as Henc by (repeat constructor; by eexists).
  assert (accepting unansweredWrite) as Hok by (intros n; reflexivity).
  exact (setMultipleAttributes_no_response unansweredWrite writes [] Henc Hok eq_refl).
Defined.

Lemma invoke_unanswered :
  (invoke 1 6 0 2 TlvInt 2 TlvNoResponse false unansweredInvoke).1
  = Thrown (JsError "No response received")
  /\ trace (invoke 1 6 0 2 TlvInt 2 TlvNoResponse false unansweredInvoke).2
     = [ EvOpen;
         EvSent (OutInvokeRequest (invokeRequestFor 1 6 2 0));
         EvReceived (InInvokeResponse None);
         EvClose ].
Proof.
  assert (accepting unansweredInvoke) as Hok by (intros n; reflexivity).
  exact (invoke_no_response unansweredInvoke 1%N 6%N 0 2%N TlvInt 2%N TlvNoResponse false 0
           None [] eq_refl Hok eq_refl eq_refl).
Defined.

(** A response payload without result is decoded and returned. *)
Lemma invoke_payload_only :
  (invoke 1 6 0 2 TlvInt 2 TlvInt false (answered 5)).1 = Returned (Some 5)
  /\ trace (invoke 1 6 0 2 TlvInt 2 TlvInt false (answered 5)).2
     = [ EvOpen;
         EvSent (OutInvokeRequest (invokeRequestFor 1 6 2 0));
         EvReceived (InInvokeResponse (Some (payloadOnly 5)));
         EvClose ].
Proof.
  assert (accepting (answered 5)) as Hok by (intros n; reflexivity).
  exact (invoke_without_result (answered 5) 1%N 6%N 0 2%N TlvInt 2%N TlvInt false 0
           (payloadOnly 5) {| response := Some 5; result := None |} [] []
           eq_refl Hok eq_refl eq_refl eq_refl).
Defined.
(** The listener is registered under the id of the subscribe response. *)
Lemma subscribe_registers_listener :
  subscriptionListeners (subscribe 1 6 onOff 0 60 (Some quietListener) subscribing).2
  = <[1%N := SubscribeListener (Some quietListener)]> (subscriptionListeners subscribing)
  /\ subscriptionListeners
       (subscribeMultipleAttributes [pathOf (Some 1%N) None None] 0 60
                                    (Some quietDataListener) subscribing).2
     = <[1%N := SubscribeMultipleListener (Some quietDataListener)]>
         (subscriptionListeners subscribing).
Proof.
  assert (accepting subscribing) as Hok by (intros n; reflexivity).
  exact (subscribe_registers_before_initial_report subscribing 1%N 6%N onOff
           [pathOf (Some 1%N) None None] 0%N 60%N (Some quietListener)
           (Some quietDataListener) onOffReport 1%N [] Hok eq_refl).
Defined.

(** A subscribe request that gets no answer registers nothing. *)
Lemma subscribe_without_answer :
  (exists e, (subscribe 1 6 onOff 0 60 (Some quietListener) (receiving [])).1 = Thrown e)
  /\ subscriptionListeners (subscribe 1 6 onOff 0 60 (Some quietListener) (receiving [])).2
     = subscriptionListeners (receiving [])
  /\ subscribedLocalValues (subscribe 1 6 onOff 0 60 (Some quietListener) (receiving [])).2
     = subscribedLocalValues (receiving [])
  /\ last (trace (subscribe 1 6 onOff 0 60 (Some quietListener) (receiving [])).2)
     = Some EvClose.
Proof.
  assert (forall report sid rest,
             inbound (receiving []) <> InSubscribeResponse report sid :: rest) as Hnone
    by (intros report sid rest; discriminate).
  exact (subscribe_unanswered_registers_nothing (receiving []) 1%N 6%N onOff 0%N 60%N
           (Some quietListener) Hnone).
Defined.

(** S6: the value of the initial report is what [get] returns after
    [subscribe]. *)
Lemma subscribe_on_off_then_get :
  exists w',
    subscribe 1 6 onOff 0 60 (Some quietListener) subscribing = (Returned tt, w')
    /\ trace w'
       = trace subscribing
         ++ [ EvOpen;
              EvSent (OutSubscribeRequest
                        (subscribeRequestFor [pathOf (Some 1%N) (Some 6%N) (Some 0%N)] 0 60));
              EvReceived (InSubscribeResponse onOffReport 1%N) ]
         ++ listenerCall (Some quietListener) c 0 ++ [EvClose]
    /\ get 1 6 onOff w' = (Returned (Some 0), w').
Proof.
  assert (accepting subscribing) as Hok by (intros n; reflexivity).
  assert (forall f, Some quietListener = Some f -> f (0, version c) = None) as Hreturns
    by (intros f [= <-]; reflexivity).
  exact (subscribe_then_get subscribing 1%N 6%N onOff 0%N 60%N (Some quietListener)
           onOffReport 1%N [] c [] c 0 Hok eq_refl eq_refl eq_refl eq_refl Hreturns
           eq_refl eq_refl eq_refl).
Defined.

(** A report without entries is answered and logged. *)
Lemma empty_report_logged :
  onNewExchange emptySubscribed
  = (Returned tt,
     emit (EvLog "Subscription result empty")
          (emit (EvSent (OutStatus Success))
                (emit (EvReceived (InDataReport emptyReport)) (setInbound [] emptySubscribed)))).
Proof.
  assert (accepting emptySubscribed) as Hok by (intros n; reflexivity).
  assert (subscriptionListeners emptySubscribed !! 1%N
          = Some (SubscribeListener (Some quietListener))) as Hl by (vm_compute; reflexivity).
  exact (onNewExchange_empty_report emptySubscribed emptyReport 1%N
           (SubscribeListener (Some quietListener)) [] eq_refl eq_refl Hl Hok eq_refl).
Defined.

(** The listener of [subscribe] rejects a report with two entries and
    stores none of them. *)
Lemma two_entries_rejected :
  subscribeListener (Some quietListener) twoReport (receiving [])
  = (Thrown (JsError "Unexpected response with more then one attribute"), receiving []).
Proof.
  exact (subscribeListener_rejects (receiving []) (Some quietListener) twoReport c [d]
           (JsError "Unexpected response with more then one attribute") eq_refl eq_refl).
Defined.

(** The listener of [subscribeMultipleAttributes] stores both entries. *)
Lemma two_entries_stored :
  exists w',
    subscribeMultipleListener (Some quietDataListener) twoReport (receiving [])
    = (Returned tt, w')
    /\ subscribedLocalValues w'
       = cacheAfter (normalizeAndDecodeReadAttributeReport [c; d])
                    (subscribedLocalValues (receiving []))
    /\ trace w'
       = trace (receiving [])
         ++ listenerCalls (Some quietDataListener)
                          (normalizeAndDecodeReadAttributeReport [c; d]).
Proof.
  assert (Forall (fun x : Report => is_Some (value x))
                 (normalizeAndDecodeReadAttributeReport [c; d])) as Hvalues
    by (repeat constructor; by eexists).
  assert (forall (f : Callback Report) x,
             Some quietDataListener = Some f ->
             x ∈ normalizeAndDecodeReadAttributeReport [c; d] -> f x = None) as Hreturns
    by (intros f x [= <-] _; reflexivity).
  exact (subscribeMultipleListener_stores_all (receiving []) (Some quietDataListener)
           twoReport c [d] eq_refl Hvalues Hreturns).
Defined.

(** After the report for two attributes, [get] for the second one
    answers from the cache. *)
Lemma get_start_up_cached :
  let w' := (subscribeMultipleListener (Some quietDataListener) twoReport (receiving [])).2 in
  get 1 6 startUpOnOff w' = (Returned (Some 1), w').
Proof.
  assert (Forall (fun x : Report => is_Some (value x)) ([c] ++ d :: [])) as Hvalues
    by (repeat constructor; by eexists).
  assert (forall (f : Callback Report) x,
             Some quietDataListener = Some f -> x ∈ [c] ++ d :: [] -> f x = None) as Hreturns
    by (intros f x [= <-] _; reflexivity).
  exact (get_after_multiple_report (receiving []) (Some quietDataListener) twoReport c [d]
           [c] [] d 1 1%N 6%N startUpOnOff eq_refl eq_refl Hvalues Hreturns eq_refl
           (Forall_nil_2 _) eq_refl eq_refl eq_refl).
Defined.

(** S6, end to end: the pushed report is answered, handed to the
    listener, and its value is what [get] returns afterwards. *)
Lemma on_off_report_then_get :
  exists w',
    onNewExchange onOffSubscribed = (Returned tt, w')
    /\ trace w' = trace onOffSubscribed
                  ++ [EvReceived (InDataReport onOffReport); EvSent (OutStatus Success)]
                  ++ listenerCall (Some quietListener) c 0
    /\ inbound w' = []
    /\ get 1 6 onOff w' = (Returned (Some 0), w').
Proof.
  assert (accepting onOffSubscribed) as Hok by (intros n; reflexivity).
  assert (subscriptionListeners onOffSubscribed !! 1%N
          = Some (SubscribeListener (Some quietListener))) as Hl by (vm_compute; reflexivity).
  assert (forall f, Some quietListener = Some f -> f (0, version c) = None) as Hreturns
    by (intros f [= <-]; reflexivity).
  exact (onNewExchange_then_get onOffSubscribed onOffReport 1%N (Some quietListener) []
           c [] c 0 1%N 6%N onOff eq_refl eq_refl Hl Hok eq_refl eq_refl eq_refl Hreturns
           eq_refl eq_refl eq_refl).
Defined.

(** The facade of the on/off cluster. *)
Lemma facade_toggle :
  ClusterClient capitalize onOffCluster !! "toggle" = Some (CommandMethod toggle).
Proof.
  assert (NoDup (cluster_commands onOffCluster).*1) as Hnodup
    by (refine (bool_decide_unpack _ _); vm_compute; exact I).
  assert (("toggle", toggle) ∈ cluster_commands onOffCluster) as Hin by constructor.
  exact (ClusterClient_command capitalize onOffCluster "toggle" toggle Hnodup Hin).
Defined.

Lemma facade_start_up_on_off :
  let methods := ClusterClient capitalize onOffCluster in
  ("get" +:+ capitalize "startUpOnOff" ∉ (cluster_commands onOffCluster).*1 ->
   methods !! ("get" +:+ capitalize "startUpOnOff") = Some (GetMethod startUpOnOff))
  /\ ("set" +:+ capitalize "startUpOnOff" ∉ (cluster_commands onOffCluster).*1 ->
      methods !! ("set" +:+ capitalize "startUpOnOff") = Some (SetMethod startUpOnOff))
  /\ ("subscribe" +:+ capitalize "startUpOnOff" ∉ (cluster_commands onOffCluster).*1 ->
      methods !! ("subscribe" +:+ capitalize "startUpOnOff")
      = Some (SubscribeMethod startUpOnOff)).
Proof.
  assert (NoDup (capitalize <$> (cluster_attributes onOffCluster).*1)) as Hnodup
    by (refine (bool_decide_unpack _ _); vm_compute; exact I).
  assert (("startUpOnOff", startUpOnOff) ∈ cluster_attributes onOffCluster) as Hin
    by (right; constructor).
  exact (ClusterClient_accessors capitalize onOffCluster "startUpOnOff" startUpOnOff
           Hnodup Hin).
Defined.

Lemma facade_get_on_off_origin :
  "getOnOff" ∈ (cluster_commands onOffCluster).*1
  \/ exists name prefix,
       name ∈ (cluster_attributes onOffCluster).*1
       /\ prefix ∈ ["get"; "set"; "subscribe"]
       /\ "getOnOff" = prefix +:+ capitalize name.
Proof.
  assert (is_Some (ClusterClient capitalize onOffCluster !! "getOnOff")) as Hsome
    by (exists (GetMethod onOff); vm_compute; reflexivity).
  exact (ClusterClient_names capitalize onOffCluster "getOnOff" Hsome).
Defined.
End InteractionCoverage.

(** ** More facts about the session establishment *)

Module HandshakeCoverage.
Import SecureChannel EffFacts HandshakeFacts.

Section Facts.
Context {imports : Imports}.

Implicit Types (w : World) (m : Outbound).

(** Reading a field of a state that has just been written. *)
Ltac world_simpl :=
  cbn [sessions nextSessionId heap resumptionRecords fabrics inbound sendOk trace
       channelName randomSource drawn
       emit setInbound setDrawn setNextSessionId setSessions setHeap
       setResumptionRecords].

(** *** Pairing *)

(** X22.  S1 in general: when the exchange accepts what is sent, the
    peer answers with PBKDF parameters, a pake2 whose verifier is hBX and
    a success status, [pair] returns a session that is registered with
    the node, with the session id taken at the start, the peer's session
    id, Ke as secret, an empty salt, as initiator and not as resumption,
    without fabric and with the undefined node id; it has sent the
    parameter request, pake1 with X and pake3 with hAY, in this order, and
    has closed the messenger. *)
Theorem pair_succeeds w (setupPin : N) (responsePayload : ByteArray)
    (response : PbkdfParamResponse) (params : PbkdfParameters) (w0 w1 Y verifier : ByteArray)
    (Ke hAY hBX : ByteArray) (rest : list Inbound) :
  accepting w ->
  inbound w = InPbkdfParamResponse responsePayload response
              :: InPasePake2 Y verifier :: InStatusReport GeneralStatusSuccess :: rest ->
  pbkdfParameters response = Some params ->
  computeW0W1 params setupPin = Returned (w0, w1) ->
  let request :=
    {| request_random := map (randomSource w) (seq (drawn w) 32);
       request_sessionId := nextSessionId w;
       passcodeId := DEFAULT_PASSCODE_ID;
       hasPbkdfParameters := false |} in
  let spake2p :=
    create (hash [SPAKE_CONTEXT; encodePbkdfParamRequest request; responsePayload]) w0
           (map (randomSource w) (seq (drawn w + 32) 32)) in
  computeSecretAndVerifiersFromY spake2p w1 (computeX spake2p) Y = Returned (Ke, hAY, hBX) ->
  verifier = hBX ->
  let session :=
    {| session_id := nextSessionId w;
       session_fabric := None;
       session_peerNodeId := UNDEFINED_NODE_ID;
       session_peerSessionId := response_sessionId response;
       session_sharedSecret := Ke;
       session_salt := [];
       isInitiator := true;
       isResumption := false;
       session_idleRetransTimeoutMs := None;
       session_activeRetransTimeoutMs := None |} in
  exists w',
    pair setupPin w = (Returned session, w')
    /\ sessions w' = sessions w ++ [session]
    /\ trace w' = trace w ++ [ EvSent (OutPbkdfParamRequest request);
                               EvReceived (InPbkdfParamResponse responsePayload response);
                               EvSent (OutPasePake1 (computeX spake2p));
                               EvReceived (InPasePake2 Y verifier);
                               EvSent (OutPasePake3 hAY);
                               EvReceived (InStatusReport GeneralStatusSuccess);
                               EvClose;
                               EvInfo ("Pase client: Paired successfully with "
                                         +:+ channelName w) ]
    /\ inbound w' = rest.
Proof.
  intros Hok Hin Hparams Hw request spake2p Hsecret Hverifier session.
  eexists. split.
  - unfold pair, getRandom.
    erewrite run_bind by reflexivity.
    erewrite run_bind by reflexivity.
    erewrite run_bind
      by (unfold sendPbkdfParamRequest; erewrite run_bind by (apply handshake_send_accepted, Hok);
          reflexivity).
    erewrite run_bind
      by (unfold readPbkdfParamResponse; erewrite run_bind
            by (unfold nextMessage; world_simpl; rewrite Hin; reflexivity);
          reflexivity).
    cbv beta iota. rewrite Hparams.
    erewrite run_bind by (unfold Eff.lift; rewrite Hw; reflexivity).
    cbv beta iota.
    erewrite run_bind by reflexivity.
    world_simpl. fold request. fold spake2p.
    erewrite run_bind by (apply handshake_send_accepted, Hok).
    erewrite run_bind
      by (unfold readPasePake2; erewrite run_bind
            by (unfold nextMessage; world_simpl; reflexivity);
          reflexivity).
    cbv beta iota.
    erewrite run_bind by (unfold Eff.lift; rewrite Hsecret; reflexivity).
    cbv beta iota. rewrite decide_True by done.
    erewrite run_bind by (apply handshake_send_accepted, Hok).
    erewrite run_bind
      by (unfold waitForSuccess; erewrite run_bind
            by (unfold nextMessage; world_simpl; reflexivity);
          cbv beta iota; rewrite decide_True by done; reflexivity).
    erewrite run_bind by reflexivity.
    erewrite run_bind by reflexivity.
    erewrite run_bind by reflexivity.
    erewrite run_bind by reflexivity.
    world_simpl. reflexivity.
  - world_simpl. split; [done|]. split; [|done]. by rewrite <- !app_assoc.
Qed.

(** X23.  A parameter response without PBKDF parameters makes [pair]
    throw "Missing requested PbkdfParameters in the response" right after
    reading it: the parameter request is the only message sent, no
    session is registered, and the rest of the inbound messages is left
    unread. *)
Theorem pair_missing_parameters w (setupPin : N) (responsePayload : ByteArray)
    (response : PbkdfParamResponse) (rest : list Inbound) :
  accepting w ->
  inbound w = InPbkdfParamResponse responsePayload response :: rest ->
  pbkdfParameters response = None ->
  let request :=
    {| request_random := map (randomSource w) (seq (drawn w) 32);
       request_sessionId := nextSessionId w;
       passcodeId := DEFAULT_PASSCODE_ID;
       hasPbkdfParameters := false |} in
  exists w',
    pair setupPin w
    = (Thrown (JsError "Missing requested PbkdfParameters in the response"), w')
    /\ trace w' = trace w ++ [ EvSent (OutPbkdfParamRequest request);
                               EvReceived (InPbkdfParamResponse responsePayload response) ]
    /\ sessions w' = sessions w
    /\ inbound w' = rest.
Proof.
  intros Hok Hin Hparams request.
  eexists. split.
  - unfold pair, getRandom.
    erewrite run_bind by reflexivity.
    erewrite run_bind by reflexivity.
    erewrite run_bind
      by (unfold sendPbkdfParamRequest; erewrite run_bind by (apply handshake_send_accepted, Hok);
          reflexivity).
    erewrite run_bind
      by (unfold readPbkdfParamResponse; erewrite run_bind
            by (unfold nextMessage; world_simpl; rewrite Hin; reflexivity);
          reflexivity).
    cbv beta iota. rewrite Hparams. reflexivity.
  - world_simpl. split; [|done]. by rewrite <- !app_assoc.
Qed.

(** X24.  [pair] registers a session exactly when it returns one:
    whenever it throws, the sessions of the node are as they were, and
    whenever it returns, the returned session has been appended to them
    and nothing else, it carries the session id that was free at the
    start, is an initiator session without fabric, with the undefined
    node id and an empty salt, and the messenger has been closed. *)
Theorem pair_registers_iff_returns w (setupPin : N) :
  (forall e w', pair setupPin w = (Thrown e, w') -> sessions w' = sessions w)
  /\ (forall session w',
        pair setupPin w = (Returned session, w') ->
        sessions w' = sessions w ++ [session]
        /\ session_id session = nextSessionId w
        /\ isInitiator session = true
        /\ isResumption session = false
        /\ session_fabric session = None
        /\ session_peerNodeId session = UNDEFINED_NODE_ID
        /\ session_salt session = []
        /\ closed w' = true).
Proof.
  split.
  - intros e w' Hrun.
    pose proof (pair_throws_frame setupPin w e w' Hrun) as Hframe.
    by injection Hframe.
  - intros session w'. unfold pair, getRandom.
    erewrite run_bind by reflexivity.
    erewrite run_bind by reflexivity.
    set (w1 := setNextSessionId _ _).
    change (sessions w) with (sessions w1). generalize w1. clear w1. intros w1.
    set (R := fun (ss : list SecureSession) (session : SecureSession) (w' : World) =>
                sessions w' = ss ++ [session]
                /\ session_id session = nextSessionId w
                /\ isInitiator session = true
                /\ isResumption session = false
                /\ session_fabric session = None
                /\ session_peerNodeId session = UNDEFINED_NODE_ID
                /\ session_salt session = []
                /\ closed w' = true).
    revert w1 session w'.
    apply (returns_bind sessions R).
    { apply keeps_bind; [by apply handshake_keeps_send|]. intros _. apply keeps_ret. }
    intros requestPayload.
    apply (returns_bind sessions R).
    { apply keeps_bind; [by apply handshake_keeps_nextMessage|].
      intros []; first [apply keeps_ret | apply keeps_throw]. }
    intros [responsePayload response].
    destruct (pbkdfParameters response) as [params|]; [|done].
    apply (returns_bind sessions R); [apply keeps_lift|]. intros [w0' w1'].
    apply (returns_bind sessions R); [by apply handshake_keeps_getRandomData|]. intros seed.
    apply (returns_bind sessions R); [by apply handshake_keeps_send|]. intros _.
    apply (returns_bind sessions R).
    { apply keeps_bind; [by apply handshake_keeps_nextMessage|].
      intros []; first [apply keeps_ret | apply keeps_throw]. }
    intros [Y verifier].
    apply (returns_bind sessions R); [apply keeps_lift|]. intros [[Ke hAY] hBX].
    destruct (decide (verifier = hBX)); [|done].
    apply (returns_bind sessions R); [by apply handshake_keeps_send|]. intros _.
    apply (returns_bind sessions R); [by apply handshake_keeps_waitForSuccess|]. intros _.
    intros s b s'. unfold Eff.bind, createSecureSession, Eff.bind, Eff.modify, Eff.ret,
      close, info, Eff.modify, Eff.gets. simpl.
    intros [= <- <-]. unfold R, closed. simpl.
    repeat split. rewrite !existsb_app. simpl. by rewrite orb_true_r.
Qed.

(** *** The full handshake *)

(** [handleSigma1] up to the choice of the branch, when sigma1 cannot be
    resumed. *)
Lemma handleSigma1_not_resumable w (sigma1Bytes : ByteArray) (sigma1 : Sigma1)
    (rest : list Inbound) :
  inbound w = InSigma1 sigma1Bytes sigma1 :: rest ->
  notResumable w sigma1 ->
  handleSigma1 w
  = establish (nextSessionId w) (randomBytes w (drawn w) 32)
              (randomBytes w (drawn w + 32) 16) sigma1Bytes sigma1
              (setDrawn (drawn w + 32 + 16)
                 (emit (EvReceived (InSigma1 sigma1Bytes sigma1))
                    (setInbound rest
                       (setDrawn (drawn w + 32)
                          (setNextSessionId (nextSessionId w + 1)
                             (emit (EvInfo ("Case server: Received pairing request from "
                                              +:+ channelName w)) w)))))).
Proof.
  intros Hin Hnot. unfold handleSigma1, getRandom.
  erewrite run_bind by reflexivity.
  erewrite run_bind by reflexivity.
  erewrite run_bind by reflexivity.
  erewrite run_bind by reflexivity.
  erewrite run_bind
    by (unfold readSigma1; erewrite run_bind
          by (unfold nextMessage; world_simpl; rewrite Hin; reflexivity);
        reflexivity).
  cbv beta iota.
  erewrite run_bind by reflexivity.
  world_simpl. unfold notResumable in Hnot.
  destruct (sigma1_resumptionId sigma1) as [peerResumptionId|]; [|done].
  destruct (sigma1_resumeMic sigma1) as [peerResumeMic|]; [|done].
  erewrite run_bind by (unfold findResumptionRecordById, Eff.gets; world_simpl;
                        rewrite Hnot; reflexivity).
  reflexivity.
Qed.

(** The full branch, step by step, on an exchange that accepts what is
    sent and whose next message is sigma3. *)
Lemma establish_run w (sessionId : N) (random resumptionId sigma1Bytes : ByteArray)
    (sigma1 : Sigma1) (sigma3Bytes peerEncrypted : ByteArray) (rest : list Inbound)
    (fabric : Fabric) :
  accepting w ->
  inbound w = InSigma3 sigma3Bytes peerEncrypted :: rest ->
  matchDestinationId (fabrics w) (destinationId sigma1) (sigma1_random sigma1)
  = Returned fabric ->
  let keys := ecdhGeneratePublicKeyAndSecret (sigma1_ecdhPublicKey sigma1)
                                             (randomBytes w (drawn w) 32) in
  let sigma2 := sigma2For fabric random sessionId resumptionId sigma1Bytes sigma1 keys in
  let w3 := afterSigma3 w sigma2 sigma3Bytes peerEncrypted rest in
  establish sessionId random resumptionId sigma1Bytes sigma1 w
  = match verifySigma3 fabric keys sigma1Bytes (encodeSigma2 sigma2) sigma1 peerEncrypted with
    | Thrown e => (Thrown e, w3)
    | Returned peerNodeId =>
        (Returned tt,
         established w3
           (establishedSession fabric sessionId sigma1 keys sigma1Bytes (encodeSigma2 sigma2)
                               sigma3Bytes peerNodeId)
           {| sharedSecret := keys.2; fabric := fabric; peerNodeId := peerNodeId;
              resumptionId := resumptionId |})
    end.
Proof.
  intros Hok Hin Hfabric keys sigma2 w3.
  unfold establish.
  erewrite run_bind by (unfold findFabricFromDestinationId; rewrite Hfabric; reflexivity).
  erewrite run_bind by reflexivity.
  fold (randomBytes w (drawn w) 32). fold keys.
  unfold verifySigma3, sigma2, sigma2For. clearbody keys. destruct keys as [ecdhPublicKey secret].
  cbn [fst snd].
  erewrite run_bind
    by (unfold sendSigma2; erewrite run_bind by (apply handshake_send_accepted, Hok);
        reflexivity).
  erewrite run_bind
    by (unfold readSigma3; erewrite run_bind
          by (unfold nextMessage; world_simpl; rewrite Hin; reflexivity);
        reflexivity).
  cbv beta iota.
  destruct (decrypt _ peerEncrypted _) as [peerEncryptedData|e] eqn:Hdecrypt.
  2: { by erewrite run_bind_thrown by reflexivity. }
  erewrite run_bind by reflexivity.
  destruct (TlvEncryptedDataSigma3_decode peerEncryptedData) as [tbe3|e] eqn:Htbe3.
  2: { by erewrite run_bind_thrown by reflexivity. }
  erewrite run_bind by reflexivity.
  destruct (verifyCredentials fabric _ _) as [[]|e] eqn:Hcredentials.
  2: { by erewrite run_bind_thrown by reflexivity. }
  erewrite run_bind by reflexivity.
  destruct (TlvOperationalCertificate_decode _) as [cert|e] eqn:Hcert.
  2: { by erewrite run_bind_thrown by reflexivity. }
  erewrite run_bind by reflexivity.
  destruct (verifySpki _ _ _) as [[]|e] eqn:Hspki.
  2: { by erewrite run_bind_thrown by reflexivity. }
  erewrite run_bind by reflexivity.
  erewrite run_bind by reflexivity.
  erewrite run_bind by reflexivity.
  erewrite run_bind by reflexivity.
  erewrite run_bind by (apply handshake_send_accepted, Hok).
  erewrite run_bind by reflexivity.
  erewrite run_bind by reflexivity.
  unfold saveResumptionRecord. world_simpl.
  rewrite list_lookup_middle by done.
  reflexivity.
Qed.

(** X25.  A full handshake that succeeds.  The exchange accepts what is
    sent, sigma1 cannot be resumed, the destination id matches a fabric,
    the peer answers sigma2 with a sigma3 that passes the verification:
    [onNewExchange] returns, the node holds one more session, with the
    session id that was free at the start, the node id of the peer's
    certificate, the ECDH secret, the salt IPK || hash(sigma1, sigma2,
    sigma3), not as initiator and not as resumption; a new resumption
    record with the fresh 16 byte id that sigma2 carried is in the node's
    collection and persisted; sigma2 and then the success status are the
    messages sent, and the messenger is closed before the record is
    saved. *)
Theorem onNewExchange_full_handshake w (sigma1Bytes : ByteArray) (sigma1 : Sigma1)
    (sigma3Bytes peerEncrypted : ByteArray) (rest : list Inbound) (fabric : Fabric)
    (peerNodeId : NodeId) :
  accepting w ->
  inbound w = InSigma1 sigma1Bytes sigma1 :: InSigma3 sigma3Bytes peerEncrypted :: rest ->
  notResumable w sigma1 ->
  matchDestinationId (fabrics w) (destinationId sigma1) (sigma1_random sigma1)
  = Returned fabric ->
  let resumptionId := randomBytes w (drawn w + 32) 16 in
  let keys := ecdhGeneratePublicKeyAndSecret (sigma1_ecdhPublicKey sigma1)
                                             (randomBytes w (drawn w + 32 + 16) 32) in
  let sigma2 := sigma2For fabric (randomBytes w (drawn w) 32) (nextSessionId w) resumptionId
                          sigma1Bytes sigma1 keys in
  verifySigma3 fabric keys sigma1Bytes (encodeSigma2 sigma2) sigma1 peerEncrypted
  = Returned peerNodeId ->
  let session := establishedSession fabric (nextSessionId w) sigma1 keys sigma1Bytes
                                    (encodeSigma2 sigma2) sigma3Bytes peerNodeId in
  let record := {| sharedSecret := keys.2; fabric := fabric; peerNodeId := peerNodeId;
                   resumptionId := resumptionId |} in
  exists w',
    onNewExchange w = (Returned tt, w')
    /\ sessions w' = sessions w ++ [session]
    /\ heap w' = heap w ++ [record]
    /\ length (heap w) ∈ resumptionRecords w'
    /\ length resumptionId = 16%nat
    /\ trace w' = trace w ++ [ EvInfo ("Case server: Received pairing request from "
                                         +:+ channelName w);
                               EvReceived (InSigma1 sigma1Bytes sigma1);
                               EvSent (OutSigma2 sigma2);
                               EvReceived (InSigma3 sigma3Bytes peerEncrypted);
                               EvInfo ("Case server: session " +:+ pretty (nextSessionId w)
                                         +:+ " created with " +:+ channelName w);
                               EvSent OutSuccess;
                               EvClose;
                               EvSaved record ]
    /\ inbound w' = rest.
Proof.
  intros Hok Hin Hnot Hfabric resumptionId keys sigma2 Hverified session record.
  eexists. split.
  - unfold onNewExchange, Eff.tryCatch.
    rewrite (handleSigma1_not_resumable w sigma1Bytes sigma1 _ Hin Hnot).
    erewrite establish_run; [|done|reflexivity|done].
    unfold randomBytes in *. world_simpl.
    fold resumptionId. fold keys. fold sigma2. rewrite Hverified.
    reflexivity.
  - unfold established, afterSigma3. world_simpl.
    split; [done|]. split; [done|]. split.
    { destruct (decide _); [done|]. apply elem_of_app. right. by constructor. }
    split. { unfold resumptionId, randomBytes. by rewrite length_map, length_seq. }
    split; [|done]. by rewrite <- !app_assoc.
Qed.

(** X26.  A full handshake whose sigma3 does not pass the verification
    (the payload does not decrypt or decode, the credentials are not of
    the fabric, or the signature is wrong): [onNewExchange] logs the
    error of the step that failed and sends the Error status after
    sigma2; it returns, and the node holds no new session and no new
    resumption record. *)
Theorem onNewExchange_sigma3_rejected w (sigma1Bytes : ByteArray) (sigma1 : Sigma1)
    (sigma3Bytes peerEncrypted : ByteArray) (rest : list Inbound) (fabric : Fabric)
    (e : Error) :
  accepting w ->
  inbound w = InSigma1 sigma1Bytes sigma1 :: InSigma3 sigma3Bytes peerEncrypted :: rest ->
  notResumable w sigma1 ->
  matchDestinationId (fabrics w) (destinationId sigma1) (sigma1_random sigma1)
  = Returned fabric ->
  let keys := ecdhGeneratePublicKeyAndSecret (sigma1_ecdhPublicKey sigma1)
                                             (randomBytes w (drawn w + 32 + 16) 32) in
  let sigma2 := sigma2For fabric (randomBytes w (drawn w) 32) (nextSessionId w)
                          (randomBytes w (drawn w + 32) 16) sigma1Bytes sigma1 keys in
  verifySigma3 fabric keys sigma1Bytes (encodeSigma2 sigma2) sigma1 peerEncrypted
  = Thrown e ->
  exists w',
    onNewExchange w = (Returned tt, w')
    /\ sessions w' = sessions w
    /\ heap w' = heap w
    /\ resumptionRecords w' = resumptionRecords w
    /\ trace w' = trace w ++ [ EvInfo ("Case server: Received pairing request from "
                                         +:+ channelName w);
                               EvReceived (InSigma1 sigma1Bytes sigma1);
                               EvSent (OutSigma2 sigma2);
                               EvReceived (InSigma3 sigma3Bytes peerEncrypted);
                               EvError "An error occurred during the commissioning" e;
                               EvSent OutError ].
Proof.
  intros Hok Hin Hnot Hfabric keys sigma2 Hrejected.
  eexists. split.
  - eapply onNewExchange_reports_error.
    + rewrite (handleSigma1_not_resumable w sigma1Bytes sigma1 _ Hin Hnot).
      erewrite establish_run; [|done|reflexivity|done].
      unfold randomBytes in *. world_simpl.
      fold keys. fold sigma2. rewrite Hrejected. reflexivity.
    + intros n. apply Hok.
  - unfold afterSigma3. world_simpl.
    split; [done|]. split; [done|]. split; [done|]. by rewrite <- !app_assoc.
Qed.

(** X27.  A sigma1 that cannot be resumed and whose destination id
    matches no fabric of the node: the error of the lookup is logged and
    answered with the Error status; no sigma2 is sent, and the node holds
    no new session and no new resumption record. *)
Theorem onNewExchange_unknown_destination w (sigma1Bytes : ByteArray) (sigma1 : Sigma1)
    (rest : list Inbound) (e : Error) :
  accepting w ->
  inbound w = InSigma1 sigma1Bytes sigma1 :: rest ->
  notResumable w sigma1 ->
  matchDestinationId (fabrics w) (destinationId sigma1) (sigma1_random sigma1) = Thrown e ->
  exists w',
    onNewExchange w = (Returned tt, w')
    /\ sessions w' = sessions w
    /\ heap w' = heap w
    /\ resumptionRecords w' = resumptionRecords w
    /\ trace w' = trace w ++ [ EvInfo ("Case server: Received pairing request from "
                                         +:+ channelName w);
                               EvReceived (InSigma1 sigma1Bytes sigma1);
                               EvError "An error occurred during the commissioning" e;
                               EvSent OutError ]
    /\ inbound w' = rest.
Proof.
  intros Hok Hin Hnot Hfabric.
  eexists. split.
  - eapply onNewExchange_reports_error.
    + rewrite (handleSigma1_not_resumable w sigma1Bytes sigma1 _ Hin Hnot).
      unfold establish.
      by erewrite run_bind_thrown
        by (unfold findFabricFromDestinationId; world_simpl; rewrite Hfabric; reflexivity).
    + intros n. apply Hok.
  - world_simpl. split; [done|]. split; [done|]. split; [done|]. split; [|done].
    by rewrite <- !app_assoc.
Qed.

(** *** Resumption *)

(** A record that is found is in the node's collection, is the object at
    the address that is returned, and carries the id that was asked for. *)
Lemma findRecord_Some (h : list ResumptionRecord) (id : ByteArray) (refs : list nat)
    (ref : nat) (record : ResumptionRecord) :
  findRecord h id refs = Some (ref, record) ->
  ref ∈ refs /\ h !! ref = Some record /\ resumptionId record = id.
Proof.
  induction refs as [|a refs IH]; simpl; [done|].
  destruct (h !! a) as [r|] eqn:Hlookup.
  - destruct (decide (resumptionId r = id)) as [Hid|Hid].
    + intros [= <- <-]. split; [by left|done].
    + intros Hfound. destruct (IH Hfound) as (Hin & Hrest). split; [by right|done].
  - intros Hfound. destruct (IH Hfound) as (Hin & Hrest). split; [by right|done].
Qed.

(** [handleSigma1] up to the choice of the branch, when the node has a
    record under the resumption id of sigma1. *)
Lemma handleSigma1_resumable w (sigma1Bytes : ByteArray) (sigma1 : Sigma1)
    (rest : list Inbound) (peerResumptionId peerResumeMic : ByteArray) (ref : nat)
    (record : ResumptionRecord) :
  inbound w = InSigma1 sigma1Bytes sigma1 :: rest ->
  sigma1_resumptionId sigma1 = Some peerResumptionId ->
  sigma1_resumeMic sigma1 = Some peerResumeMic ->
  findRecord (heap w) peerResumptionId (resumptionRecords w) = Some (ref, record) ->
  handleSigma1 w
  = resume (nextSessionId w) (randomBytes w (drawn w + 32) 16) sigma1
           peerResumptionId peerResumeMic ref record
           (setDrawn (drawn w + 32 + 16)
              (emit (EvReceived (InSigma1 sigma1Bytes sigma1))
                 (setInbound rest
                    (setDrawn (drawn w + 32)
                       (setNextSessionId (nextSessionId w + 1)
                          (emit (EvInfo ("Case server: Received pairing request from "
                                           +:+ channelName w)) w)))))).
Proof.
  intros Hin Hid Hmic Hfound. unfold handleSigma1, getRandom.
  erewrite run_bind by reflexivity.
  erewrite run_bind by reflexivity.
  erewrite run_bind by reflexivity.
  erewrite run_bind by reflexivity.
  erewrite run_bind
    by (unfold readSigma1; erewrite run_bind
          by (unfold nextMessage; world_simpl; rewrite Hin; reflexivity);
        reflexivity).
  cbv beta iota.
  erewrite run_bind by reflexivity.
  world_simpl. rewrite Hid, Hmic.
  erewrite run_bind by (unfold findResumptionRecordById, Eff.gets; world_simpl;
                        rewrite Hfound; reflexivity).
  reflexivity.
Qed.

(** X28.  S3 in general: a resumption that the peer confirms.  The node
    has a record under the resumption id of sigma1, the MIC of sigma1
    opens under the key derived from the record's secret, the exchange
    accepts what is sent and the peer answers sigma2 resume with a
    success status: [onNewExchange] returns; the node holds one more
    session, marked as resumption, with the secret, fabric and peer node
    id of the record and the salt peerRandom || peerResumptionId; the id
    sent in sigma2 resume is a fresh one of 16 bytes and is the id that
    the record carries and is persisted with afterwards; no new record is
    made, and the messenger is closed before the record is saved. *)
Theorem onNewExchange_resumes w (sigma1Bytes : ByteArray) (sigma1 : Sigma1)
    (rest : list Inbound) (peerResumptionId peerResumeMic plain : ByteArray) (ref : nat)
    (record : ResumptionRecord) :
  accepting w ->
  inbound w = InSigma1 sigma1Bytes sigma1 :: InStatusReport GeneralStatusSuccess :: rest ->
  sigma1_resumptionId sigma1 = Some peerResumptionId ->
  sigma1_resumeMic sigma1 = Some peerResumeMic ->
  findRecord (heap w) peerResumptionId (resumptionRecords w) = Some (ref, record) ->
  decrypt (hkdf (sharedSecret record) (sigma1_random sigma1 ++ peerResumptionId)
                KDFSR1_KEY_INFO)
          peerResumeMic RESUME1_MIC_NONCE = Returned plain ->
  let resumptionId := randomBytes w (drawn w + 32) 16 in
  let session := resumedSession record (nextSessionId w) sigma1 peerResumptionId in
  exists w',
    onNewExchange w = (Returned tt, w')
    /\ sessions w' = sessions w ++ [session]
    /\ heap w' = <[ref := withResumptionId resumptionId record]> (heap w)
    /\ resumptionRecords w' = resumptionRecords w
    /\ length resumptionId = 16%nat
    /\ trace w' = trace w ++ [ EvInfo ("Case server: Received pairing request from "
                                         +:+ channelName w);
                               EvReceived (InSigma1 sigma1Bytes sigma1);
                               EvSent (OutSigma2Resume
                                         (sigma2ResumeFor record (nextSessionId w) sigma1
                                                          resumptionId));
                               EvInfo ("Case server: session " +:+ pretty (nextSessionId w)
                                         +:+ " resumed with " +:+ channelName w);
                               EvReceived (InStatusReport GeneralStatusSuccess);
                               EvClose;
                               EvSaved (withResumptionId resumptionId record) ]
    /\ inbound w' = rest.
Proof.
  intros Hok Hin Hid Hmic Hfound Hopen resumptionId session.
  destruct (findRecord_Some _ _ _ _ _ Hfound) as (Href & Hlookup & _).
  assert (alter (withResumptionId resumptionId) ref (heap w)
          = <[ref := withResumptionId resumptionId record]> (heap w)) as Halter.
  { apply list_eq. intros i. destruct (decide (i = ref)) as [->|Hi].
    - rewrite list_lookup_alter_eq, Hlookup. simpl.
      symmetry. apply list_lookup_insert_eq. by eapply lookup_lt_Some.
    - by rewrite list_lookup_alter_ne, list_lookup_insert_ne by done. }
  eexists. split.
  - unfold onNewExchange. eapply run_tryCatch.
    rewrite (handleSigma1_resumable w sigma1Bytes sigma1 _ _ _ _ _ Hin Hid Hmic Hfound).
    fold resumptionId. unfold resume.
    erewrite run_bind by (unfold Eff.lift; rewrite Hopen; reflexivity).
    erewrite run_bind by reflexivity.
    erewrite run_bind
      by (eapply run_tryCatch; unfold sendSigma2Resume; apply handshake_send_accepted, Hok).
    erewrite run_bind by reflexivity.
    erewrite run_bind by reflexivity.
    erewrite run_bind by reflexivity.
    erewrite run_bind
      by (unfold waitForSuccess; erewrite run_bind
            by (unfold nextMessage; world_simpl; reflexivity);
          cbv beta iota; rewrite decide_True by done; reflexivity).
    erewrite run_bind by reflexivity.
    unfold saveResumptionRecord. world_simpl.
    rewrite list_lookup_alter_eq, Hlookup. simpl. reflexivity.
  - world_simpl. split; [done|]. split; [done|]. split; [by rewrite decide_True|].
    split. { unfold resumptionId, randomBytes. by rewrite length_map, length_seq. }
    split; [|done]. by rewrite <- !app_assoc.
Qed.

Lemma filter_all {A} (P : A -> Prop) `{forall x, Decision (P x)} (l : list A) :
  Forall P l -> filter P l = l.
Proof.
  induction 1 as [|x l Hx Hl IH]; [done|].
  rewrite filter_cons_True by done. by rewrite IH.
Qed.

(** X29.  A resumption whose sigma2 resume the exchange does not accept.
    The node has a record under the resumption id of sigma1 and the MIC
    opens, so the session is registered; the send of sigma2 resume fails:
    [handleSigma1] throws the error of the send, and the session has been
    destroyed, so that the node holds the sessions it held before (the id
    of the new session being one that no session of the node has); the
    record keeps its resumption id, nothing is persisted and the
    messenger is not closed. *)
Theorem handleSigma1_resume_not_sent w (sigma1Bytes : ByteArray) (sigma1 : Sigma1)
    (rest : list Inbound) (peerResumptionId peerResumeMic plain : ByteArray) (ref : nat)
    (record : ResumptionRecord) :
  inbound w = InSigma1 sigma1Bytes sigma1 :: rest ->
  sigma1_resumptionId sigma1 = Some peerResumptionId ->
  sigma1_resumeMic sigma1 = Some peerResumeMic ->
  findRecord (heap w) peerResumptionId (resumptionRecords w) = Some (ref, record) ->
  decrypt (hkdf (sharedSecret record) (sigma1_random sigma1 ++ peerResumptionId)
                KDFSR1_KEY_INFO)
          peerResumeMic RESUME1_MIC_NONCE = Returned plain ->
  sendOk w (length (trace w) + 2)%nat = false ->
  Forall (fun s => session_id s <> nextSessionId w) (sessions w) ->
  exists w',
    handleSigma1 w = (Thrown TransportError, w')
    /\ sessions w' = sessions w
    /\ heap w' = heap w
    /\ resumptionRecords w' = resumptionRecords w
    /\ trace w' = trace w ++ [ EvInfo ("Case server: Received pairing request from "
                                         +:+ channelName w);
                               EvReceived (InSigma1 sigma1Bytes sigma1) ].
Proof.
  intros Hin Hid Hmic Hfound Hopen Hrefused Hfresh.
  eexists. split.
  - rewrite (handleSigma1_resumable w sigma1Bytes sigma1 _ _ _ _ _ Hin Hid Hmic Hfound).
    unfold resume.
    erewrite run_bind by (unfold Eff.lift; rewrite Hopen; reflexivity).
    erewrite run_bind by reflexivity.
    erewrite run_bind_thrown; [reflexivity|].
    erewrite run_tryCatch_thrown.
    2: { unfold sendSigma2Resume, send. world_simpl.
         rewrite !length_app. simpl.
         replace (length (trace w) + 1 + 1)%nat with (length (trace w) + 2)%nat by lia.
         rewrite Hrefused. reflexivity. }
    erewrite run_bind by reflexivity. reflexivity.
  - world_simpl. split; [|split; [done|split; [done|by rewrite <- !app_assoc]]].
    rewrite filter_app, filter_all by done.
    rewrite filter_singleton_False; [by rewrite app_nil_r|exact []|by intros Hne].
Qed.

(** *** What a handshake never touches *)

Section Frame.
Context {T : Type} (proj : World -> T).
Hypothesis proj_emit : forall ev w, proj (emit ev w) = proj w.
Hypothesis proj_setInbound : forall i w, proj (setInbound i w) = proj w.
Hypothesis proj_setDrawn : forall n w, proj (setDrawn n w) = proj w.
Hypothesis proj_setSessions : forall f w, proj (setSessions f w) = proj w.
Hypothesis proj_setHeap : forall f w, proj (setHeap f w) = proj w.
Hypothesis proj_setResumptionRecords :
  forall f w, proj (setResumptionRecords f w) = proj w.

Lemma case_keeps_send m : Eff.keeps proj (send m).
Proof. by apply handshake_keeps_send. Qed.

Lemma case_keeps_nextMessage : Eff.keeps proj nextMessage.
Proof. by apply handshake_keeps_nextMessage. Qed.

Lemma case_keeps_waitForSuccess : Eff.keeps proj waitForSuccess.
Proof. by apply handshake_keeps_waitForSuccess. Qed.

Lemma case_keeps_createSecureSession (s : SecureSession) :
  Eff.keeps proj (createSecureSession s).
Proof.
  apply keeps_bind; [by apply keeps_modify|]. intros _. apply keeps_ret.
Qed.

Lemma case_keeps_saveResumptionRecord (ref : nat) : Eff.keeps proj (saveResumptionRecord ref).
Proof.
  intros w. unfold saveResumptionRecord.
  destruct (heap w !! ref); simpl; by rewrite ?proj_emit, proj_setResumptionRecords.
Qed.

Lemma case_keeps_resume (sessionId : N) (resumptionId : ByteArray) (sigma1 : Sigma1)
    (peerResumptionId peerResumeMic : ByteArray) (ref : nat) (record : ResumptionRecord) :
  Eff.keeps proj (resume sessionId resumptionId sigma1 peerResumptionId peerResumeMic
                         ref record).
Proof.
  unfold resume.
  apply keeps_bind; [apply keeps_lift|]. intros _.
  apply keeps_bind; [apply case_keeps_createSecureSession|]. intros session.
  apply keeps_bind.
  { apply keeps_tryCatch; [apply case_keeps_send|]. intros e.
    apply keeps_bind; [by apply keeps_modify|]. intros _. apply keeps_throw. }
  intros _.
  apply keeps_bind; [apply keeps_gets|]. intros name.
  apply keeps_bind; [by apply keeps_modify|]. intros _.
  apply keeps_bind; [by apply keeps_modify|]. intros _.
  apply keeps_bind; [apply case_keeps_waitForSuccess|]. intros _.
  apply keeps_bind; [by apply keeps_modify|]. intros _.
  apply case_keeps_saveResumptionRecord.
Qed.

Lemma case_keeps_establish (sessionId : N) (random resumptionId sigma1Bytes : ByteArray)
    (sigma1 : Sigma1) :
  Eff.keeps proj (establish sessionId random resumptionId sigma1Bytes sigma1).
Proof.
  unfold establish.
  apply keeps_bind; [by intros w|]. intros fabric.
  apply keeps_bind; [by apply handshake_keeps_getRandomData|]. intros seed.
  destruct (ecdhGeneratePublicKeyAndSecret _ seed) as [ecdhPublicKey secret].
  apply keeps_bind.
  { apply keeps_bind; [apply case_keeps_send|]. intros _. apply keeps_ret. }
  intros sigma2Bytes.
  apply keeps_bind.
  { apply keeps_bind; [apply case_keeps_nextMessage|].
    intros []; first [apply keeps_ret | apply keeps_throw]. }
  intros [sigma3Bytes peerEncrypted].
  apply keeps_bind; [apply keeps_lift|]. intros peerEncryptedData.
  apply keeps_bind; [apply keeps_lift|]. intros tbe3.
  apply keeps_bind; [apply keeps_lift|]. intros _.
  apply keeps_bind; [apply keeps_lift|]. intros cert.
  apply keeps_bind; [apply keeps_lift|]. intros _.
  apply keeps_bind; [apply case_keeps_createSecureSession|]. intros session.
  apply keeps_bind; [apply keeps_gets|]. intros name.
  apply keeps_bind; [by apply keeps_modify|]. intros _.
  apply keeps_bind; [apply case_keeps_send|]. intros _.
  apply keeps_bind; [by intros w; apply proj_setHeap|]. intros ref.
  apply keeps_bind; [by apply keeps_modify|]. intros _.
  apply case_keeps_saveResumptionRecord.
Qed.

(** Apart from taking a session id, [handleSigma1] keeps [proj]. *)
Lemma handleSigma1_frame w :
  proj (handleSigma1 w).2 = proj (setNextSessionId (nextSessionId w + 1) w).
Proof.
  unfold handleSigma1.
  erewrite run_bind by reflexivity.
  erewrite run_bind by reflexivity.
  erewrite run_bind by reflexivity.
  etrans; [|exact (proj_emit (EvInfo ("Case server: Received pairing request from "
                                        +:+ channelName w))
                             (setNextSessionId (nextSessionId w + 1) w))].
  refine (keeps_bind proj _ _ _ _ _); [by apply handshake_keeps_getRandomData|].
  intros random.
  apply keeps_bind.
  { apply keeps_bind; [apply case_keeps_nextMessage|].
    intros []; first [apply keeps_ret | apply keeps_throw]. }
  intros [sigma1Bytes sigma1].
  apply keeps_bind; [by apply handshake_keeps_getRandomData|]. intros resumptionId.
  destruct (sigma1_resumptionId sigma1) as [peerResumptionId|];
    [|apply case_keeps_establish].
  destruct (sigma1_resumeMic sigma1) as [peerResumeMic|]; [|apply case_keeps_establish].
  apply keeps_bind; [apply keeps_gets|].
  intros [[ref record]|]; [apply case_keeps_resume|apply case_keeps_establish].
Qed.
End Frame.

(** X30.  Whatever the peer sends, on an exchange that accepts what is
    sent [onNewExchange] does not throw.  When [handleSigma1] returns,
    [onNewExchange] adds nothing to what it did; when [handleSigma1]
    throws, its error is logged with the line "An error occurred during
    the commissioning" and then the Error status is sent, and nothing
    else is done.  Every call, failed or not, takes exactly one session
    id, and the fabrics of the node are never changed. *)
Theorem onNewExchange_returns w :
  accepting w ->
  exists w',
    onNewExchange w = (Returned tt, w')
    /\ nextSessionId w' = (nextSessionId w + 1)%N
    /\ fabrics w' = fabrics w
    /\ (forall w1, handleSigma1 w = (Returned tt, w1) -> w' = w1)
    /\ (forall e w1,
          handleSigma1 w = (Thrown e, w1) ->
          w' = emit (EvSent OutError)
                    (emit (EvError "An error occurred during the commissioning" e) w1)
          /\ trace w' = trace w1 ++ [ EvError "An error occurred during the commissioning" e;
                                      EvSent OutError ]
          /\ errorSent w' = true).
Proof.
  intros Hok.
  pose proof (handleSigma1_frame sendOk) as Hsend.
  pose proof (handleSigma1_frame nextSessionId) as Hnext.
  pose proof (handleSigma1_frame fabrics) as Hfabrics.
  specialize (Hsend ltac:(done) ltac:(done) ltac:(done) ltac:(done) ltac:(done) ltac:(done) w).
  specialize (Hnext ltac:(done) ltac:(done) ltac:(done) ltac:(done) ltac:(done) ltac:(done) w).
  specialize (Hfabrics ltac:(done) ltac:(done) ltac:(done) ltac:(done) ltac:(done)
                       ltac:(done) w).
  destruct (handleSigma1 w) as [[[]|e] w1] eqn:Hrun; simpl in Hsend, Hnext, Hfabrics.
  - exists w1. unfold onNewExchange. erewrite run_tryCatch by done.
    split; [done|]. split; [done|]. split; [done|].
    split; [by intros w2 [= <-]|by intros e w2].
  - eexists. erewrite onNewExchange_reports_error; [|done|].
    2: { intros n. rewrite Hsend. apply Hok. }
    split; [done|]. split; [done|]. split; [done|]. split; [by intros w2|].
    intros e' w2 [= <- <-]. split; [done|]. split.
    + simpl. by rewrite <- app_assoc.
    + unfold errorSent. simpl. rewrite existsb_app. simpl. by rewrite orb_true_r.
Qed.
End Facts.

(** *** The properties on the scenarios *)

Import HandshakeScenarios.

(** S1: the pairing with setup pin 20202021. *)
Lemma pairing_succeeds :
  let request :=
    {| request_random := map (randomSource pairing) (seq (drawn pairing) 32);
       request_sessionId := nextSessionId pairing;
       passcodeId := DEFAULT_PASSCODE_ID;
       hasPbkdfParameters := false |} in
  let spake2p :=
    create (hash [SPAKE_CONTEXT; encodePbkdfParamRequest request; [Byte.x21]])
           [Byte.x00; Byte.x01]
           (map (randomSource pairing) (seq (drawn pairing + 32) 32)) in
  let session :=
    {| session_id := nextSessionId pairing;
       session_fabric := None;
       session_peerNodeId := UNDEFINED_NODE_ID;
       session_peerSessionId := 9;
       session_sharedSecret := [Byte.x58; Byte.x43; Byte.x48; Byte.x59];
       session_salt := [];
       isInitiator := true;
       isResumption := false;
       session_idleRetransTimeoutMs := None;
       session_activeRetransTimeoutMs := None |} in
  exists w',
    pair 20202021 pairing = (Returned session, w')
    /\ sessions w' = sessions pairing ++ [session]
    /\ trace w' = trace pairing
                  ++ [ EvSent (OutPbkdfParamRequest request);
                       EvReceived pbkdfResponse;
                       EvSent (OutPasePake1 (computeX spake2p));
                       EvReceived (pake2 hBX);
                       EvSent (OutPasePake3 [Byte.x0a; Byte.x59]);
                       EvReceived (InStatusReport GeneralStatusSuccess);
                       EvClose;
                       EvInfo ("Pase client: Paired successfully with "
                                 +:+ channelName pairing) ]
    /\ inbound w' = [].
Proof.
  assert (accepting pairing) as Hok by (intros n; reflexivity).
  exact (pair_succeeds pairing 20202021 [Byte.x21]
           {| pbkdfParameters := Some {| iterations := 1000; salt := [Byte.x00; Byte.x01] |};
              response_sessionId := 9 |}
           {| iterations := 1000; salt := [Byte.x00; Byte.x01] |}
           [Byte.x00; Byte.x01] [Byte.x01; Byte.x00] [Byte.x59] hBX
           [Byte.x58; Byte.x43; Byte.x48; Byte.x59] [Byte.x0a; Byte.x59] hBX []
           Hok eq_refl eq_refl eq_refl eq_refl eq_refl).
Defined.

(** A response without parameters ends the pairing. *)
Lemma pairing_without_parameters :
  let request :=
    {| request_random :=
         map (randomSource withoutParameters) (seq (drawn withoutParameters) 32);
       request_sessionId := nextSessionId withoutParameters;
       passcodeId := DEFAULT_PASSCODE_ID;
       hasPbkdfParameters := false |} in
  exists w',
    pair 20202021 withoutParameters
    = (Thrown (JsError "Missing requested PbkdfParameters in the response"), w')
    /\ trace w' = trace withoutParameters
                  ++ [ EvSent (OutPbkdfParamRequest request);
                       EvReceived (InPbkdfParamResponse [Byte.x21] bareResponse) ]
    /\ sessions w' = sessions withoutParameters
    /\ inbound w' = [].
Proof.
  assert (accepting withoutParameters) as Hok by (intros n; reflexivity).
  exact (pair_missing_parameters withoutParameters 20202021 [Byte.x21] bareResponse []
           Hok eq_refl eq_refl).
Defined.

(** A full handshake with the home fabric: the peer's node id is the one
    of its certificate, 77. *)
Lemma full_handshake_establishes :
  let resumptionId := randomBytes fullHandshake (drawn fullHandshake + 32) 16 in
  let keys := ecdhGeneratePublicKeyAndSecret
                (sigma1_ecdhPublicKey freshSigma1)
                (randomBytes fullHandshake (drawn fullHandshake + 32 + 16) 32) in
  let sigma2 := sigma2For home (randomBytes fullHandshake (drawn fullHandshake) 32)
                          (nextSessionId fullHandshake) resumptionId [Byte.x30] freshSigma1
                          keys in
  let session := establishedSession home (nextSessionId fullHandshake) freshSigma1 keys
                                    [Byte.x30] (encodeSigma2 sigma2) [Byte.x32] 77%N in
  let record := {| sharedSecret := keys.2; fabric := home; peerNodeId := 77%N;
                   resumptionId := resumptionId |} in
  exists w',
    onNewExchange fullHandshake = (Returned tt, w')
    /\ sessions w' = sessions fullHandshake ++ [session]
    /\ heap w' = heap fullHandshake ++ [record]
    /\ length (heap fullHandshake) ∈ resumptionRecords w'
    /\ length resumptionId = 16%nat
    /\ trace w' = trace fullHandshake
                  ++ [ EvInfo ("Case server: Received pairing request from "
                                 +:+ channelName fullHandshake);
                       EvReceived (InSigma1 [Byte.x30] freshSigma1);
                       EvSent (OutSigma2 sigma2);
                       EvReceived (InSigma3 [Byte.x32] sigma3Payload);
                       EvInfo ("Case server: session " +:+ pretty (nextSessionId fullHandshake)
                                 +:+ " created with " +:+ channelName fullHandshake);
                       EvSent OutSuccess;
                       EvClose;
                       EvSaved record ]
    /\ inbound w' = [].
Proof.
  assert (accepting fullHandshake) as Hok by (intros n; reflexivity).
  exact (onNewExchange_full_handshake fullHandshake [Byte.x30] freshSigma1 [Byte.x32]
           sigma3Payload [] home 77%N Hok eq_refl I eq_refl eq_refl).
Defined.

(** A sigma3 that does not decrypt is answered with the Error status. *)
Lemma sealed_sigma3_rejected :
  let keys := ecdhGeneratePublicKeyAndSecret
                (sigma1_ecdhPublicKey freshSigma1)
                (randomBytes sealedSigma3 (drawn sealedSigma3 + 32 + 16) 32) in
  let sigma2 := sigma2For home (randomBytes sealedSigma3 (drawn sealedSigma3) 32)
                          (nextSessionId sealedSigma3)
                          (randomBytes sealedSigma3 (drawn sealedSigma3 + 32) 16)
                          [Byte.x30] freshSigma1 keys in
  exists w',
    onNewExchange sealedSigma3 = (Returned tt, w')
    /\ sessions w' = sessions sealedSigma3
    /\ heap w' = heap sealedSigma3
    /\ resumptionRecords w' = resumptionRecords sealedSigma3
    /\ trace w' = trace sealedSigma3
                  ++ [ EvInfo ("Case server: Received pairing request from "
                                 +:+ channelName sealedSigma3);
                       EvReceived (InSigma1 [Byte.x30] freshSigma1);
                       EvSent (OutSigma2 sigma2);
                       EvReceived (InSigma3 [Byte.x32] [Byte.x00]);
                       EvError "An error occurred during the commissioning" decryptionFailure;
                       EvSent OutError ].
Proof.
  assert (accepting sealedSigma3) as Hok by (intros n; reflexivity).
  exact (onNewExchange_sigma3_rejected sealedSigma3 [Byte.x30] freshSigma1 [Byte.x32]
           [Byte.x00] [] home decryptionFailure Hok eq_refl I eq_refl eq_refl).
Defined.

(** A node without fabric answers sigma1 with the Error status. *)
Lemma uncommissioned_node_refuses :
  exists w',
    onNewExchange (uncommissioned [InSigma1 [Byte.x30] freshSigma1]) = (Returned tt, w')
    /\ sessions w' = sessions (uncommissioned [InSigma1 [Byte.x30] freshSigma1])
    /\ heap w' = heap (uncommissioned [InSigma1 [Byte.x30] freshSigma1])
    /\ resumptionRecords w'
       = resumptionRecords (uncommissioned [InSigma1 [Byte.x30] freshSigma1])
    /\ trace w' = trace (uncommissioned [InSigma1 [Byte.x30] freshSigma1])
                  ++ [ EvInfo ("Case server: Received pairing request from "
                                 +:+ channelName
                                       (uncommissioned [InSigma1 [Byte.x30] freshSigma1]));
                       EvReceived (InSigma1 [Byte.x30] freshSigma1);
                       EvError "An error occurred during the commissioning"
                               (JsError "Fabric cannot be found from destinationId");
                       EvSent OutError ]
    /\ inbound w' = [].
Proof.
  assert (accepting (uncommissioned [InSigma1 [Byte.x30] freshSigma1])) as Hok
    by (intros n; reflexivity).
  exact (onNewExchange_unknown_destination (uncommissioned [InSigma1 [Byte.x30] freshSigma1])
           [Byte.x30] freshSigma1 [] (JsError "Fabric cannot be found from destinationId")
           Hok eq_refl I eq_refl).
Defined.

(** S3: the resumption that the peer confirms. *)
Lemma resume_confirmed_end_to_end :
  let resumptionId := randomBytes resumeConfirmed (drawn resumeConfirmed + 32) 16 in
  let session := resumedSession known (nextSessionId resumeConfirmed) resumeSigma1 R in
  exists w',
    onNewExchange resumeConfirmed = (Returned tt, w')
    /\ sessions w' = sessions resumeConfirmed ++ [session]
    /\ heap w' = <[0%nat := withResumptionId resumptionId known]> (heap resumeConfirmed)
    /\ resumptionRecords w' = resumptionRecords resumeConfirmed
    /\ length resumptionId = 16%nat
    /\ trace w' = trace resumeConfirmed
                  ++ [ EvInfo ("Case server: Received pairing request from "
                                 +:+ channelName resumeConfirmed);
                       EvReceived (InSigma1 [Byte.x30] resumeSigma1);
                       EvSent (OutSigma2Resume
                                 (sigma2ResumeFor known (nextSessionId resumeConfirmed)
                                                  resumeSigma1 resumptionId));
                       EvInfo ("Case server: session "
                                 +:+ pretty (nextSessionId resumeConfirmed)
                                 +:+ " resumed with " +:+ channelName resumeConfirmed);
                       EvReceived (InStatusReport GeneralStatusSuccess);
                       EvClose;
                       EvSaved (withResumptionId resumptionId known) ]
    /\ inbound w' = [].
Proof.
  assert (accepting resumeConfirmed) as Hok by (intros n; reflexivity).
  exact (onNewExchange_resumes resumeConfirmed [Byte.x30] resumeSigma1 [] R
           (encrypt (hkdf S (peerRandom ++ R) KDFSR1_KEY_INFO) [] RESUME1_MIC_NONCE) []
           0%nat known Hok eq_refl eq_refl eq_refl eq_refl eq_refl).
Defined.

(** The resume of S3 on an exchange that refuses sigma2 resume. *)
Lemma resume_unsent_destroys_session :
  exists w',
    handleSigma1 resumeUnsent = (Thrown TransportError, w')
    /\ sessions w' = sessions resumeUnsent
    /\ heap w' = heap resumeUnsent
    /\ resumptionRecords w' = resumptionRecords resumeUnsent
    /\ trace w' = trace resumeUnsent
                  ++ [ EvInfo ("Case server: Received pairing request from "
                                 +:+ channelName resumeUnsent);
                       EvReceived (InSigma1 [Byte.x30] resumeSigma1) ].
Proof.
  exact (handleSigma1_resume_not_sent resumeUnsent [Byte.x30] resumeSigma1 [] R
           (encrypt (hkdf S (peerRandom ++ R) KDFSR1_KEY_INFO) [] RESUME1_MIC_NONCE) []
           0%nat known eq_refl eq_refl eq_refl eq_refl eq_refl eq_refl (Forall_nil_2 _)).
Defined.

(** The resume attempt whose MIC does not open: the handler returns, has
    taken session id 1, and has logged the error and sent the Error
    status. *)
Lemma bad_mic_handled :
  exists w',
    onNewExchange resumeBadMic = (Returned tt, w')
    /\ nextSessionId w' = (nextSessionId resumeBadMic + 1)%N
    /\ fabrics w' = fabrics resumeBadMic
    /\ (forall w1, handleSigma1 resumeBadMic = (Returned tt, w1) -> w' = w1)
    /\ (forall e w1,
          handleSigma1 resumeBadMic = (Thrown e, w1) ->
          w' = emit (EvSent OutError)
                    (emit (EvError "An error occurred during the commissioning" e) w1)
          /\ trace w' = trace w1 ++ [ EvError "An error occurred during the commissioning" e;
                                      EvSent OutError ]
          /\ errorSent w' = true).
Proof.
  assert (accepting resumeBadMic) as Hok by (intros n; reflexivity).
  exact (onNewExchange_returns resumeBadMic Hok).
Defined.
End HandshakeCoverage.
